(** * NUSA Compute provider client: a shallow embedding of [provider_client.py]

    The provider client detects the local GPU, resolves a persistent node
    identifier, connects to the registry and then reports a heartbeat every
    [HEARTBEAT_INTERVAL] seconds until it is interrupted.

    The program is embedded as functions in a small monad [M] that threads
    the mutable world (the identifier file, the registry table, the number of
    calls made to each collaborator), reads the behaviour of the
    collaborators from an environment [Env], records every external call as
    an [event], and propagates Python exceptions. *)

From Stdlib Require Import ZArith NArith Floats String Ascii Lia.
From Stdlib Require Import HexadecimalString DecimalString.
From Stdlib Require HexadecimalFacts HexadecimalPos.
From stdpp Require Import gmap strings list.

Open Scope Z_scope.

(** ** Python text

    A Python [str] is a sequence of Unicode code points. *)

Definition pystr := list N.

(** A literal of the program text as a [str]. *)
Definition u (s : string) : pystr := N_of_ascii <$> list_ascii_of_string s.

(** [str.isspace] on one code point (the table of [_PyUnicode_IsWhitespace]). *)
Definition isspace (c : N) : bool :=
  ((9 <=? c) && (c <=? 13) || (28 <=? c) && (c <=? 32)
   || (c =? 0x85) || (c =? 0xA0) || (c =? 0x1680)
   || (0x2000 <=? c) && (c <=? 0x200A)
   || (c =? 0x2028) || (c =? 0x2029) || (c =? 0x202F)
   || (c =? 0x205F) || (c =? 0x3000))%N.

Fixpoint lstrip (s : pystr) : pystr :=
  match s with
  | c :: s' => if isspace c then lstrip s' else s
  | [] => []
  end.

Definition rstrip (s : pystr) : pystr := rev (lstrip (rev s)).

(** [s.strip()] *)
Definition strip (s : pystr) : pystr := rstrip (lstrip s).

(** Truth value of a [str]: the empty string is false. *)
Definition truthy (s : pystr) : bool :=
  match s with [] => false | _ => true end.

(** [s[i:j]] for [0 <= i <= j]. *)
Definition slice (i j : nat) (s : pystr) : pystr := take (j - i) (drop i s).

(** [sep.join(parts)] *)
Fixpoint join (sep : pystr) (parts : list pystr) : pystr :=
  match parts with
  | [] => []
  | [p] => p
  | p :: ps => p ++ sep ++ join sep ps
  end.

(** ['%0<width>x' % n]: lower-case hexadecimal, zero-padded on the left. *)
Definition format_x (width : nat) (n : N) : pystr :=
  let digits := u (HexadecimalString.NilZero.string_of_uint (N.to_hex_uint n)) in
  replicate (width - length digits) 48%N ++ digits.

(** ['%0<width>d' % n] for a natural number. *)
Definition format_d (width : nat) (n : N) : pystr :=
  let digits := u (DecimalString.NilZero.string_of_uint (N.to_uint n)) in
  replicate (width - length digits) 48%N ++ digits.

(** [bytes(s, "utf-8")] *)
Definition utf8_char (c : N) : list N :=
  (if c <? 0x80 then [c]
   else if c <? 0x800 then
     [N.lor 0xC0 (N.shiftr c 6); N.lor 0x80 (N.land c 0x3F)]
   else if c <? 0x10000 then
     [N.lor 0xE0 (N.shiftr c 12); N.lor 0x80 (N.land (N.shiftr c 6) 0x3F);
      N.lor 0x80 (N.land c 0x3F)]
   else
     [N.lor 0xF0 (N.shiftr c 18); N.lor 0x80 (N.land (N.shiftr c 12) 0x3F);
      N.lor 0x80 (N.land (N.shiftr c 6) 0x3F); N.lor 0x80 (N.land c 0x3F)])%N.

Definition utf8 (s : pystr) : list N := s ≫= utf8_char.

(** ** UUIDs (module [uuid]) *)

(** A [UUID] object is its 128-bit integer. *)
Definition UUID := N.

(** [UUID(int=i, version=v)]: the variant is set to RFC 4122, then the
    version number is written. *)
Definition UUID_version (i : N) (version : N) : UUID :=
  (let i := N.ldiff i (N.shiftl 0xc000 48) in
   let i := N.lor i (N.shiftl 0x8000 48) in
   let i := N.ldiff i (N.shiftl 0xf000 64) in
   N.lor i (N.shiftl version 76))%N.

(** [UUID.bytes]: sixteen bytes, big-endian. *)
Definition UUID_bytes (x : UUID) : list N :=
  (fun k => N.land (N.shiftr x (8 * N.of_nat (15 - k))) 0xFF)%N <$> seq 0 16.

(** [str(UUID)] *)
Definition UUID_str (x : UUID) : pystr :=
  let hex := format_x 32 x in
  slice 0 8 hex ++ u "-" ++ slice 8 12 hex ++ u "-" ++ slice 12 16 hex
    ++ u "-" ++ slice 16 20 hex ++ u "-" ++ drop 20 hex.

(** ** Floating point (Python [float] is binary64) *)

Definition float := PrimFloat.float.

(** [num / den] rounded to the nearest integer, ties to even
    ([num >= 0], [den > 0]). *)
Definition div_half_even (num den : Z) : Z :=
  let q := num / den in
  let r := num mod den in
  if 2 * r <? den then q
  else if den <? 2 * r then q + 1
  else if Z.even q then q else q + 1.

(** [round(x, ndigits)] for [ndigits >= 0]: the decimal expansion of [x] is
    rounded correctly to [ndigits] places (ties to even on the exact value),
    and the decimal obtained is converted back to the nearest float. Zeros,
    infinities and NaN round to themselves. *)
Definition py_round (x : float) (ndigits : Z) : float :=
  match Prim2SF x with
  | S754_finite s m e =>
      let scale := 10 ^ ndigits in
      let n := if 0 <=? e then Z.pos m * 2 ^ e * scale
               else div_half_even (Z.pos m * scale) (2 ^ (- e)) in
      match n with
      | Z.pos p =>
          SF2Prim (SFdiv prec emax (S754_finite s p 0)
                     (S754_finite false (Z.to_pos scale) 0))
      | _ => if s then (-0)%float else 0%float
      end
  | _ => x
  end.

(** [int(x)]: truncation towards zero; [None] stands for the [ValueError]
    (NaN) or [OverflowError] (infinity) that Python raises. *)
Definition py_int (x : float) : option Z :=
  match Prim2SF x with
  | S754_zero _ => Some 0
  | S754_finite s m e =>
      let a := if 0 <=? e then Z.pos m * 2 ^ e else Z.pos m / 2 ^ (- e) in
      Some (if s then - a else a)
  | _ => None
  end.

(** ** Data of the program *)

(** A GPU as reported by [GPUtil.getGPUs()]. *)
Record GPU := {
  gpu_name : pystr;
  gpu_memoryTotal : float;
  gpu_driver : pystr;
  gpu_load : float;
}.

(** [class GPUInfo] *)
Record GPUInfo := {
  name : pystr;
  vram_total : Z;
  driver_version : pystr;
  load : float;
}.

(** A [datetime]; [tzinfo] is the offset from UTC in minutes of an aware
    value and [None] for a naive one. *)
Record datetime := {
  year : N; month : N; day : N;
  hour : N; minute : N; second : N; microsecond : N;
  tzinfo : option Z;
}.

(** [timezone.utc] *)
Definition timezone_utc : option Z := Some 0.

(** [datetime.isoformat()] *)
Definition isoformat (t : datetime) : pystr :=
  format_d 4 (year t) ++ u "-" ++ format_d 2 (month t) ++ u "-"
    ++ format_d 2 (day t) ++ u "T" ++ format_d 2 (hour t) ++ u ":"
    ++ format_d 2 (minute t) ++ u ":" ++ format_d 2 (second t)
    ++ (if (microsecond t =? 0)%N then [] else u "." ++ format_d 6 (microsecond t))
    ++ match tzinfo t with
       | None => []
       | Some off =>
           u (if off <? 0 then "-" else "+")
             ++ format_d 2 (Z.to_N (Z.abs off / 60)) ++ u ":"
             ++ format_d 2 (Z.to_N (Z.abs off mod 60))
       end.

(** [datetime.strftime("%H:%M")] *)
Definition strftime_HM (t : datetime) : pystr :=
  format_d 2 (hour t) ++ u ":" ++ format_d 2 (minute t).

(** Values stored in a registry record or interpolated into a log line. *)
Inductive value :=
| VStr (s : pystr)
| VInt (z : Z)
| VFloat (x : float)
| VRepr (g : GPUInfo).

(** A [dict] with string keys: a registry record, or the fields of an update. *)
Abbreviation row := (gmap string value).

(** The handle returned by [create_client]. *)
Record Client := { client_url : pystr; client_key : pystr }.

(** A request built on [client.table(...)] and sent by [.execute()]. *)
Inductive request :=
| Upsert (table : string) (data : row) (on_conflict : string)
| Update (table : string) (fields : row) (eq_column : string) (eq_value : pystr).

Inductive level := INFO | WARNING | ERROR.

(** The calls the program makes to the outside, in the order it makes them.
    A log line is its template and the values interpolated into it. *)
Inductive event :=
| EvLog (lvl : level) (template : string) (args : list value)
| EvGetGPUs
| EvExists (path : string)
| EvReadText (path : string)
| EvWriteText (path : string) (data : pystr)
| EvCreateClient (url key : pystr)
| EvExecute (r : request)
| EvSleep (secs : Z).

(** ** Exceptions and results *)

(** The exceptions that matter to the control flow: [Exception] stands for
    every subclass of [Exception]; [KeyboardInterrupt] and [SystemExit] derive
    from [BaseException] only and pass through [except Exception]. *)
Inductive exn :=
| Exception (msg : pystr)
| KeyboardInterrupt
| SystemExit (code : Z).

(** [Running]: the computation has not finished within the fuel given. *)
Inductive result (A : Type) :=
| Ret (a : A)
| Raise (e : exn)
| Running.
Arguments Ret {A} a.
Arguments Raise {A} e.
Arguments Running {A}.

(** What a collaborator answers to one call. *)
Inductive reply (A : Type) :=
| Ok (a : A)
| Fails (msg : pystr)
| Interrupted.
Arguments Ok {A} a.
Arguments Fails {A} msg.
Arguments Interrupted {A}.

(** ** The world *)

(** The behaviour of everything outside the program. The collaborators that
    are called repeatedly answer the [n]-th call made to them. *)
Record Env := {
  (** the answer of [GPUtil.getGPUs()] *)
  env_getGPUs : nat → reply (list GPU);
  (** the hardware address *)
  env_getnode : N;
  (** the random bytes of [uuid.uuid4()], as an integer *)
  env_urandom : nat → N;
  (** the SHA-1 digest of a byte string, as an integer *)
  env_sha1 : list N → N;
  (** the error, if any, that reading the identifier file raises *)
  env_read_error : option pystr;
  (** the error, if any, that writing the identifier file raises *)
  env_write_error : option pystr;
  (** the environment variables, once [.env] is loaded *)
  env_environ : string → option pystr;
  (** the error, if any, that [create_client] raises on a URL and a key *)
  env_create_client : pystr → pystr → option pystr;
  (** the answer of the registry to a request *)
  env_execute : nat → reply unit;
  (** whether a stop signal arrives during a [time.sleep] *)
  env_sleep : nat → bool;
  (** the reading of the clock in a time zone *)
  env_now : nat → option Z → datetime;
}.

(** The registry table, keyed by node identifier. *)
Abbreviation registry := (gmap pystr row).

(** What the program changes: the text of the identifier file ([None] when
    the file does not exist; it is the only file the program touches), the
    registry table, and the number of calls made so far to each collaborator
    that answers call by call. *)
Record State := {
  st_id_file : option pystr;
  st_nodes : registry;
  st_probes : nat;
  st_randoms : nat;
  st_requests : nat;
  st_sleeps : nat;
  st_clock : nat;
}.

Definition set_id_file (f : option pystr) (st : State) : State :=
  {| st_id_file := f; st_nodes := st_nodes st; st_probes := st_probes st;
     st_randoms := st_randoms st; st_requests := st_requests st;
     st_sleeps := st_sleeps st; st_clock := st_clock st |}.

Definition set_nodes (t : registry) (st : State) : State :=
  {| st_id_file := st_id_file st; st_nodes := t; st_probes := st_probes st;
     st_randoms := st_randoms st; st_requests := st_requests st;
     st_sleeps := st_sleeps st; st_clock := st_clock st |}.

Definition next_probe (st : State) : State :=
  {| st_id_file := st_id_file st; st_nodes := st_nodes st;
     st_probes := S (st_probes st);
     st_randoms := st_randoms st; st_requests := st_requests st;
     st_sleeps := st_sleeps st; st_clock := st_clock st |}.

Definition next_random (st : State) : State :=
  {| st_id_file := st_id_file st; st_nodes := st_nodes st;
     st_probes := st_probes st;
     st_randoms := S (st_randoms st); st_requests := st_requests st;
     st_sleeps := st_sleeps st; st_clock := st_clock st |}.

Definition next_request (st : State) : State :=
  {| st_id_file := st_id_file st; st_nodes := st_nodes st;
     st_probes := st_probes st;
     st_randoms := st_randoms st; st_requests := S (st_requests st);
     st_sleeps := st_sleeps st; st_clock := st_clock st |}.

Definition next_sleep (st : State) : State :=
  {| st_id_file := st_id_file st; st_nodes := st_nodes st;
     st_probes := st_probes st;
     st_randoms := st_randoms st; st_requests := st_requests st;
     st_sleeps := S (st_sleeps st); st_clock := st_clock st |}.

Definition next_clock (st : State) : State :=
  {| st_id_file := st_id_file st; st_nodes := st_nodes st;
     st_probes := st_probes st;
     st_randoms := st_randoms st; st_requests := st_requests st;
     st_sleeps := st_sleeps st; st_clock := S (st_clock st) |}.

(** Modelled from the spec: the registry service is not part of the
    repository. It is a single table keyed by node identifier; an upsert
    replaces the record stored under the key of the record sent, an update
    overwrites the given fields of the record under the key and does nothing
    when the key is absent. A request either applies fully or fails. *)
Definition apply_request (r : request) (t : registry) : registry :=
  match r with
  | Upsert _ data on_conflict =>
      match data !! on_conflict with
      | Some (VStr key) => <[key := data]> t
      | _ => t
      end
  | Update _ fields _ key =>
      match t !! key with
      | Some old => <[key := fields ∪ old]> t
      | None => t
      end
  end.

(** ** The monad *)

Record outcome (A : Type) := {
  res : result A;
  post : State;
  evs : list event;
}.
Arguments res {A} _.
Arguments post {A} _.
Arguments evs {A} _.

Definition M (A : Type) : Type := Env → State → outcome A.

Definition ret {A} (a : A) : M A :=
  λ _ st, {| res := Ret a; post := st; evs := [] |}.

(** [after l o]: the outcome [o], preceded by the events [l]. *)
Definition after {A} (l : list event) (o : outcome A) : outcome A :=
  {| res := res o; post := post o; evs := l ++ evs o |}.

Definition bind {A B} (m : M A) (k : A → M B) : M B :=
  λ env st,
    let o := m env st in
    match res o with
    | Ret a => after (evs o) (k a env (post o))
    | Raise e => {| res := Raise e; post := post o; evs := evs o |}
    | Running => {| res := Running; post := post o; evs := evs o |}
    end.

#[global] Instance M_ret : MRet M := @ret.
#[global] Instance M_bind : MBind M := λ A B k m, bind m k.

Definition raise {A} (e : exn) : M A :=
  λ _ st, {| res := Raise e; post := st; evs := [] |}.

Definition running {A} : M A :=
  λ _ st, {| res := Running; post := st; evs := [] |}.

Definition ask : M Env := λ env st, {| res := Ret env; post := st; evs := [] |}.
Definition get : M State := λ _ st, {| res := Ret st; post := st; evs := [] |}.
Definition modify (f : State → State) : M unit :=
  λ _ st, {| res := Ret tt; post := f st; evs := [] |}.
Definition emit (e : event) : M unit :=
  λ _ st, {| res := Ret tt; post := st; evs := [e] |}.

(** [try: body except Exception as e: handler e] *)
Definition try_except {A} (body : M A) (handler : pystr → M A) : M A :=
  λ env st,
    let o := body env st in
    match res o with
    | Raise (Exception msg) => after (evs o) (handler msg env (post o))
    | _ => o
    end.

(** [try: body except KeyboardInterrupt: handler] *)
Definition try_except_KeyboardInterrupt {A} (body : M A) (handler : M A) : M A :=
  λ env st,
    let o := body env st in
    match res o with
    | Raise KeyboardInterrupt => after (evs o) (handler env (post o))
    | _ => o
    end.

(** The answer of a collaborator as the return or the exception of the call. *)
Definition answer {A} (r : reply A) : M A :=
  match r with
  | Ok a => ret a
  | Fails msg => raise (Exception msg)
  | Interrupted => raise KeyboardInterrupt
  end.

(** ** The collaborators *)

(** [logger.info], [logger.warning], [logger.error] *)
Definition log (lvl : level) (template : string) (args : list value) : M unit :=
  emit (EvLog lvl template args).

(** [sys.exit(code)] *)
Definition sys_exit {A} (code : Z) : M A := raise (SystemExit code).

(** [GPUtil.getGPUs()] *)
Definition GPUtil_getGPUs : M (list GPU) :=
  emit EvGetGPUs;;
  env ← ask; st ← get;
  modify next_probe;;
  answer (env_getGPUs env (st_probes st)).

(** [uuid.getnode()]: the hardware address as a 48-bit integer. *)
Definition uuid_getnode : M N := env ← ask; mret (env_getnode env mod 2 ^ 48)%N.

(** [uuid.UUID(int=i)] *)
Definition uuid_UUID (i : N) : M UUID :=
  if (i <? 2 ^ 128)%N then mret i
  else raise (Exception (u "int is out of range (need a 128-bit value)")).

(** [uuid.uuid4()]: sixteen random bytes, version 4. *)
Definition uuid_uuid4 : M UUID :=
  env ← ask; st ← get;
  modify next_random;;
  mret (UUID_version (env_urandom env (st_randoms st) mod 2 ^ 128)%N 4).

(** [uuid.uuid5(namespace, name)]: the first sixteen bytes of the SHA-1
    digest of the namespace bytes followed by the encoded name, version 5. *)
Definition uuid_uuid5 (namespace : UUID) (name : pystr) : M UUID :=
  env ← ask;
  let hash := env_sha1 env (UUID_bytes namespace ++ utf8 name) in
  mret (UUID_version (N.shiftr (hash mod 2 ^ 160) 32)%N 5).

(** [Path.exists()] *)
Definition path_exists (path : string) : M bool :=
  emit (EvExists path);;
  st ← get;
  mret (bool_decide (is_Some (st_id_file st))).

(** [Path.read_text()] *)
Definition read_text (path : string) : M pystr :=
  emit (EvReadText path);;
  env ← ask; st ← get;
  match env_read_error env, st_id_file st with
  | Some msg, _ => raise (Exception msg)
  | None, None => raise (Exception (u "No such file or directory"))
  | None, Some text => mret text
  end.

(** [Path.write_text(data)] *)
Definition write_text (path : string) (data : pystr) : M unit :=
  emit (EvWriteText path data);;
  env ← ask;
  match env_write_error env with
  | Some msg => raise (Exception msg)
  | None => modify (set_id_file (Some data))
  end.

(** [load_dotenv(); os.getenv(key)] reads the environment after the [.env]
    file has been merged into it. *)
Definition os_getenv (key : string) : M (option pystr) :=
  env ← ask; mret (env_environ env key).

(** [create_client(url, key)] *)
Definition create_client (url key : pystr) : M Client :=
  emit (EvCreateClient url key);;
  env ← ask;
  match env_create_client env url key with
  | Some msg => raise (Exception msg)
  | None => mret {| client_url := url; client_key := key |}
  end.

(** [request.execute()] on a request built from [client] *)
Definition execute (client : Client) (r : request) : M unit :=
  emit (EvExecute r);;
  env ← ask; st ← get;
  modify next_request;;
  answer (env_execute env (st_requests st));;
  modify (λ st, set_nodes (apply_request r (st_nodes st)) st).

(** [time.sleep(secs)]; a stop signal during the wait raises
    [KeyboardInterrupt]. *)
Definition time_sleep (secs : Z) : M unit :=
  if secs <? 0 then raise (Exception (u "sleep length must be non-negative"))
  else
    emit (EvSleep secs);;
    env ← ask; st ← get;
    modify next_sleep;;
    if env_sleep env (st_sleeps st) then raise KeyboardInterrupt else mret tt.

(** [datetime.now(tz)] *)
Definition datetime_now (tz : option Z) : M datetime :=
  env ← ask; st ← get;
  modify next_clock;;
  let t := env_now env (st_clock st) tz in
  mret {| year := year t; month := month t; day := day t; hour := hour t;
          minute := minute t; second := second t;
          microsecond := microsecond t; tzinfo := tz |}.

(** [int(x)] on a float *)
Definition int_of_float (x : float) : M Z :=
  match py_int x with
  | Some z => mret z
  | None => raise (Exception (u "cannot convert float to integer"))
  end.

(** [xs[i]] on a list *)
Definition getitem {A} (xs : list A) (i : Z) : M A :=
  match xs !! Z.to_nat (if i <? 0 then Z.of_nat (length xs) + i else i) with
  | Some x => if i <? - Z.of_nat (length xs) then
                raise (Exception (u "list index out of range"))
              else mret x
  | None => raise (Exception (u "list index out of range"))
  end.

(** ** The program *)

Definition HEARTBEAT_INTERVAL : Z := 60.
Definition MAX_RETRIES : Z := 3.
Definition RETRY_DELAYS : list Z := [1; 2; 4].
Definition NODE_ID_FILE : string := ".nusa_id".
Definition TABLE_NAME : string := "nodes".

(** ** Logging set-up (module [logging]) *)

(** The streams a handler writes to. *)
Inductive stream := stdout | stderr.

(** A [logging.StreamHandler] with its level and the format of its
    formatter. *)
Record Handler := {
  handler_stream : stream;
  handler_level : option level;
  handler_format : string;
}.

(** The logger that [logging.getLogger(name)] returns: one object per name
    for the whole process, with the level and the handlers it has been
    given so far ([None] is [NOTSET]). *)
Record Logger := {
  logger_name : string;
  logger_level : option level;
  logger_handlers : list Handler;
}.

(** [setup_logging], as a function of the state in which it finds the
    logger ["NUSA"]. *)
Definition setup_logging (found : Logger) : Logger :=
  let logger := {| logger_name := logger_name found;
                   logger_level := Some INFO;
                   logger_handlers := logger_handlers found |} in
  (* Console handler with custom format *)
  let handler := {| handler_stream := stdout;
                    handler_level := Some INFO;
                    handler_format := "[%(name)s] %(message)s" |} in
  (* Avoid duplicate handlers on reload *)
  match logger_handlers logger with
  | [] => {| logger_name := logger_name logger;
             logger_level := logger_level logger;
             logger_handlers := logger_handlers logger ++ [handler] |}
  | _ => logger
  end.

(** [range(0, 12, 2)] *)
Definition range_0_12_2 : list nat := [0; 2; 4; 6; 8; 10]%nat.

Definition get_mac_address : M pystr :=
  mac ← uuid_getnode;
  let hex := format_x 12 mac in
  mret (join (u ":") ((λ i, slice i (i + 2) hex) <$> range_0_12_2)).

Definition get_or_create_node_id : M pystr :=
  let id_file := NODE_ID_FILE in
  (* Try to read existing ID *)
  found ← path_exists id_file;
  loaded ←
    (if found : bool then
       try_except
         (text ← read_text id_file;
          let node_id := strip text in
          if truthy node_id then
            log INFO "Loaded existing node ID: {}..." [VStr (slice 0 8 node_id)];;
            mret (Some node_id)
          else mret None)
         (λ e,
            log WARNING "Could not read {}: {}" [VStr (u NODE_ID_FILE); VStr e];;
            mret None)
     else mret None);
  match loaded with
  | Some node_id => mret node_id
  | None =>
      (* Generate new ID using MAC address as namespace *)
      mac ← get_mac_address;
      node ← uuid_getnode;
      namespace ← uuid_UUID node;
      random ← uuid_uuid4;
      hashed ← uuid_uuid5 namespace (mac ++ u "-" ++ UUID_str random);
      let node_id := UUID_str hashed in
      (* Persist the ID *)
      try_except
        (write_text id_file node_id;;
         log INFO "Generated new node ID: {}..." [VStr (slice 0 8 node_id)])
        (λ e, log WARNING "Could not persist node ID: {}" [VStr e]);;
      mret node_id
  end.

Definition detect_gpu : M (option GPUInfo) :=
  try_except
    (gpus ← GPUtil_getGPUs;
     match gpus with
     | [] => mret None
     | gpu :: _ =>
         (* Use the first GPU (primary) *)
         vram ← int_of_float (gpu_memoryTotal gpu);
         mret (Some {| name := gpu_name gpu;
                       vram_total := vram;
                       driver_version := gpu_driver gpu;
                       load := (gpu_load gpu * 100)%float |})
     end)
    (λ e, log ERROR "GPU detection failed: {}" [VStr e];; mret None).

Definition get_current_gpu_load : M float :=
  found ←
    try_except
      (gpus ← GPUtil_getGPUs;
       match gpus with
       | gpu :: _ => mret (Some (gpu_load gpu * 100)%float)
       | [] => mret None
       end)
      (λ _, mret None);
  match found with
  | Some x => mret x
  | None => mret 0%float
  end.

(** [not s] for the result of [os.getenv]: [None] and the empty string. *)
Definition not_set (s : option pystr) : bool :=
  match s with
  | Some s => negb (truthy s)
  | None => true
  end.

Definition init_supabase : M (option Client) :=
  url ← os_getenv "SUPABASE_URL";
  key ← os_getenv "SUPABASE_KEY";
  if not_set url || not_set key then
    log ERROR "Missing SUPABASE_URL or SUPABASE_KEY in environment variables." [];;
    log ERROR "Please create a .env file based on .env.template" [];;
    mret None
  else if bool_decide (url = Some (u "your_supabase_url_here"))
          || bool_decide (key = Some (u "your_supabase_anon_key_here")) then
    log ERROR "Please update .env with your actual Supabase credentials." [];;
    mret None
  else
    try_except
      (client ← create_client (default [] url) (default [] key);
       log INFO "Supabase client initialized successfully." [];;
       mret (Some client))
      (λ e,
         log ERROR "Failed to initialize Supabase client: {}" [VStr e];;
         mret None).

(** The [dict] literal of [send_heartbeat]. *)
Definition heartbeat_data (node_id : pystr) (gpu_info : GPUInfo)
    (current_load : float) (status : pystr) (now : datetime) : row :=
  <["node_id" := VStr node_id]>
  (<["gpu_name" := VStr (name gpu_info)]>
  (<["vram_total" := VInt (vram_total gpu_info)]>
  (<["current_load" := VFloat (py_round current_load 2)]>
  (<["status" := VStr status]>
  (<["last_seen" := VStr (isoformat now)]> ∅))))).

(** The [for attempt in range(MAX_RETRIES)] loop of [send_heartbeat], over
    the attempts that remain. *)
Fixpoint send_heartbeat_attempts (client : Client) (data : row)
    (attempts : list Z) : M bool :=
  match attempts with
  | [] => mret false
  | attempt :: rest =>
      try_except
        ((* Upsert: Update if exists, insert if not *)
         execute client (Upsert TABLE_NAME data "node_id");;
         mret true)
        (λ e,
           if attempt <? MAX_RETRIES - 1 then
             delay ← getitem RETRY_DELAYS attempt;
             log WARNING "Heartbeat failed (attempt {}/{}): {}"
               [VInt (attempt + 1); VInt MAX_RETRIES; VStr e];;
             log WARNING "Retrying in {}s..." [VInt delay];;
             time_sleep delay;;
             send_heartbeat_attempts client data rest
           else
             log ERROR "Heartbeat failed after {} attempts: {}"
               [VInt MAX_RETRIES; VStr e];;
             mret false)
  end.

(** [range(n)] *)
Definition range (n : Z) : list Z := Z.of_nat <$> seq 0 (Z.to_nat n).

Definition send_heartbeat (client : Client) (node_id : pystr)
    (gpu_info : GPUInfo) (status : pystr) : M bool :=
  (* Get fresh GPU load for each heartbeat *)
  current_load ← get_current_gpu_load;
  (* Prepare the data payload *)
  now ← datetime_now timezone_utc;
  let data := heartbeat_data node_id gpu_info current_load status now in
  (* Retry logic with exponential backoff *)
  send_heartbeat_attempts client data (range MAX_RETRIES).

(** The [dict] literal of [update_status_offline]. *)
Definition offline_fields (now : datetime) : row :=
  <["status" := VStr (u "offline")]>
  (<["last_seen" := VStr (isoformat now)]> ∅).

Definition update_status_offline (client : Client) (node_id : pystr) : M unit :=
  try_except
    (now ← datetime_now timezone_utc;
     execute client (Update TABLE_NAME (offline_fields now) "node_id" node_id);;
     log INFO "Status updated to 'offline' in database." [])
    (λ e, log ERROR "Failed to update offline status: {}" [VStr e]).

(** One iteration of the [while True] loop. *)
Definition heartbeat_tick (client : Client) (node_id : pystr)
    (gpu_info : GPUInfo) : M unit :=
  (* Send heartbeat *)
  success ← send_heartbeat client node_id gpu_info (u "online");
  (if success : bool then
     now ← datetime_now None;
     log INFO "Heartbeat sent at {} - Status: Online" [VStr (strftime_HM now)]
   else
     log WARNING "Heartbeat failed - will retry next interval" []);;
  (* Wait for next heartbeat *)
  time_sleep HEARTBEAT_INTERVAL.

(** The [while True] loop, run for at most [fuel] iterations. *)
Fixpoint heartbeat_forever (fuel : nat) (client : Client) (node_id : pystr)
    (gpu_info : GPUInfo) : M unit :=
  match fuel with
  | O => running
  | S fuel' =>
      heartbeat_tick client node_id gpu_info;;
      heartbeat_forever fuel' client node_id gpu_info
  end.

Definition banner : value := VStr (replicate 50 61%N).

Definition run_heartbeat_loop (fuel : nat) (client : Client) (node_id : pystr)
    (gpu_info : GPUInfo) : M unit :=
  log INFO "{}" [banner];;
  log INFO "NUSA Compute Provider Client Started" [];;
  log INFO "{}" [banner];;
  log INFO "Node ID: {}..." [VStr (slice 0 8 node_id)];;
  log INFO "GPU: {}" [VStr (name gpu_info)];;
  log INFO "VRAM: {} MB" [VInt (vram_total gpu_info)];;
  log INFO "Driver: {}" [VStr (driver_version gpu_info)];;
  log INFO "Heartbeat Interval: {}s" [VInt HEARTBEAT_INTERVAL];;
  log INFO "{}" [banner];;
  log INFO "Press Ctrl+C to stop the client.\n" [];;
  try_except_KeyboardInterrupt
    (heartbeat_forever fuel client node_id gpu_info)
    (log INFO "\n" [];;
     log INFO "Shutdown requested (Ctrl+C)..." [];;
     update_status_offline client node_id;;
     log INFO "NUSA Compute Provider Client stopped." [];;
     sys_exit 0).

Definition main (fuel : nat) : M unit :=
  log INFO "Initializing NUSA Compute Provider Client..." [];;
  (* Step 1: Detect GPU *)
  log INFO "Detecting GPU..." [];;
  detected ← detect_gpu;
  match detected with
  | None =>
      log ERROR "No NVIDIA GPU detected on this machine." [];;
      log ERROR "NUSA Compute requires an NVIDIA GPU with proper drivers." [];;
      log ERROR "Please ensure:" [];;
      log ERROR "  1. An NVIDIA GPU is installed" [];;
      log ERROR "  2. NVIDIA drivers are properly installed" [];;
      log ERROR "  3. nvidia-smi command works correctly" [];;
      sys_exit 1
  | Some gpu_info =>
      log INFO "GPU detected: {}" [VRepr gpu_info];;
      (* Step 2: Get or create node ID *)
      log INFO "Setting up node identity..." [];;
      node_id ← get_or_create_node_id;
      (* Step 3: Initialize Supabase client *)
      log INFO "Connecting to Supabase..." [];;
      connected ← init_supabase;
      match connected with
      | None =>
          log ERROR "Failed to initialize Supabase client. Exiting." [];;
          sys_exit 1
      | Some client =>
          (* Step 4: Start heartbeat loop *)
          run_heartbeat_loop fuel client node_id gpu_info
      end
  end.

(** The exit status of the process for the way the main module ends: a
    normal end is 0, [sys.exit(code)] is [code], an uncaught
    [KeyboardInterrupt] ends the process by the interrupt signal (status 130
    for the shell) and any other uncaught exception prints a traceback and
    gives 1. A process that is still running has no status. *)
Definition exit_status {A} (r : result A) : option Z :=
  match r with
  | Ret _ => Some 0
  | Raise (SystemExit code) => Some code
  | Raise KeyboardInterrupt => Some 130
  | Raise (Exception _) => Some 1
  | Running => None
  end.

(** * Vocabulary of the specification *)

(** ** Observations on a trace *)

(** The requests sent to the registry, in order. *)
Definition requests (l : list event) : list request :=
  omap (λ e, match e with EvExecute r => Some r | _ => None end) l.

(** The waits, in order. *)
Definition sleeps (l : list event) : list Z :=
  omap (λ e, match e with EvSleep secs => Some secs | _ => None end) l.

(** The event is a log line. *)
Definition is_log (e : event) : bool :=
  match e with EvLog _ _ _ => true | _ => false end.

(** The trace without its log lines. *)
Definition calls (l : list event) : list event :=
  List.filter (λ e, negb (is_log e)) l.

(** The request is an upsert. *)
Definition is_upsert (r : request) : Prop :=
  match r with Upsert _ _ _ => True | Update _ _ _ _ => False end.

(** An event that is not an update request: a tick sends upserts only. *)
Definition no_update (e : event) : Prop :=
  match e with EvExecute r => is_upsert r | _ => True end.

(** ** Hypotheses on the environment *)

(** The call is answered by an exception of class [Exception]. *)
Definition failed {A} (r : reply A) : Prop := ∃ msg, r = Fails msg.

(** No stop signal reaches the process. *)
Definition no_stop_signal (env : Env) : Prop :=
  (∀ n, env_getGPUs env n ≠ Interrupted) ∧
  (∀ n, env_execute env n ≠ Interrupted) ∧
  (∀ n, env_sleep env n = false).

(** ** Invariants of the events of a computation *)

(** Every event of [m] satisfies [P], whatever the world. *)
Definition emits {A} (P : event → Prop) (m : M A) : Prop :=
  ∀ env st, Forall P (evs (m env st)).

(** ** The steps of a tick *)

(** The value of [datetime.now(tz)] at the current reading of the clock. *)
Definition now_at (env : Env) (st : State) (tz : option Z) : datetime :=
  let t := env_now env (st_clock st) tz in
  {| year := year t; month := month t; day := day t; hour := hour t;
     minute := minute t; second := second t; microsecond := microsecond t;
     tzinfo := tz |}.

(** What [get_current_gpu_load] makes of the answer of the probe. *)
Definition sampled_load (r : reply (list GPU)) : result float :=
  match r with
  | Ok (gpu :: _) => Ret (gpu_load gpu * 100)%float
  | Ok [] | Fails _ => Ret 0%float
  | Interrupted => Raise KeyboardInterrupt
  end.

(** [n] iterations of the [while True] loop that all run to their end. *)
Fixpoint ticks (n : nat) (client : Client) (node_id : pystr)
    (gpu_info : GPUInfo) : M unit :=
  match n with
  | O => mret tt
  | S n' =>
      heartbeat_tick client node_id gpu_info;;
      ticks n' client node_id gpu_info
  end.

(** ** Shutdown *)

(** The request sent by [update_status_offline] from the state [st]. *)
Definition offline_mark (env : Env) (st : State) (node_id : pystr) : request :=
  Update TABLE_NAME (offline_fields (now_at env st timezone_utc))
    "node_id" node_id.

(** The log line that follows the offline mark. *)
Definition offline_logged (r : reply unit) : event :=
  match r with
  | Fails msg => EvLog ERROR "Failed to update offline status: {}" [VStr msg]
  | _ => EvLog INFO "Status updated to 'offline' in database." []
  end.

(** The lines logged by [run_heartbeat_loop] before the loop. *)
Definition startup_banner (node_id : pystr) (gpu_info : GPUInfo) : list event :=
  [EvLog INFO "{}" [banner];
   EvLog INFO "NUSA Compute Provider Client Started" [];
   EvLog INFO "{}" [banner];
   EvLog INFO "Node ID: {}..." [VStr (slice 0 8 node_id)];
   EvLog INFO "GPU: {}" [VStr (name gpu_info)];
   EvLog INFO "VRAM: {} MB" [VInt (vram_total gpu_info)];
   EvLog INFO "Driver: {}" [VStr (driver_version gpu_info)];
   EvLog INFO "Heartbeat Interval: {}s" [VInt HEARTBEAT_INTERVAL];
   EvLog INFO "{}" [banner];
   EvLog INFO "Press Ctrl+C to stop the client.\n" []].

(** ** Start-up *)

(** An event of the start-up: neither a request nor a wait. *)
Definition startup_event (e : event) : Prop :=
  match e with
  | EvExecute _ | EvSleep _ => False
  | _ => True
  end.

(** [detect_gpu], case by case on the answer of the probe. *)
Definition detected (r : reply (list GPU))
    : result (option GPUInfo) * list event :=
  match r with
  | Ok [] => (Ret None, [])
  | Ok (gpu :: _) =>
      match py_int (gpu_memoryTotal gpu) with
      | Some vram =>
          (Ret (Some {| name := gpu_name gpu; vram_total := vram;
                        driver_version := gpu_driver gpu;
                        load := (gpu_load gpu * 100)%float |}), [])
      | None =>
          (Ret None,
           [EvLog ERROR "GPU detection failed: {}"
              [VStr (u "cannot convert float to integer")]])
      end
  | Fails msg =>
      (Ret None, [EvLog ERROR "GPU detection failed: {}" [VStr msg]])
  | Interrupted => (Raise KeyboardInterrupt, [])
  end.

(** The lines logged by [main] when no GPU is detected. *)
Definition no_gpu_diagnostic : list event :=
  [EvLog ERROR "No NVIDIA GPU detected on this machine." [];
   EvLog ERROR "NUSA Compute requires an NVIDIA GPU with proper drivers." [];
   EvLog ERROR "Please ensure:" [];
   EvLog ERROR "  1. An NVIDIA GPU is installed" [];
   EvLog ERROR "  2. NVIDIA drivers are properly installed" [];
   EvLog ERROR "  3. nvidia-smi command works correctly" []].

(** ** The record of a heartbeat *)

(** The record of a heartbeat of the node: the six columns, with the
    identifier of the node, the name and the memory of the GPU described by
    [gpu_info], a load rounded to two decimals, the status [online] and the
    ISO 8601 form of a time in UTC. *)
Definition heartbeat_record (node_id : pystr) (gpu_info : GPUInfo)
    (data : row) : Prop :=
  dom data = ({["node_id"; "gpu_name"; "vram_total"; "current_load";
                "status"; "last_seen"]} : gset string) ∧
  data !! "node_id" = Some (VStr node_id) ∧
  data !! "gpu_name" = Some (VStr (name gpu_info)) ∧
  data !! "vram_total" = Some (VInt (vram_total gpu_info)) ∧
  (∃ x, data !! "current_load" = Some (VFloat (py_round x 2))) ∧
  data !! "status" = Some (VStr (u "online")) ∧
  (∃ t, tzinfo t = timezone_utc ∧
        data !! "last_seen" = Some (VStr (isoformat t))).

(** Every upsert is the upsert of a heartbeat record of the node into
    [TABLE_NAME], keyed by [node_id]. *)
Definition sends_heartbeat (node_id : pystr) (gpu_info : GPUInfo)
    (e : event) : Prop :=
  match e with
  | EvExecute (Upsert table data on_conflict) =>
      table = TABLE_NAME ∧ on_conflict = "node_id" ∧
      heartbeat_record node_id gpu_info data
  | _ => True
  end.

(** ** The registry *)

(** The value of a column of the record stored under a key. *)
Definition stored (t : registry) (key : pystr) (column : string)
    : option value :=
  t !! key ≫= (.!! column).

(** ** The node identifier *)

(** The identifier that [get_or_create_node_id] generates from [st]. *)
Definition new_node_id (env : Env) (st : State) : pystr :=
  let node := (env_getnode env mod 2 ^ 48)%N in
  let hex := format_x 12 node in
  let mac := join (u ":") ((λ i, slice i (i + 2) hex) <$> range_0_12_2) in
  let random :=
    UUID_version (env_urandom env (st_randoms st) mod 2 ^ 128)%N 4 in
  let hash :=
    env_sha1 env (UUID_bytes node ++ utf8 (mac ++ u "-" ++ UUID_str random)) in
  UUID_str (UUID_version (N.shiftr (hash mod 2 ^ 160) 32)%N 5).

(** The identifier that [get_or_create_node_id] loads: the file is there,
    can be read and holds more than white space. *)
Definition existing_node_id (env : Env) (st : State) : option pystr :=
  match st_id_file st, env_read_error env with
  | Some text, None => if truthy (strip text) then Some (strip text) else None
  | _, _ => None
  end.

(** What the attempt to load the identifier does. *)
Definition lookup_events (env : Env) (st : State) : list event :=
  EvExists NODE_ID_FILE ::
  match st_id_file st with
  | None => []
  | Some text =>
      EvReadText NODE_ID_FILE ::
      match env_read_error env with
      | Some msg =>
          [EvLog WARNING "Could not read {}: {}"
             [VStr (u NODE_ID_FILE); VStr msg]]
      | None =>
          if truthy (strip text) then
            [EvLog INFO "Loaded existing node ID: {}..."
               [VStr (slice 0 8 (strip text))]]
          else []
      end
  end.

(** What persisting a new identifier does. *)
Definition persist_events (env : Env) (node_id : pystr) : list event :=
  EvWriteText NODE_ID_FILE node_id ::
  match env_write_error env with
  | Some msg => [EvLog WARNING "Could not persist node ID: {}" [VStr msg]]
  | None =>
      [EvLog INFO "Generated new node ID: {}..." [VStr (slice 0 8 node_id)]]
  end.

(** No code point of [s] is white space. *)
Definition nonspace (s : pystr) : Prop := Forall (λ c, isspace c = false) s.

(** ** Credentials *)

(** The registry credentials are absent or empty, or are the placeholders of
    the template, or [create_client] rejects them. *)
Definition bad_credentials (env : Env) : Prop :=
  let url := env_environ env "SUPABASE_URL" in
  let key := env_environ env "SUPABASE_KEY" in
  not_set url = true ∨ not_set key = true
  ∨ url = Some (u "your_supabase_url_here")
  ∨ key = Some (u "your_supabase_anon_key_here")
  ∨ ∃ msg, env_create_client env (default [] url) (default [] key) = Some msg.

(** ** Further observations on a run *)

(** The time spent waiting, in seconds. *)
Definition total (l : list Z) : Z := foldr Z.add 0 l.

(** The line a tick logs once [send_heartbeat] has returned, from the state
    [send_heartbeat] has left. *)
Definition tick_logged (env : Env) (st : State) (success : bool) : event :=
  if success then
    EvLog INFO "Heartbeat sent at {} - Status: Online"
      [VStr (strftime_HM (now_at env st None))]
  else EvLog WARNING "Heartbeat failed - will retry next interval" [].

(** The state a tick leaves when it runs to its end or is interrupted in
    its last wait, from the state [send_heartbeat] has left. *)
Definition tick_post (st : State) (success : bool) : State :=
  next_sleep (if success then next_clock st else st).

(** The record or the fields that a request carries. *)
Definition fields_of (r : request) : row :=
  match r with
  | Upsert _ data _ => data
  | Update _ fields _ _ => fields
  end.

(** The request carries a [last_seen] that is an ISO 8601 text with the
    offset of UTC. *)
Definition utc_stamped (e : event) : Prop :=
  match e with
  | EvExecute r =>
      ∃ s, fields_of r !! "last_seen" = Some (VStr (s ++ u "+00:00"))
  | _ => True
  end.

(** ** The load of a tick *)

(** The number of the probe that the tick under way reads, once the events
    [l] have happened, when it was [probe] before them: a tick ends with its
    wait of [HEARTBEAT_INTERVAL] seconds, and the next tick reads the next
    answer of the probe. *)
Fixpoint probe_after (probe : nat) (l : list event) : nat :=
  match l with
  | [] => probe
  | EvSleep secs :: l' =>
      probe_after (if secs =? HEARTBEAT_INTERVAL then S probe else probe) l'
  | _ :: l' => probe_after probe l'
  end.

(** Every upsert of the trace [l] carries the current load: the load sampled
    from the answer that the probe gives in the tick of that upsert, rounded
    to two decimals. [probe] is the number of the answer that the tick under
    way reads. *)
Fixpoint loads_current (env : Env) (probe : nat) (l : list event) : Prop :=
  match l with
  | [] => True
  | EvExecute (Upsert _ data _) :: l' =>
      (∃ x, sampled_load (env_getGPUs env probe) = Ret x ∧
            data !! "current_load" = Some (VFloat (py_round x 2))) ∧
      loads_current env probe l'
  | EvSleep secs :: l' =>
      loads_current env
        (if secs =? HEARTBEAT_INTERVAL then S probe else probe) l'
  | _ :: l' => loads_current env probe l'
  end.

(** An event that is neither an upsert nor a wait. *)
Definition no_delivery (e : event) : Prop :=
  match e with
  | EvExecute (Upsert _ _ _) | EvSleep _ => False
  | _ => True
  end.

(** ** Hexadecimal text *)

(** The lower-case hexadecimal digit of a value below 16. *)
Definition hex_char (v : N) : N := (if v <? 10 then 48 + v else 87 + v)%N.

(** The [k] low hexadecimal digits of [n], the lowest first. *)
Fixpoint hex_little (k : nat) (n : N) : pystr :=
  match k with
  | O => []
  | S k' => hex_char (n mod 16) :: hex_little k' (n / 16)
  end.

(** The code point is one of [0-9a-f]. *)
Definition hexdigit (c : N) : bool :=
  ((48 <=? c) && (c <=? 57) || (97 <=? c) && (c <=? 102))%N.

(** The digit of a value below 16, put before the digits [d]. *)
Definition hex_digit (v : N) (d : Hexadecimal.uint) : Hexadecimal.uint :=
  match v with
  | 0 => Hexadecimal.D0 d | 1 => Hexadecimal.D1 d | 2 => Hexadecimal.D2 d
  | 3 => Hexadecimal.D3 d | 4 => Hexadecimal.D4 d | 5 => Hexadecimal.D5 d
  | 6 => Hexadecimal.D6 d | 7 => Hexadecimal.D7 d | 8 => Hexadecimal.D8 d
  | 9 => Hexadecimal.D9 d | 10 => Hexadecimal.Da d | 11 => Hexadecimal.Db d
  | 12 => Hexadecimal.Dc d | 13 => Hexadecimal.Dd d | 14 => Hexadecimal.De d
  | _ => Hexadecimal.Df d
  end%N.

(** The [k] low hexadecimal digits of [n] as a number of the library, the
    lowest first. *)
Fixpoint hex_little_uint (k : nat) (n : N) : Hexadecimal.uint :=
  match k with
  | O => Hexadecimal.Nil
  | S k' => hex_digit (n mod 16) (hex_little_uint k' (n / 16))
  end.

(** The text of the digits of a number of the library. *)
Definition hex_text (d : Hexadecimal.uint) : pystr :=
  u (HexadecimalString.NilEmpty.string_of_uint d).

(** Six pairs of hexadecimal digits, separated by colons. *)
Definition mac_shaped (s : pystr) : Prop :=
  length s = 17%nat ∧
  ∀ i c, s !! i = Some c →
         if (i mod 3 =? 2)%nat then c = 58%N else hexdigit c = true.

(** The text of a UUID of the given version and of the RFC 4122 variant:
    36 characters, hyphens after 8, 12, 16 and 20 digits, the version as
    the first digit of the third group and 8, 9, a or b as the first digit
    of the fourth. *)
Definition uuid_shaped (version : N) (s : pystr) : Prop :=
  length s = 36%nat ∧
  (∀ i c, s !! i = Some c →
          if ((i =? 8) || (i =? 13) || (i =? 18) || (i =? 23))%nat
          then c = 45%N else hexdigit c = true) ∧
  s !! 14%nat = Some (hex_char version) ∧
  ∃ c, s !! 19%nat = Some c ∧ c ∈ [56; 57; 97; 98]%N.

(** ** Invariants of the state of a computation *)

(** The computation leaves the observation [f] of the state as it was,
    whatever the world and however it ends. *)
Definition preserves {A B} (f : State → B) (m : M A) : Prop :=
  ∀ env st, f (post (m env st)) = f st.

(** The request changes nothing but the record stored under [node_id]. *)
Definition touches_only (node_id : pystr) (r : request) : Prop :=
  match r with
  | Upsert _ data on_conflict => data !! on_conflict = Some (VStr node_id)
  | Update _ _ _ key => key = node_id
  end.

(** ** Sample worlds *)

Definition sample_gpu : GPU :=
  {| gpu_name := u "NVIDIA GeForce RTX 3080";
     gpu_memoryTotal := 10240%float;
     gpu_driver := u "535.104";
     gpu_load := 0.25%float |}.

Definition sample_info : GPUInfo :=
  {| name := u "NVIDIA GeForce RTX 3080";
     vram_total := 10240;
     driver_version := u "535.104";
     load := 25%float |}.

Definition sample_client : Client :=
  {| client_url := u "https://nusa.supabase.co"; client_key := u "anon" |}.

Definition sample_time : datetime :=
  {| year := 2025; month := 3; day := 9; hour := 7; minute := 5; second := 0;
     microsecond := 1500; tzinfo := None |}.

Definition sample_environ (key : string) : option pystr :=
  if String.eqb key "SUPABASE_URL" then Some (u "https://nusa.supabase.co")
  else if String.eqb key "SUPABASE_KEY" then Some (u "anon")
  else None.

(** A world given by the answers of the probe, of the registry and of the
    waits, and by the environment variables; files can be read and written,
    and the digest is a toy one. *)
Definition sample_env (gpus : reply (list GPU)) (execute : nat → reply unit)
    (sleep : nat → bool) (environ : string → option pystr) : Env :=
  {| env_getGPUs := λ _, gpus;
     env_getnode := 0x0242ac110002%N;
     env_urandom := λ n, (0x1f2e3d4c5b6a79880796a5b4c3d2e1f0 + N.of_nat n)%N;
     env_sha1 := λ bytes, foldl (λ h b, h * 257 + b)%N 7%N bytes;
     env_read_error := None;
     env_write_error := None;
     env_environ := environ;
     env_create_client := λ _ _, None;
     env_execute := execute;
     env_sleep := sleep;
     env_now := λ _ _, sample_time |}.

(** Everything works. *)
Definition env_online : Env :=
  sample_env (Ok [sample_gpu]) (λ _, Ok tt) (λ _, false) sample_environ.

(** The registry fails every request. *)
Definition env_down : Env :=
  sample_env (Ok [sample_gpu]) (λ _, Fails (u "connection refused"))
    (λ _, false) sample_environ.

(** The registry fails the first two requests. *)
Definition env_flaky : Env :=
  sample_env (Ok [sample_gpu])
    (λ n, if (n <? 2)%nat then Fails (u "timeout") else Ok tt)
    (λ _, false) sample_environ.

(** The stop signal arrives during the second wait. *)
Definition env_stopped : Env :=
  sample_env (Ok [sample_gpu]) (λ _, Ok tt) (λ n, (n =? 1)%nat) sample_environ.

(** The registry is down and the stop signal arrives during the wait that
    follows the first tick (the third wait: two are spent between retries). *)
Definition env_stopped_down : Env :=
  sample_env (Ok [sample_gpu]) (λ _, Fails (u "connection refused"))
    (λ n, (n =? 2)%nat) sample_environ.

(** No GPU is found. *)
Definition env_no_gpu : Env :=
  sample_env (Ok []) (λ _, Ok tt) (λ _, false) sample_environ.

(** The credentials are not set. *)
Definition env_no_credentials : Env :=
  sample_env (Ok [sample_gpu]) (λ _, Ok tt) (λ _, false) (λ _, None).

(** A first run: no identifier file, an empty registry. *)
Definition st_fresh : State :=
  {| st_id_file := None; st_nodes := ∅; st_probes := 0; st_randoms := 0;
     st_requests := 0; st_sleeps := 0; st_clock := 0 |}.

(** The identifier file holds a space and a line feed. *)
Definition st_blank : State := set_id_file (Some [32; 10]%N) st_fresh.

(** The first request fails and the stop signal arrives during the wait
    that precedes the second attempt. *)
Definition env_stopped_retrying : Env :=
  sample_env (Ok [sample_gpu])
    (λ n, if (n =? 0)%nat then Fails (u "timeout") else Ok tt)
    (λ n, (n =? 0)%nat) sample_environ.

(** The stop signal arrives during the wait that follows the first tick,
    and a second one during the offline update. *)
Definition env_stopped_twice : Env :=
  sample_env (Ok [sample_gpu])
    (λ n, if (n =? 0)%nat then Ok tt else Interrupted)
    (λ n, (n =? 0)%nat) sample_environ.

(** A GPU whose memory the driver reports as not-a-number. *)
Definition sample_gpu_nan : GPU :=
  {| gpu_name := u "NVIDIA GeForce RTX 3080";
     gpu_memoryTotal := nan;
     gpu_driver := u "535.104";
     gpu_load := 0.25%float |}.

(** The first GPU has no usable memory size; a second, sound one follows. *)
Definition env_nan_memory : Env :=
  sample_env (Ok [sample_gpu_nan; sample_gpu]) (λ _, Ok tt) (λ _, false)
    sample_environ.

(** Everything works, but the identifier file cannot be written. *)
Definition env_read_only : Env :=
  {| env_getGPUs := env_getGPUs env_online;
     env_getnode := env_getnode env_online;
     env_urandom := env_urandom env_online;
     env_sha1 := env_sha1 env_online;
     env_read_error := None;
     env_write_error := Some (u "Read-only file system");
     env_environ := env_environ env_online;
     env_create_client := env_create_client env_online;
     env_execute := env_execute env_online;
     env_sleep := env_sleep env_online;
     env_now := env_now env_online |}.

(** A first run against a registry that already holds the record of
    another node. *)
Definition st_shared : State :=
  set_nodes
    {[ u "node-2" := heartbeat_data (u "node-2") sample_info 50%float
                       (u "online") sample_time ]}
    st_fresh.

(** * The library functions on sample values *)

Example strip_spaces : strip (u "  ab c  ") = u "ab c".
Proof. reflexivity. Qed.

Example strip_unicode_spaces :
  strip [0x2003; 97; 0x85; 98; 0xA0; 10]%N = [97; 0x85; 98]%N.
Proof. reflexivity. Qed.

Example UUID_str_sample :
  UUID_str 0x123e4567e89b12d3a456426614174000%N
  = u "123e4567-e89b-12d3-a456-426614174000".
Proof. reflexivity. Qed.

Example UUID_version_bits :
  UUID_version 0 4 = 0x00000000000040008000000000000000%N
  ∧ UUID_version (2 ^ 128 - 1) 5 = 0xffffffffffff5fffbfffffffffffffff%N.
Proof. by vm_compute. Qed.

Example utf8_sample :
  utf8 [0x41; 0xE9; 0x20AC; 0x1F600]%N
  = [0x41; 0xC3; 0xA9; 0xE2; 0x82; 0xAC; 0xF0; 0x9F; 0x98; 0x80]%N.
Proof. reflexivity. Qed.

Example get_mac_address_sample :
  res (get_mac_address env_online st_fresh) = Ret (u "02:42:ac:11:00:02").
Proof. reflexivity. Qed.

Example isoformat_sample :
  isoformat (now_at env_online st_fresh timezone_utc)
  = u "2025-03-09T07:05:00.001500+00:00".
Proof. reflexivity. Qed.

(** [round(2.675, 2) == 2.67], [round(1.125, 2) == 1.12] (a tie),
    [round(1.135, 2) == 1.14], [round(-0.001, 2) == -0.0]. *)
Example py_round_samples :
  py_round (2675 / 1000)%float 2 = (267 / 100)%float
  ∧ py_round (1125 / 1000)%float 2 = (112 / 100)%float
  ∧ py_round (1135 / 1000)%float 2 = (114 / 100)%float
  ∧ py_round (-1 / 1000)%float 2 = (-0)%float
  ∧ py_round 0%float 2 = 0%float
  ∧ py_round infinity 2 = infinity.
Proof. by vm_compute. Qed.

(** [int(10240.75) == 10240], [int(-3.5) == -3]; [int(nan)] raises. *)
Example py_int_samples :
  py_int (1024075 / 100)%float = Some 10240
  ∧ py_int (-35 / 10)%float = Some (-3)
  ∧ py_int nan = None.
Proof. by vm_compute. Qed.

(** The first run of the program on a world where everything works: it is
    still running when the fuel is spent, and has sent one upsert a tick. *)
Example main_online :
  let o := main 3 env_online st_fresh in
  res o = Running
  ∧ length (requests (evs o)) = 3%nat
  ∧ sleeps (evs o) = [60; 60; 60]
  ∧ st_id_file (post o) = Some (new_node_id env_online st_fresh).
Proof. by vm_compute. Qed.

(** * Reasoning about runs *)

(** ** Sequencing *)

Lemma after_nil {A} (o : outcome A) : after [] o = o.
Proof. by destruct o. Qed.

Lemma after_after {A} l1 l2 (o : outcome A) :
  after l1 (after l2 o) = after (l1 ++ l2) o.
Proof. unfold after; simpl. by rewrite app_assoc. Qed.

Lemma res_after {A} l (o : outcome A) : res (after l o) = res o.
Proof. reflexivity. Qed.

Lemma post_after {A} l (o : outcome A) : post (after l o) = post o.
Proof. reflexivity. Qed.

Lemma evs_after {A} l (o : outcome A) : evs (after l o) = l ++ evs o.
Proof. reflexivity. Qed.

Lemma bind_Ret {A B} (m : M A) (k : A → M B) env st a :
  res (m env st) = Ret a →
  (m ≫= k) env st = after (evs (m env st)) (k a env (post (m env st))).
Proof. intros H. unfold mbind, M_bind, bind. by rewrite H. Qed.

Lemma bind_Raise {A B} (m : M A) (k : A → M B) env st e :
  res (m env st) = Raise e →
  (m ≫= k) env st
  = {| res := Raise e; post := post (m env st); evs := evs (m env st) |}.
Proof. intros H. unfold mbind, M_bind, bind. by rewrite H. Qed.

Lemma bind_assoc {A B C} (m : M A) (k1 : A → M B) (k2 : B → M C) env st :
  ((m ≫= k1) ≫= k2) env st = (m ≫= λ a, k1 a ≫= k2) env st.
Proof.
  unfold mbind, M_bind, bind.
  destruct (res (m env st)) as [a| |]; [|done..].
  rewrite res_after, post_after, evs_after.
  destruct (res (k1 a env (post (m env st)))); [|done..].
  by rewrite after_after.
Qed.

Lemma bind_Ret_inv {A B} (m : M A) (k : A → M B) env st b :
  res ((m ≫= k) env st) = Ret b →
  ∃ a, res (m env st) = Ret a ∧ res (k a env (post (m env st))) = Ret b.
Proof.
  unfold mbind, M_bind, bind.
  destruct (res (m env st)) as [a| |]; [eauto|done..].
Qed.

Lemma bind_pure {A B} (m : M A) (k : A → M B) env st a st' :
  m env st = {| res := Ret a; post := st'; evs := [] |} →
  (m ≫= k) env st = k a env st'.
Proof.
  intros H. unfold mbind, M_bind, bind. rewrite H; cbn [res post evs].
  apply after_nil.
Qed.

Lemma bind_log {A} lvl template args (k : unit → M A) env st :
  (log lvl template args ≫= k) env st
  = after [EvLog lvl template args] (k tt env st).
Proof. reflexivity. Qed.

(** ** Invariants of the events of a computation *)

Section Emits.
Context (P : event → Prop).

Lemma emits_ret {A} (a : A) : emits P (mret a).
Proof. intros env st. constructor. Qed.

Lemma emits_raise {A} e : emits P (@raise A e).
Proof. intros env st. constructor. Qed.

Lemma emits_running {A} : emits P (@running A).
Proof. intros env st. constructor. Qed.

Lemma emits_ask : emits P ask.
Proof. intros env st. constructor. Qed.

Lemma emits_get : emits P get.
Proof. intros env st. constructor. Qed.

Lemma emits_modify f : emits P (modify f).
Proof. intros env st. constructor. Qed.

Lemma emits_emit e : P e → emits P (emit e).
Proof. intros H env st. by repeat constructor. Qed.

Lemma emits_answer {A} (r : reply A) : emits P (answer r).
Proof. intros env st. destruct r; constructor. Qed.

Lemma emits_bind {A B} (m : M A) (k : A → M B) :
  emits P m → (∀ a, emits P (k a)) → emits P (m ≫= k).
Proof.
  intros Hm Hk env st. unfold mbind, M_bind, bind.
  destruct (res (m env st)); simpl; try apply Hm.
  apply Forall_app; split; [apply Hm | apply Hk].
Qed.

Lemma emits_try_except {A} (body : M A) handler :
  emits P body → (∀ e, emits P (handler e)) → emits P (try_except body handler).
Proof.
  intros Hb Hh env st. unfold try_except.
  destruct (res (body env st)) as [a|[msg| |code]|]; simpl; try apply Hb.
  apply Forall_app; split; [apply Hb | apply Hh].
Qed.

Lemma emits_try_except_KeyboardInterrupt {A} (body handler : M A) :
  emits P body → emits P handler →
  emits P (try_except_KeyboardInterrupt body handler).
Proof.
  intros Hb Hh env st. unfold try_except_KeyboardInterrupt.
  destruct (res (body env st)) as [a|[msg| |code]|]; simpl; try apply Hb.
  apply Forall_app; split; [apply Hb | apply Hh].
Qed.
End Emits.

Lemma emits_impl {A} (P Q : event → Prop) (m : M A) :
  (∀ e, P e → Q e) → emits P m → emits Q m.
Proof. intros H Hm env st. eapply Forall_impl; [apply Hm | done]. Qed.

Lemma Forall_bind {A B} P (m : M A) (k : A → M B) env st :
  Forall P (evs (m env st)) →
  (∀ a, res (m env st) = Ret a →
        Forall P (evs (k a env (post (m env st))))) →
  Forall P (evs ((m ≫= k) env st)).
Proof.
  intros Hm Hk. unfold mbind, M_bind, bind.
  destruct (res (m env st)) as [a| |]; [|done..].
  rewrite evs_after. apply Forall_app. auto.
Qed.

Lemma Forall_bind_log {A} (P : event → Prop) lvl template args
    (k : unit → M A) env st :
  P (EvLog lvl template args) →
  Forall P (evs (k tt env st)) →
  Forall P (evs ((log lvl template args ≫= k) env st)).
Proof. intros H Hk. rewrite bind_log, evs_after. by constructor. Qed.

(** Decomposes a goal [emits P m] along the structure of [m]; the goals
    left are the [P e] of the events emitted. *)
Ltac emits_step :=
  lazymatch goal with
  | |- emits _ (_ ≫= _) => apply emits_bind; [|intros ?]
  | |- emits _ (try_except _ _) => apply emits_try_except; [|intros ?]
  | |- emits _ (try_except_KeyboardInterrupt _ _) =>
      apply emits_try_except_KeyboardInterrupt
  | |- emits _ (mret _) => apply emits_ret
  | |- emits _ (raise _) => apply emits_raise
  | |- emits _ (sys_exit _) => apply emits_raise
  | |- emits _ running => apply emits_running
  | |- emits _ ask => apply emits_ask
  | |- emits _ get => apply emits_get
  | |- emits _ (modify _) => apply emits_modify
  | |- emits _ (answer _) => apply emits_answer
  | |- emits _ (emit _) => apply emits_emit
  | |- emits _ (log _ _ _) => apply emits_emit
  | |- emits _ (match ?x with _ => _ end) => destruct x
  end.

Ltac emits_auto := repeat emits_step.

(** ** Observations on a trace *)

Lemma Forall_requests (Q : request → Prop) l :
  Forall (λ e, match e with EvExecute r => Q r | _ => True end) l →
  Forall Q (requests l).
Proof.
  induction 1 as [|e l He _ IH]; [constructor|].
  destruct e; simpl; auto.
Qed.

Lemma startup_quiet l :
  Forall startup_event l → requests l = [] ∧ sleeps l = [].
Proof.
  induction 1 as [|e l He _ [IH1 IH2]]; [done|].
  by destruct e.
Qed.

Lemma Forall_no_update_logs l :
  Forall (λ e, is_log e = true) l → Forall no_update l.
Proof. intros H. eapply Forall_impl; [exact H|]. by intros []. Qed.

(** Proves [Forall P l] for an explicit list [l], each [P x] by evaluation. *)
Ltac Forall_list :=
  repeat lazymatch goal with
    | |- Forall _ (_ :: _) =>
        constructor; [first [done | by left | by right]|]
    | |- Forall _ [] => constructor
    end.

(** ** The collaborators, call by call *)

Lemma execute_ok client r env st :
  env_execute env (st_requests st) = Ok tt →
  execute client r env st
  = {| res := Ret tt;
       post := set_nodes (apply_request r (st_nodes st)) (next_request st);
       evs := [EvExecute r] |}.
Proof. intros H. unfold execute, mbind, M_bind, bind; simpl. by rewrite H. Qed.

Lemma execute_fails client r env st msg :
  env_execute env (st_requests st) = Fails msg →
  execute client r env st
  = {| res := Raise (Exception msg); post := next_request st;
       evs := [EvExecute r] |}.
Proof. intros H. unfold execute, mbind, M_bind, bind; simpl. by rewrite H. Qed.

Lemma execute_interrupted client r env st :
  env_execute env (st_requests st) = Interrupted →
  execute client r env st
  = {| res := Raise KeyboardInterrupt; post := next_request st;
       evs := [EvExecute r] |}.
Proof. intros H. unfold execute, mbind, M_bind, bind; simpl. by rewrite H. Qed.

Lemma time_sleep_eq secs env st :
  0 ≤ secs →
  time_sleep secs env st
  = {| res := if env_sleep env (st_sleeps st) then Raise KeyboardInterrupt
              else Ret tt;
       post := next_sleep st; evs := [EvSleep secs] |}.
Proof.
  intros H. unfold time_sleep.
  destruct (Z.ltb_spec secs 0) as [?|_]; [lia|].
  unfold mbind, M_bind, bind; simpl.
  by destruct (env_sleep env (st_sleeps st)).
Qed.

Lemma datetime_now_eq tz env st :
  datetime_now tz env st
  = {| res := Ret (now_at env st tz); post := next_clock st; evs := [] |}.
Proof. reflexivity. Qed.

Lemma get_current_gpu_load_eq env st :
  get_current_gpu_load env st
  = {| res := sampled_load (env_getGPUs env (st_probes st));
       post := next_probe st; evs := [EvGetGPUs] |}.
Proof.
  unfold get_current_gpu_load, try_except, GPUtil_getGPUs.
  unfold mbind, M_bind, mret, M_ret, bind; simpl.
  by destruct (env_getGPUs env (st_probes st)) as [[|g gs]|msg|].
Qed.

Lemma sampled_load_returns r :
  r ≠ Interrupted → ∃ x, sampled_load r = Ret x.
Proof. destruct r as [[|g gs]|msg|]; simpl; eauto. congruence. Qed.

Lemma bind_datetime_now {A} tz (k : datetime → M A) env st :
  (datetime_now tz ≫= k) env st = k (now_at env st tz) env (next_clock st).
Proof.
  unfold mbind, M_bind, bind. rewrite datetime_now_eq; cbn [res post evs].
  apply after_nil.
Qed.

Lemma bind_path_exists {A} path (k : bool → M A) env st :
  (path_exists path ≫= k) env st
  = after [EvExists path] (k (bool_decide (is_Some (st_id_file st))) env st).
Proof. reflexivity. Qed.

Lemma read_text_eq path env st :
  read_text path env st
  = {| res := match env_read_error env, st_id_file st with
              | Some msg, _ => Raise (Exception msg)
              | None, None => Raise (Exception (u "No such file or directory"))
              | None, Some text => Ret text
              end;
       post := st; evs := [EvReadText path] |}.
Proof.
  unfold read_text, mbind, M_bind, bind; simpl.
  by destruct (env_read_error env), (st_id_file st).
Qed.

Lemma write_text_eq path data env st :
  write_text path data env st
  = {| res := match env_write_error env with
              | Some msg => Raise (Exception msg)
              | None => Ret tt
              end;
       post := match env_write_error env with
               | Some _ => st
               | None => set_id_file (Some data) st
               end;
       evs := [EvWriteText path data] |}.
Proof.
  unfold write_text, mbind, M_bind, bind; simpl.
  by destruct (env_write_error env).
Qed.

Lemma create_client_eq url key env st :
  create_client url key env st
  = {| res := match env_create_client env url key with
              | Some msg => Raise (Exception msg)
              | None => Ret {| client_url := url; client_key := key |}
              end;
       post := st; evs := [EvCreateClient url key] |}.
Proof.
  unfold create_client, mbind, M_bind, bind; simpl.
  by destruct (env_create_client env url key).
Qed.

Lemma uuid_UUID_getnode env st :
  uuid_UUID (env_getnode env mod 2 ^ 48)%N env st
  = {| res := Ret (env_getnode env mod 2 ^ 48)%N; post := st; evs := [] |}.
Proof.
  unfold uuid_UUID.
  destruct (N.ltb_spec (env_getnode env mod 2 ^ 48) (2 ^ 128)) as [_|H];
    [done|].
  pose proof (N.mod_upper_bound (env_getnode env) (2 ^ 48)). lia.
Qed.

(** ** One delivery attempt *)

Section Attempt.
Context (client : Client) (data : row).
Let up := Upsert TABLE_NAME data "node_id".

Lemma attempt_delivered attempt rest env st :
  env_execute env (st_requests st) = Ok tt →
  send_heartbeat_attempts client data (attempt :: rest) env st
  = {| res := Ret true;
       post := set_nodes (apply_request up (st_nodes st)) (next_request st);
       evs := [EvExecute up] |}.
Proof.
  intros H. simpl. unfold try_except.
  rewrite (bind_Ret _ _ _ _ tt); rewrite execute_ok by done; done.
Qed.

Lemma attempt_interrupted attempt rest env st :
  env_execute env (st_requests st) = Interrupted →
  send_heartbeat_attempts client data (attempt :: rest) env st
  = {| res := Raise KeyboardInterrupt; post := next_request st;
       evs := [EvExecute up] |}.
Proof.
  intros H. simpl. unfold try_except.
  rewrite (bind_Raise _ _ _ _ KeyboardInterrupt);
    rewrite execute_interrupted by done; done.
Qed.

Lemma attempt_failed attempt delay rest env st msg :
  env_execute env (st_requests st) = Fails msg →
  attempt < MAX_RETRIES - 1 →
  RETRY_DELAYS !! Z.to_nat attempt = Some delay →
  0 ≤ attempt → 0 ≤ delay →
  send_heartbeat_attempts client data (attempt :: rest) env st
  = after [EvExecute up;
           EvLog WARNING "Heartbeat failed (attempt {}/{}): {}"
             [VInt (attempt + 1); VInt MAX_RETRIES; VStr msg];
           EvLog WARNING "Retrying in {}s..." [VInt delay];
           EvSleep delay]
      (if env_sleep env (st_sleeps st) then
         {| res := Raise KeyboardInterrupt;
            post := next_sleep (next_request st); evs := [] |}
       else
         send_heartbeat_attempts client data rest env
           (next_sleep (next_request st))).
Proof.
  intros H Hlt Hd H0 Hdelay. simpl. unfold try_except.
  rewrite (bind_Raise _ _ _ _ (Exception msg));
    rewrite (execute_fails _ _ _ _ msg) by done; [|done]. cbn [res post evs].
  destruct (Z.ltb_spec attempt (MAX_RETRIES - 1)) as [_|?]; [|lia].
  assert (Hg : ∀ st', getitem RETRY_DELAYS attempt env st'
                      = {| res := Ret delay; post := st'; evs := [] |}).
  { intros st'. unfold getitem.
    destruct (Z.ltb_spec attempt 0) as [?|_]; [lia|]. rewrite Hd.
    by destruct (Z.ltb_spec attempt (- Z.of_nat (length RETRY_DELAYS)))
      as [?|_]; [simpl in *; lia|]. }
  rewrite (bind_Ret _ _ _ _ delay) by by rewrite Hg.
  rewrite Hg; cbn [res post evs].
  rewrite !bind_log.
  destruct (env_sleep env (st_sleeps st)) eqn:Hs.
  - rewrite (bind_Raise (time_sleep _) _ _ _ KeyboardInterrupt);
      rewrite time_sleep_eq by done; cbn [st_sleeps next_request];
      rewrite Hs; [|done].
    cbn [res post evs]. by rewrite !after_after.
  - rewrite (bind_Ret (time_sleep _) _ _ _ tt);
      rewrite time_sleep_eq by done; cbn [st_sleeps next_request];
      rewrite Hs; [|done].
    cbn [res post evs]. by rewrite !after_after.
Qed.

Lemma attempt_retried attempt delay rest env st msg :
  env_execute env (st_requests st) = Fails msg →
  attempt < MAX_RETRIES - 1 →
  RETRY_DELAYS !! Z.to_nat attempt = Some delay →
  0 ≤ attempt → 0 ≤ delay →
  env_sleep env (st_sleeps st) = false →
  send_heartbeat_attempts client data (attempt :: rest) env st
  = after [EvExecute up;
           EvLog WARNING "Heartbeat failed (attempt {}/{}): {}"
             [VInt (attempt + 1); VInt MAX_RETRIES; VStr msg];
           EvLog WARNING "Retrying in {}s..." [VInt delay];
           EvSleep delay]
      (send_heartbeat_attempts client data rest env
         (next_sleep (next_request st))).
Proof.
  intros H Hlt Hd H0 Hdelay Hs.
  rewrite (attempt_failed _ delay _ _ _ msg) by done. by rewrite Hs.
Qed.

Lemma attempt_abandoned attempt rest env st msg :
  env_execute env (st_requests st) = Fails msg →
  MAX_RETRIES - 1 ≤ attempt →
  send_heartbeat_attempts client data (attempt :: rest) env st
  = {| res := Ret false; post := next_request st;
       evs := [EvExecute up;
               EvLog ERROR "Heartbeat failed after {} attempts: {}"
                 [VInt MAX_RETRIES; VStr msg]] |}.
Proof.
  intros H Hge. simpl. unfold try_except.
  rewrite (bind_Raise _ _ _ _ (Exception msg));
    rewrite (execute_fails _ _ _ _ msg) by done; [|done]. cbn [res post evs].
  by destruct (Z.ltb_spec attempt (MAX_RETRIES - 1)) as [?|_]; [lia|].
Qed.
End Attempt.

Lemma range_MAX_RETRIES : range MAX_RETRIES = [0; 1; 2].
Proof. reflexivity. Qed.

(** [send_heartbeat] up to the first delivery attempt. *)
Lemma send_heartbeat_eq client node_id gpu_info status env st x :
  sampled_load (env_getGPUs env (st_probes st)) = Ret x →
  send_heartbeat client node_id gpu_info status env st
  = after [EvGetGPUs]
      (send_heartbeat_attempts client
         (heartbeat_data node_id gpu_info x status
            (now_at env (next_probe st) timezone_utc))
         [0; 1; 2] env (next_clock (next_probe st))).
Proof.
  intros Hx. unfold send_heartbeat.
  rewrite (bind_Ret _ _ _ _ x); rewrite get_current_gpu_load_eq; [|done].
  cbn [res post evs].
  rewrite (bind_Ret _ _ _ _ (now_at env (next_probe st) timezone_utc)) by done.
  rewrite datetime_now_eq; cbn [res post evs].
  by rewrite after_nil, range_MAX_RETRIES.
Qed.

(** [send_heartbeat] when the first two attempts fail: what is left is the
    third attempt. *)
Lemma send_heartbeat_two_failures client node_id gpu_info status env st m1 m2 :
  env_getGPUs env (st_probes st) ≠ Interrupted →
  env_execute env (st_requests st) = Fails m1 →
  env_execute env (S (st_requests st)) = Fails m2 →
  env_sleep env (st_sleeps st) = false →
  env_sleep env (S (st_sleeps st)) = false →
  ∃ x,
    sampled_load (env_getGPUs env (st_probes st)) = Ret x ∧
    let data := heartbeat_data node_id gpu_info x status
                  (now_at env (next_probe st) timezone_utc) in
    let up := Upsert TABLE_NAME data "node_id" in
    send_heartbeat client node_id gpu_info status env st
    = after [EvGetGPUs; EvExecute up;
             EvLog WARNING "Heartbeat failed (attempt {}/{}): {}"
               [VInt 1; VInt MAX_RETRIES; VStr m1];
             EvLog WARNING "Retrying in {}s..." [VInt 1];
             EvSleep 1; EvExecute up;
             EvLog WARNING "Heartbeat failed (attempt {}/{}): {}"
               [VInt 2; VInt MAX_RETRIES; VStr m2];
             EvLog WARNING "Retrying in {}s..." [VInt 2];
             EvSleep 2]
        (send_heartbeat_attempts client data [2] env
           (next_sleep (next_request (next_sleep (next_request
              (next_clock (next_probe st))))))).
Proof.
  intros Hp H1 H2 Hs1 Hs2.
  destruct (sampled_load_returns _ Hp) as [x Hx].
  exists x; split; [done|]. cbn zeta.
  rewrite (send_heartbeat_eq _ _ _ _ _ _ x) by done.
  rewrite (attempt_retried _ _ 0 1 _ _ _ m1) by (done || lia).
  rewrite (attempt_retried _ _ 1 2 _ _ _ m2) by (done || lia).
  by rewrite !after_after.
Qed.

(** C1. For a registry client whose upsert fails on every call, and with no
    stop signal, one call of [send_heartbeat] makes exactly three upsert
    attempts of the same record, waits 1 second before the second and 2
    seconds before the third, and returns [False] instead of raising. *)
Theorem send_heartbeat_retry_bound client node_id gpu_info status env st :
  (∀ n, failed (env_execute env n)) →
  no_stop_signal env →
  let o := send_heartbeat client node_id gpu_info status env st in
  ∃ data,
    let up := Upsert TABLE_NAME data "node_id" in
    res o = Ret false ∧
    requests (evs o) = [up; up; up] ∧
    calls (evs o)
    = [EvGetGPUs; EvExecute up; EvSleep 1; EvExecute up; EvSleep 2;
       EvExecute up].
Proof.
  intros Hfail (Hp & _ & Hs). cbn zeta.
  destruct (Hfail (st_requests st)) as [m1 H1].
  destruct (Hfail (S (st_requests st))) as [m2 H2].
  destruct (Hfail (S (S (st_requests st)))) as [m3 H3].
  destruct (send_heartbeat_two_failures client node_id gpu_info status
              env st m1 m2) as (x & _ & ->); try done.
  rewrite (attempt_abandoned _ _ 2 _ _ _ m3) by (done || lia).
  by eexists.
Qed.

(** C2. When the first two upsert attempts of a tick fail and the third
    succeeds, [send_heartbeat] returns [True]; the tick has made exactly
    those three attempts, and the record is stored in the registry. *)
Theorem send_heartbeat_recovers client node_id gpu_info status env st :
  failed (env_execute env (st_requests st)) →
  failed (env_execute env (S (st_requests st))) →
  env_execute env (S (S (st_requests st))) = Ok tt →
  no_stop_signal env →
  let o := send_heartbeat client node_id gpu_info status env st in
  ∃ data,
    let up := Upsert TABLE_NAME data "node_id" in
    res o = Ret true ∧
    requests (evs o) = [up; up; up] ∧
    calls (evs o)
    = [EvGetGPUs; EvExecute up; EvSleep 1; EvExecute up; EvSleep 2;
       EvExecute up] ∧
    st_nodes (post o) = apply_request up (st_nodes st).
Proof.
  intros [m1 H1] [m2 H2] H3 (Hp & _ & Hs). cbn zeta.
  destruct (send_heartbeat_two_failures client node_id gpu_info status
              env st m1 m2) as (x & _ & ->); try done.
  rewrite attempt_delivered by done.
  by eexists.
Qed.

(** ** Events of the collaborators and of the heartbeat *)

Section EmitsCalls.
Context (P : event → Prop).

Lemma emits_execute client r : P (EvExecute r) → emits P (execute client r).
Proof. intros H. unfold execute. emits_auto. done. Qed.

Lemma emits_time_sleep secs : P (EvSleep secs) → emits P (time_sleep secs).
Proof. intros H. unfold time_sleep. emits_auto. done. Qed.

Lemma emits_getitem {A} (xs : list A) i : emits P (getitem xs i).
Proof. unfold getitem. emits_auto. Qed.

Lemma emits_datetime_now tz : emits P (datetime_now tz).
Proof. intros env st. constructor. Qed.

(** The value bound by [datetime.now(tz)] carries the time zone asked for. *)
Lemma emits_bind_datetime_now {A} tz (k : datetime → M A) :
  (∀ t, tzinfo t = tz → emits P (k t)) → emits P (datetime_now tz ≫= k).
Proof.
  intros H env st. unfold mbind, M_bind, bind.
  rewrite datetime_now_eq; simpl. by apply H.
Qed.

Lemma emits_get_current_gpu_load : P EvGetGPUs → emits P get_current_gpu_load.
Proof.
  intros H env st. rewrite get_current_gpu_load_eq; simpl.
  by repeat constructor.
Qed.

Lemma emits_send_heartbeat_attempts client data attempts :
  P (EvExecute (Upsert TABLE_NAME data "node_id")) →
  (∀ lvl template args, P (EvLog lvl template args)) →
  (∀ secs, P (EvSleep secs)) →
  emits P (send_heartbeat_attempts client data attempts).
Proof.
  intros Hup Hlog Hsleep.
  induction attempts as [|attempt rest IH]; simpl; [apply emits_ret|].
  emits_auto; auto using emits_execute, emits_getitem, emits_time_sleep.
Qed.
End EmitsCalls.

Lemma send_heartbeat_no_update client node_id gpu_info status :
  emits no_update (send_heartbeat client node_id gpu_info status).
Proof.
  unfold send_heartbeat. apply emits_bind; [by apply emits_get_current_gpu_load|].
  intros x. apply emits_bind; [apply emits_datetime_now|]. intros t.
  by apply emits_send_heartbeat_attempts.
Qed.

Lemma heartbeat_tick_no_update client node_id gpu_info :
  emits no_update (heartbeat_tick client node_id gpu_info).
Proof.
  unfold heartbeat_tick.
  apply emits_bind; [apply send_heartbeat_no_update|]. intros success.
  apply emits_bind; [|intros _; by apply emits_time_sleep].
  destruct success; emits_auto; try done. apply emits_datetime_now.
Qed.

(** ** Ticks of the loop *)

Lemma ticks_no_update n client node_id gpu_info :
  emits no_update (ticks n client node_id gpu_info).
Proof.
  induction n; simpl; [apply emits_ret|].
  apply emits_bind; [apply heartbeat_tick_no_update | done].
Qed.

Lemma ticks_S n client node_id gpu_info :
  ticks (S n) client node_id gpu_info
  = (heartbeat_tick client node_id gpu_info
       ≫= λ _, ticks n client node_id gpu_info).
Proof. reflexivity. Qed.

Lemma heartbeat_forever_S fuel client node_id gpu_info :
  heartbeat_forever (S fuel) client node_id gpu_info
  = (heartbeat_tick client node_id gpu_info
       ≫= λ _, heartbeat_forever fuel client node_id gpu_info).
Proof. reflexivity. Qed.

Lemma heartbeat_forever_ticks n fuel client node_id gpu_info env st :
  res (ticks n client node_id gpu_info env st) = Ret tt →
  heartbeat_forever (n + fuel) client node_id gpu_info env st
  = after (evs (ticks n client node_id gpu_info env st))
      (heartbeat_forever fuel client node_id gpu_info env
         (post (ticks n client node_id gpu_info env st))).
Proof.
  revert st. induction n as [|n IH]; intros st H.
  - symmetry. apply after_nil.
  - rewrite Nat.add_succ_l, heartbeat_forever_S. rewrite ticks_S in *.
    destruct (bind_Ret_inv _ _ _ _ _ H) as ([] & Htick & Hrest).
    rewrite !(bind_Ret _ _ _ _ tt) by exact Htick.
    rewrite IH by exact Hrest.
    by rewrite after_after, evs_after, post_after.
Qed.

(** The tick during whose wait the stop signal arrives. *)
Lemma heartbeat_tick_interrupted client node_id gpu_info env st o success :
  send_heartbeat client node_id gpu_info (u "online") env st = o →
  res o = Ret success →
  env_sleep env (st_sleeps (post o)) = true →
  ∃ logged st',
    Forall (λ e, is_log e = true) logged ∧
    st_requests st' = st_requests (post o) ∧
    st_clock st' = (st_clock (post o) + (if success then 1 else 0))%nat ∧
    heartbeat_tick client node_id gpu_info env st
    = {| res := Raise KeyboardInterrupt; post := st';
         evs := evs o ++ logged ++ [EvSleep HEARTBEAT_INTERVAL] |}.
Proof.
  intros Ho Hres Hsleep. unfold heartbeat_tick.
  rewrite (bind_Ret _ _ _ _ success) by by rewrite Ho.
  rewrite Ho. clear Ho. destruct success.
  - exists [EvLog INFO "Heartbeat sent at {} - Status: Online"
              [VStr (strftime_HM (now_at env (post o) None))]].
    exists (next_sleep (next_clock (post o))).
    split; [by repeat constructor|].
    split; [done|]. split; [simpl; lia|].
    rewrite bind_assoc, bind_datetime_now, bind_log.
    rewrite time_sleep_eq by done. cbn [st_sleeps next_clock].
    by rewrite Hsleep.
  - exists [EvLog WARNING "Heartbeat failed - will retry next interval" []].
    exists (next_sleep (post o)).
    split; [by repeat constructor|].
    split; [done|]. split; [simpl; lia|].
    rewrite bind_log. rewrite time_sleep_eq by done. by rewrite Hsleep.
Qed.

(** ** Shutdown *)

Lemma update_status_offline_eq client node_id env st :
  update_status_offline client node_id env st
  = match env_execute env (st_requests st) with
    | Ok _ =>
        {| res := Ret tt;
           post := set_nodes
                     (apply_request (offline_mark env st node_id) (st_nodes st))
                     (next_request (next_clock st));
           evs := [EvExecute (offline_mark env st node_id);
                   EvLog INFO "Status updated to 'offline' in database." []] |}
    | Fails msg =>
        {| res := Ret tt; post := next_request (next_clock st);
           evs := [EvExecute (offline_mark env st node_id);
                   EvLog ERROR "Failed to update offline status: {}"
                     [VStr msg]] |}
    | Interrupted =>
        {| res := Raise KeyboardInterrupt;
           post := next_request (next_clock st);
           evs := [EvExecute (offline_mark env st node_id)] |}
    end.
Proof.
  unfold update_status_offline, try_except. rewrite bind_datetime_now.
  destruct (env_execute env (st_requests st)) as [[]|msg|] eqn:E.
  - rewrite (bind_Ret _ _ _ _ tt); rewrite execute_ok by exact E; done.
  - rewrite (bind_Raise _ _ _ _ (Exception msg));
      rewrite (execute_fails _ _ _ _ msg) by exact E; done.
  - rewrite (bind_Raise _ _ _ _ KeyboardInterrupt);
      rewrite execute_interrupted by exact E; done.
Qed.

(** [run_heartbeat_loop] when the loop is left by [KeyboardInterrupt] and no
    second stop signal cuts the offline mark short: one update request, then
    [sys.exit(0)]. *)
Lemma run_heartbeat_loop_stopped fuel client node_id gpu_info env st o :
  heartbeat_forever fuel client node_id gpu_info env st = o →
  res o = Raise KeyboardInterrupt →
  env_execute env (st_requests (post o)) ≠ Interrupted →
  ∃ st',
    run_heartbeat_loop fuel client node_id gpu_info env st
    = {| res := Raise (SystemExit 0); post := st';
         evs := startup_banner node_id gpu_info ++ evs o
                ++ [EvLog INFO "\n" [];
                    EvLog INFO "Shutdown requested (Ctrl+C)..." [];
                    EvExecute (offline_mark env (post o) node_id);
                    offline_logged (env_execute env (st_requests (post o)));
                    EvLog INFO "NUSA Compute Provider Client stopped." []] |}
    ∧ st_nodes st'
      = match env_execute env (st_requests (post o)) with
        | Ok _ => apply_request (offline_mark env (post o) node_id)
                    (st_nodes (post o))
        | _ => st_nodes (post o)
        end.
Proof.
  intros Ho Hres Hex. unfold run_heartbeat_loop. rewrite !bind_log.
  unfold try_except_KeyboardInterrupt. rewrite Ho, Hres. clear Ho.
  rewrite !bind_log.
  pose proof (update_status_offline_eq client node_id env (post o)) as Hup.
  destruct (env_execute env (st_requests (post o))) as [[]|msg|];
    [| |done].
  - rewrite (bind_Ret _ _ _ _ tt) by by rewrite Hup.
    rewrite Hup. by eexists.
  - rewrite (bind_Ret _ _ _ _ tt) by by rewrite Hup.
    rewrite Hup. by eexists.
Qed.

(** The loop when the stop signal arrives during the wait that follows
    [n] completed ticks and one more delivery. *)
Lemma heartbeat_forever_interrupted n fuel client node_id gpu_info env st
    success :
  res (ticks n client node_id gpu_info env st) = Ret tt →
  res (send_heartbeat client node_id gpu_info (u "online") env
         (post (ticks n client node_id gpu_info env st))) = Ret success →
  env_sleep env
    (st_sleeps
       (post (send_heartbeat client node_id gpu_info (u "online") env
                (post (ticks n client node_id gpu_info env st))))) = true →
  (n < fuel)%nat →
  ∃ before st',
    heartbeat_forever fuel client node_id gpu_info env st
    = {| res := Raise KeyboardInterrupt; post := st';
         evs := before ++ [EvSleep HEARTBEAT_INTERVAL] |}
    ∧ Forall no_update before
    ∧ st_requests st'
      = st_requests
          (post (send_heartbeat client node_id gpu_info (u "online") env
                   (post (ticks n client node_id gpu_info env st)))).
Proof.
  intros Hticks Hres Hsleep Hfuel.
  replace fuel with (n + S (fuel - S n))%nat by lia.
  rewrite heartbeat_forever_ticks by done.
  pose proof (ticks_no_update n client node_id gpu_info env st) as Hn.
  pose proof (send_heartbeat_no_update client node_id gpu_info (u "online") env
                (post (ticks n client node_id gpu_info env st))) as Hs.
  destruct (heartbeat_tick_interrupted client node_id gpu_info env
              (post (ticks n client node_id gpu_info env st)) _ success
              eq_refl Hres Hsleep)
    as (logged & st' & Hlogged & Hreq & _ & Htick).
  revert Hn Hs Hreq Htick.
  generalize (send_heartbeat client node_id gpu_info (u "online") env
                (post (ticks n client node_id gpu_info env st))).
  generalize (ticks n client node_id gpu_info env st).
  intros o1 o2 Hn Hs Hreq Htick.
  rewrite heartbeat_forever_S.
  rewrite (bind_Raise _ _ _ _ KeyboardInterrupt) by by rewrite Htick.
  rewrite Htick.
  exists (evs o1 ++ evs o2 ++ logged), st'. split; [|split; [|done]].
  - unfold after; cbn [res post evs]. by rewrite !app_assoc.
  - rewrite !Forall_app. auto using Forall_no_update_logs.
Qed.

(** C5. When the stop signal arrives while the engine sleeps between two
    ticks (after [n] completed ticks and one more delivery, with enough fuel
    to get there), and no second signal cuts the offline mark short, the run
    ends by [sys.exit(0)]; the requests sent before that wait are upserts,
    and after it exactly one request is sent, the offline update of the
    node, with no wait and no upsert after it. *)
Theorem stop_signal_while_sleeping n fuel client node_id gpu_info env st
    success :
  let o := send_heartbeat client node_id gpu_info (u "online") env
             (post (ticks n client node_id gpu_info env st)) in
  res (ticks n client node_id gpu_info env st) = Ret tt →
  res o = Ret success →
  env_sleep env (st_sleeps (post o)) = true →
  env_execute env (st_requests (post o)) ≠ Interrupted →
  (n < fuel)%nat →
  let run := run_heartbeat_loop fuel client node_id gpu_info env st in
  res run = Raise (SystemExit 0) ∧
  exit_status (res run) = Some 0 ∧
  ∃ before shutdown t,
    evs run = before ++ EvSleep HEARTBEAT_INTERVAL :: shutdown ∧
    Forall is_upsert (requests before) ∧
    requests shutdown
    = [Update TABLE_NAME (offline_fields t) "node_id" node_id] ∧
    sleeps shutdown = [].
Proof.
  cbv zeta. intros Hticks Hres Hsleep Hex Hfuel.
  destruct (heartbeat_forever_interrupted n fuel client node_id gpu_info
              env st success Hticks Hres Hsleep Hfuel)
    as (before & st' & Hloop & Hbefore & Hreq).
  rewrite <- Hreq in Hex. clear Hreq Hticks Hres Hsleep.
  destruct (run_heartbeat_loop_stopped fuel client node_id gpu_info env st _
              Hloop eq_refl Hex) as (st'' & -> & _).
  cbn [res post evs exit_status]. split; [done|]. split; [done|].
  exists (startup_banner node_id gpu_info ++ before).
  eexists _, (now_at env st' timezone_utc).
  split; [by rewrite <- !app_assoc|].
  split; [|by destruct (env_execute env (st_requests st')) as [[]|?|]].
  apply Forall_requests. apply Forall_app. split; [|done].
  by repeat constructor.
Qed.

(** ** The registry *)

Lemma apply_update_lookup (table : string) (fields : row) (column : string)
    (key : pystr) (t : registry) (k : pystr) :
  apply_request (Update table fields column key) t !! k
  = if decide (k = key) then (fields ∪.) <$> t !! key else t !! k.
Proof.
  unfold apply_request. destruct (t !! key) as [old|] eqn:E.
  - destruct (decide (k = key)) as [->|Hne].
    + by rewrite lookup_insert_eq.
    + by rewrite lookup_insert_ne.
  - destruct (decide (k = key)) as [->|Hne]; [by rewrite E|done].
Qed.

Lemma offline_fields_dom t :
  dom (offline_fields t) = ({["status"; "last_seen"]} : gset string).
Proof.
  unfold offline_fields. rewrite !dom_insert_L, dom_empty_L. set_solver.
Qed.

Lemma offline_fields_other t (column : string) :
  column ≠ "status" → column ≠ "last_seen" →
  offline_fields t !! column = None.
Proof.
  intros H1 H2. unfold offline_fields.
  by rewrite !lookup_insert_ne, lookup_empty.
Qed.

Lemma stored_offline_mark (env : Env) (st : State) (node_id : pystr)
    (t : registry) (key : pystr) (column : string) :
  key ≠ node_id ∨ (column ≠ "status" ∧ column ≠ "last_seen") →
  stored (apply_request (offline_mark env st node_id) t) key column
  = stored t key column.
Proof.
  intros H. unfold stored, offline_mark. rewrite apply_update_lookup.
  destruct (decide (key = node_id)) as [->|Hne]; [|done].
  destruct H as [?|[H1 H2]]; [done|].
  destruct (t !! node_id) as [old|]; [|done]. simpl.
  rewrite lookup_union_r; [done|]. by apply offline_fields_other.
Qed.

(** C8. [update_status_offline] sends one request: an update of the columns
    [status] and [last_seen] of the record whose [node_id] is the node's.
    On the registry this leaves every other record and every other column
    as it was, and creates no record. When the request fails, the error is
    logged, nothing is raised and the registry is unchanged; the loop that
    was left by the stop signal still ends by [sys.exit(0)]. *)
Theorem update_status_offline_frame (client : Client) (node_id : pystr)
    (env : Env) (st : State) :
  let o := update_status_offline client node_id env st in
  (∃ fields,
     requests (evs o) = [Update TABLE_NAME fields "node_id" node_id] ∧
     dom fields = ({["status"; "last_seen"]} : gset string) ∧
     fields !! "status" = Some (VStr (u "offline"))) ∧
  (∀ (key : pystr) (column : string),
     key ≠ node_id ∨ (column ≠ "status" ∧ column ≠ "last_seen") →
     stored (st_nodes (post o)) key column = stored (st_nodes st) key column) ∧
  (∀ key : pystr, st_nodes st !! key = None → st_nodes (post o) !! key = None) ∧
  (∀ msg,
     env_execute env (st_requests st) = Fails msg →
     res o = Ret tt ∧
     EvLog ERROR "Failed to update offline status: {}" [VStr msg] ∈ evs o ∧
     st_nodes (post o) = st_nodes st ∧
     ∀ fuel gpu_info st0,
       res (heartbeat_forever fuel client node_id gpu_info env st0)
       = Raise KeyboardInterrupt →
       post (heartbeat_forever fuel client node_id gpu_info env st0) = st →
       let run := run_heartbeat_loop fuel client node_id gpu_info env st0 in
       exit_status (res run) = Some 0 ∧
       EvLog ERROR "Failed to update offline status: {}" [VStr msg] ∈ evs run).
Proof.
  cbv zeta. rewrite update_status_offline_eq.
  split; [|split; [|split]].
  - exists (offline_fields (now_at env st timezone_utc)).
    split; [by destruct (env_execute env (st_requests st)) as [[]|?|]|].
    split; [apply offline_fields_dom|done].
  - intros key column H.
    destruct (env_execute env (st_requests st)) as [[]|?|]; try done.
    cbn [post st_nodes set_nodes]. by apply stored_offline_mark.
  - intros key H.
    destruct (env_execute env (st_requests st)) as [[]|?|]; try done.
    cbn [post st_nodes set_nodes]. unfold offline_mark.
    rewrite apply_update_lookup. destruct (decide (key = node_id)) as [->|];
      by rewrite H.
  - intros msg E. rewrite E. cbn [res post evs].
    split; [done|]. split; [set_solver|]. split; [done|].
    intros fuel gpu_info st0 Hres Hpost.
    destruct (run_heartbeat_loop_stopped fuel client node_id gpu_info env st0
                _ eq_refl Hres) as (st' & -> & _).
    { rewrite Hpost, E. done. }
    rewrite Hpost, E. cbn [res evs exit_status offline_logged].
    split; [done|]. set_solver.
Qed.

(** ** Events of the whole program *)

(** Tries the structural rules, then the rules of the heartbeat, then
    unfolds the function at the head of the computation. *)
Ltac emits_call :=
  first
    [ emits_step
    | apply emits_datetime_now
    | apply emits_getitem
    | apply emits_time_sleep
    | apply emits_execute
    | lazymatch goal with
      | |- emits _ (?f _ _ _ _) => unfold f
      | |- emits _ (?f _ _ _) => unfold f
      | |- emits _ (?f _ _) => unfold f
      | |- emits _ (?f _) => unfold f
      | |- emits _ ?f => unfold f
      end ].

Ltac emits_all := repeat emits_call; try done.

Lemma detect_gpu_startup : emits startup_event detect_gpu.
Proof. emits_all. Qed.

Lemma get_or_create_node_id_startup : emits startup_event get_or_create_node_id.
Proof. emits_all. Qed.

Lemma init_supabase_startup : emits startup_event init_supabase.
Proof. emits_all. Qed.

Lemma emits_heartbeat_forever P fuel client node_id gpu_info :
  emits P (heartbeat_tick client node_id gpu_info) →
  emits P (heartbeat_forever fuel client node_id gpu_info).
Proof.
  intros H. induction fuel; simpl; [apply emits_running|].
  by apply emits_bind.
Qed.

(** ** The record of a heartbeat *)

Lemma heartbeat_data_record (node_id : pystr) (gpu_info : GPUInfo)
    (x : float) (t : datetime) :
  tzinfo t = timezone_utc →
  heartbeat_record node_id gpu_info
    (heartbeat_data node_id gpu_info x (u "online") t).
Proof.
  intros Ht. unfold heartbeat_record, heartbeat_data.
  split; [rewrite !dom_insert_L, dom_empty_L; set_solver|].
  repeat split; eauto; by simplify_map_eq.
Qed.

Lemma heartbeat_tick_sends (client : Client) (node_id : pystr)
    (gpu_info : GPUInfo) :
  emits (sends_heartbeat node_id gpu_info)
    (heartbeat_tick client node_id gpu_info).
Proof.
  unfold heartbeat_tick, send_heartbeat.
  apply emits_bind; [|intros success; emits_all].
  apply emits_bind; [by apply emits_get_current_gpu_load|]. intros x.
  apply emits_bind_datetime_now. intros t Ht.
  apply emits_send_heartbeat_attempts; try done.
  split; [done|]. split; [done|]. by apply heartbeat_data_record.
Qed.

Lemma run_heartbeat_loop_sends (fuel : nat) (client : Client)
    (node_id : pystr) (gpu_info : GPUInfo) :
  emits (sends_heartbeat node_id gpu_info)
    (run_heartbeat_loop fuel client node_id gpu_info).
Proof.
  unfold run_heartbeat_loop. repeat (apply emits_bind; [emits_all|intros _]).
  apply emits_try_except_KeyboardInterrupt.
  - apply emits_heartbeat_forever, heartbeat_tick_sends.
  - emits_all.
Qed.

(** ** The load sample *)

Lemma RETRY_DELAYS_lookup attempt :
  0 ≤ attempt < MAX_RETRIES - 1 →
  ∃ delay, RETRY_DELAYS !! Z.to_nat attempt = Some delay ∧ 0 ≤ delay.
Proof.
  intros H. assert (attempt = 0 ∨ attempt = 1) as [-> | ->]
    by (unfold MAX_RETRIES in H; lia).
  - exists 1. by split.
  - exists 2. by split.
Qed.

(** The retry loop raises no [Exception]: it returns, or it is left by the
    stop signal. *)
Lemma send_heartbeat_attempts_absorbs client data attempts env st msg :
  Forall (λ attempt, 0 ≤ attempt) attempts →
  res (send_heartbeat_attempts client data attempts env st)
  ≠ Raise (Exception msg).
Proof.
  intros H. revert st.
  induction H as [|attempt rest H0 _ IH]; intros st; [done|].
  destruct (env_execute env (st_requests st)) as [[]|m|] eqn:E.
  - by rewrite attempt_delivered.
  - destruct (Z.lt_ge_cases attempt (MAX_RETRIES - 1)) as [Hlt|Hge].
    + destruct (RETRY_DELAYS_lookup attempt) as (delay & Hd & ?); [lia|].
      rewrite (attempt_failed _ _ _ delay _ _ _ m) by done.
      rewrite res_after.
      destruct (env_sleep env (st_sleeps st)); [done|apply IH].
    + by rewrite (attempt_abandoned _ _ _ _ _ _ m).
  - by rewrite attempt_interrupted.
Qed.

Lemma send_heartbeat_attempts_first client data attempt rest env st :
  ∃ l,
    evs (send_heartbeat_attempts client data (attempt :: rest) env st)
    = EvExecute (Upsert TABLE_NAME data "node_id") :: l.
Proof.
  simpl. unfold try_except.
  destruct (env_execute env (st_requests st)) as [[]|m|] eqn:E.
  - rewrite (bind_Ret _ _ _ _ tt); rewrite execute_ok by done; [|done].
    by eexists.
  - rewrite (bind_Raise _ _ _ _ (Exception m));
      rewrite (execute_fails _ _ _ _ m) by done; [|done].
    cbn [res post evs]. rewrite evs_after. by eexists.
  - rewrite (bind_Raise _ _ _ _ KeyboardInterrupt);
      rewrite execute_interrupted by done; [|done].
    by eexists.
Qed.

Lemma heartbeat_data_current_load (node_id : pystr) (gpu_info : GPUInfo)
    (x : float) (status : pystr) (t : datetime) :
  heartbeat_data node_id gpu_info x status t !! "current_load"
  = Some (VFloat (py_round x 2)).
Proof. unfold heartbeat_data. by simplify_map_eq. Qed.

(** C7. [get_current_gpu_load] lets no [Exception] reach its caller. When
    the probe fails or finds no device it returns 0.0; the tick then sends a
    record whose load is 0.0 (every request of the tick is the upsert of
    that record) and [send_heartbeat] raises no error either. *)
Theorem load_sample_degrades (client : Client) (node_id : pystr)
    (gpu_info : GPUInfo) (status : pystr) (env : Env) (st : State) :
  env_getGPUs env (st_probes st) = Ok []
  ∨ failed (env_getGPUs env (st_probes st)) →
  (∀ env' st' msg,
     res (get_current_gpu_load env' st') ≠ Raise (Exception msg)) ∧
  res (get_current_gpu_load env st) = Ret 0%float ∧
  let o := send_heartbeat client node_id gpu_info status env st in
  (∀ msg, res o ≠ Raise (Exception msg)) ∧
  ∃ data l,
    evs o = EvGetGPUs :: EvExecute (Upsert TABLE_NAME data "node_id") :: l ∧
    data !! "current_load" = Some (VFloat 0%float) ∧
    Forall (λ r, r = Upsert TABLE_NAME data "node_id") (requests l).
Proof.
  intros H. split.
  { intros env' st' msg. rewrite get_current_gpu_load_eq. cbn [res].
    by destruct (env_getGPUs env' (st_probes st')) as [[|??]|?|]. }
  assert (Hx : sampled_load (env_getGPUs env (st_probes st)) = Ret 0%float)
    by by destruct H as [-> | [? ->]].
  split; [by rewrite get_current_gpu_load_eq|].
  cbv zeta. rewrite (send_heartbeat_eq _ _ _ _ _ _ 0%float) by done.
  rewrite res_after, evs_after.
  set (data := heartbeat_data _ _ _ _ _).
  set (st' := next_clock _).
  split.
  { intros msg. apply send_heartbeat_attempts_absorbs.
    repeat constructor; lia. }
  destruct (send_heartbeat_attempts_first client data 0 [1; 2] env st')
    as [l Hl].
  exists data, l. split; [by rewrite Hl|].
  split; [apply heartbeat_data_current_load|].
  pose proof (emits_send_heartbeat_attempts
                (λ e, match e with
                      | EvExecute r => r = Upsert TABLE_NAME data "node_id"
                      | _ => True
                      end) client data [0; 1; 2]) as Hall.
  specialize (Hall eq_refl (λ _ _ _, I) (λ _, I) env st').
  rewrite Hl in Hall. apply Forall_requests. by inversion Hall.
Qed.

(** ** Start-up *)

Lemma detect_gpu_eq env st :
  detect_gpu env st
  = {| res := (detected (env_getGPUs env (st_probes st))).1;
       post := next_probe st;
       evs := EvGetGPUs :: (detected (env_getGPUs env (st_probes st))).2 |}.
Proof.
  unfold detect_gpu, try_except, GPUtil_getGPUs, int_of_float.
  unfold mbind, M_bind, mret, M_ret, bind; simpl.
  destruct (env_getGPUs env (st_probes st)) as [[|g gs]|msg|]; try done.
  simpl. by destruct (py_int (gpu_memoryTotal g)).
Qed.

Lemma detected_logs r : Forall (λ e, is_log e = true) (detected r).2.
Proof.
  destruct r as [[|g gs]|msg|]; simpl; try by repeat constructor.
  destruct (py_int (gpu_memoryTotal g)); by repeat constructor.
Qed.

Lemma main_no_gpu fuel env st :
  res (detect_gpu env st) = Ret None →
  main fuel env st
  = {| res := Raise (SystemExit 1); post := next_probe st;
       evs := [EvLog INFO "Initializing NUSA Compute Provider Client..." [];
               EvLog INFO "Detecting GPU..." []; EvGetGPUs]
              ++ (detected (env_getGPUs env (st_probes st))).2
              ++ no_gpu_diagnostic |}.
Proof.
  intros H. unfold main. rewrite !bind_log.
  rewrite (bind_Ret _ _ _ _ None) by exact H.
  rewrite !bind_log, detect_gpu_eq. reflexivity.
Qed.

(** C4. When GPU detection returns [None], the process ends by
    [sys.exit(1)]; all it has done is to probe the GPU and to log: no
    request was sent to the registry, no client was created, the identifier
    file was neither looked up nor written, and file and registry are
    unchanged. *)
Theorem no_gpu_exits (fuel : nat) (env : Env) (st : State) :
  res (detect_gpu env st) = Ret None →
  let o := main fuel env st in
  res o = Raise (SystemExit 1) ∧
  exit_status (res o) = Some 1 ∧
  Forall (λ e, is_log e = true ∨ e = EvGetGPUs) (evs o) ∧
  requests (evs o) = [] ∧
  st_id_file (post o) = st_id_file st ∧
  st_nodes (post o) = st_nodes st.
Proof.
  intros H. cbv zeta. rewrite (main_no_gpu _ _ _ H). cbn [res post evs].
  pose proof (detected_logs (env_getGPUs env (st_probes st))) as Hlogs.
  revert Hlogs. generalize (detected (env_getGPUs env (st_probes st))).2.
  intros l Hl.
  assert (Hev : Forall (λ e, is_log e = true ∨ e = EvGetGPUs)
                  ([EvLog INFO "Initializing NUSA Compute Provider Client..." [];
                    EvLog INFO "Detecting GPU..." []; EvGetGPUs]
                   ++ l ++ no_gpu_diagnostic)).
  { rewrite !Forall_app. split; [|split].
    - Forall_list.
    - eapply Forall_impl; [exact Hl | auto].
    - unfold no_gpu_diagnostic. Forall_list. }
  split; [done|]. split; [done|]. split; [exact Hev|].
  split; [|done].
  apply startup_quiet. eapply Forall_impl; [exact Hev|].
  by intros [] [? | ?].
Qed.

(** ** The node identifier *)

Lemma generate_eq env st :
  (mac ← get_mac_address;
      node ← uuid_getnode;
      namespace ← uuid_UUID node;
      random ← uuid_uuid4;
      hashed ← uuid_uuid5 namespace (mac ++ u "-" ++ UUID_str random);
      let node_id := UUID_str hashed in
      try_except
        (write_text NODE_ID_FILE node_id;;
         log INFO "Generated new node ID: {}..." [VStr (slice 0 8 node_id)])
        (λ e, log WARNING "Could not persist node ID: {}" [VStr e]);;
      mret node_id) env st
  = {| res := Ret (new_node_id env st);
       post := match env_write_error env with
               | None => set_id_file (Some (new_node_id env st)) (next_random st)
               | Some _ => next_random st
               end;
       evs := persist_events env (new_node_id env st) |}.
Proof.
  rewrite (bind_pure _ _ _ _
             (join (u ":")
                ((λ i, slice i (i + 2)
                         (format_x 12 (env_getnode env mod 2 ^ 48)%N))
                   <$> range_0_12_2)) st) by reflexivity.
  rewrite (bind_pure _ _ _ _ (env_getnode env mod 2 ^ 48)%N st)
    by reflexivity.
  rewrite (bind_pure _ _ _ _ (env_getnode env mod 2 ^ 48)%N st)
    by apply uuid_UUID_getnode.
  rewrite (bind_pure _ _ _ _
             (UUID_version (env_urandom env (st_randoms st) mod 2 ^ 128)%N 4)
             (next_random st)) by reflexivity.
  unfold uuid_uuid5.
  rewrite (bind_assoc ask), (bind_pure ask _ _ _ env (next_random st))
    by reflexivity.
  rewrite (bind_pure (mret _) _ _ _ (UUID_version _ 5) (next_random st))
    by reflexivity.
  cbv zeta. fold (new_node_id env st).
  unfold try_except, persist_events.
  destruct (env_write_error env) as [msg|] eqn:E.
  - rewrite (bind_Ret _ _ _ _ tt).
    + rewrite (bind_Raise _ _ _ _ (Exception msg));
        rewrite write_text_eq, E; done.
    + rewrite (bind_Raise _ _ _ _ (Exception msg));
        rewrite write_text_eq, E; done.
  - rewrite (bind_Ret _ _ _ _ tt).
    + rewrite (bind_Ret (write_text _ _) _ _ _ tt);
        rewrite write_text_eq, E; done.
    + rewrite (bind_Ret (write_text _ _) _ _ _ tt);
        rewrite write_text_eq, E; done.
Qed.

Lemma get_or_create_node_id_eq env st :
  get_or_create_node_id env st
  = match existing_node_id env st with
    | Some node_id =>
        {| res := Ret node_id; post := st; evs := lookup_events env st |}
    | None =>
        {| res := Ret (new_node_id env st);
           post := match env_write_error env with
                   | None =>
                       set_id_file (Some (new_node_id env st)) (next_random st)
                   | Some _ => next_random st
                   end;
           evs := lookup_events env st
                  ++ persist_events env (new_node_id env st) |}
    end.
Proof.
  unfold get_or_create_node_id, existing_node_id, lookup_events. cbv zeta.
  rewrite bind_path_exists.
  destruct (st_id_file st) as [text|] eqn:Efile.
  - rewrite bool_decide_true by eauto.
    destruct (env_read_error env) as [msg|] eqn:Eread.
    + rewrite (bind_Ret _ _ _ _ None); unfold try_except;
        rewrite (bind_Raise _ _ _ _ (Exception msg));
        rewrite ?read_text_eq, ?Eread; try done.
      cbn [res post evs]. rewrite bind_log. cbn [res post evs after].
      rewrite generate_eq. unfold after. cbn [res post evs].
      by rewrite <- !app_assoc.
    + destruct (truthy (strip text)) eqn:Etext.
      * rewrite (bind_Ret _ _ _ _ (Some (strip text))); unfold try_except;
          rewrite (bind_Ret _ _ _ _ text);
          rewrite ?read_text_eq, ?Eread, ?Efile; try done;
          cbn [res post evs]; rewrite ?Etext; try done.
      * rewrite (bind_Ret _ _ _ _ None); unfold try_except;
          rewrite (bind_Ret _ _ _ _ text);
          rewrite ?read_text_eq, ?Eread, ?Efile; try done;
          cbn [res post evs]; rewrite ?Etext; try done.
        cbn [res post evs after]. rewrite generate_eq.
        unfold after. cbn [res post evs]. done.
  - rewrite bool_decide_false by by intros [? ?].
    rewrite (bind_pure (mret None) _ _ _ None st) by reflexivity.
    rewrite generate_eq. done.
Qed.

(** ** Text of an identifier *)

Lemma lstrip_nonspace s : nonspace s → lstrip s = s.
Proof. destruct 1 as [|c s Hc _]; simpl; [done|by rewrite Hc]. Qed.

Lemma strip_nonspace s : nonspace s → strip s = s.
Proof.
  intros H. unfold strip, rstrip. rewrite (lstrip_nonspace s H).
  rewrite lstrip_nonspace; [apply rev_involutive|].
  by apply Forall_rev.
Qed.

Lemma lstrip_blank s : Forall (λ c, isspace c = true) s → lstrip s = [].
Proof. induction 1 as [|c s Hc _ IH]; simpl; [done|by rewrite Hc]. Qed.

Lemma strip_blank s : Forall (λ c, isspace c = true) s → strip s = [].
Proof. intros H. unfold strip. by rewrite lstrip_blank. Qed.

Lemma hex_digits_nonspace d :
  nonspace (u (HexadecimalString.NilEmpty.string_of_uint d)).
Proof. induction d; simpl; by constructor. Qed.

Lemma format_x_nonspace width n : nonspace (format_x width n).
Proof.
  unfold format_x. apply Forall_app. split.
  - by apply Forall_replicate.
  - destruct (N.to_hex_uint n) eqn:E; try apply hex_digits_nonspace.
    by repeat constructor.
Qed.

Lemma format_x_length width n : (width ≤ length (format_x width n))%nat.
Proof. unfold format_x. rewrite length_app, length_replicate. lia. Qed.

Lemma UUID_str_nonspace x : nonspace (UUID_str x).
Proof.
  unfold UUID_str, slice, nonspace.
  pose proof (format_x_nonspace 32 x) as H.
  rewrite !Forall_app.
  repeat split;
    try (by repeat constructor);
    try (apply Forall_take); by apply Forall_drop.
Qed.

Lemma UUID_str_truthy x : truthy (UUID_str x) = true.
Proof.
  unfold UUID_str. pose proof (format_x_length 32 x) as H.
  destruct (format_x 32 x) as [|c hex]; [simpl in H; lia|done].
Qed.

Lemma new_node_id_strip env st : strip (new_node_id env st) = new_node_id env st.
Proof. apply strip_nonspace, UUID_str_nonspace. Qed.

Lemma new_node_id_truthy env st : truthy (new_node_id env st) = true.
Proof. apply UUID_str_truthy. Qed.

Lemma lookup_events_no_write env st path data :
  EvWriteText path data ∉ lookup_events env st.
Proof.
  unfold lookup_events. intros H.
  destruct (st_id_file st) as [text|];
    [destruct (env_read_error env); [|destruct (truthy (strip text))]|];
    repeat (apply elem_of_cons in H as [H|H]; [discriminate|]);
    by apply elem_of_nil in H.
Qed.

(** C3. After a run of [get_or_create_node_id] that has written an
    identifier it generated, with the write succeeding, that identifier is
    the result of the run and the content of the file. Every later call
    that finds the file with this content and can read it, in the same
    process or in a new one, returns the same identifier and leaves the
    world as it is; in particular a second call in sequence does. *)
Theorem node_id_persists (env : Env) (st : State) (node_id : pystr) :
  let o := get_or_create_node_id env st in
  EvWriteText NODE_ID_FILE node_id ∈ evs o →
  env_write_error env = None →
  res o = Ret node_id ∧
  st_id_file (post o) = Some node_id ∧
  (∀ (env' : Env) (st' : State),
     st_id_file st' = Some node_id →
     env_read_error env' = None →
     res (get_or_create_node_id env' st') = Ret node_id ∧
     post (get_or_create_node_id env' st') = st') ∧
  (env_read_error env = None →
   res (get_or_create_node_id env (post o)) = res o).
Proof.
  cbv zeta. intros Hw Hok.
  assert (Hnew : node_id = new_node_id env st
                 ∧ get_or_create_node_id env st
                   = {| res := Ret (new_node_id env st);
                        post := set_id_file (Some (new_node_id env st))
                                  (next_random st);
                        evs := lookup_events env st
                               ++ persist_events env (new_node_id env st) |}).
  { rewrite get_or_create_node_id_eq in Hw |- *.
    destruct (existing_node_id env st); cbn [evs] in Hw.
    - by apply lookup_events_no_write in Hw.
    - rewrite Hok. split; [|done].
      apply elem_of_app in Hw as [Hw|Hw];
        [by apply lookup_events_no_write in Hw|].
      unfold persist_events in Hw. rewrite Hok in Hw.
      apply elem_of_cons in Hw as [[= ->]|Hw]; [done|].
      apply elem_of_cons in Hw as [Hw|Hw]; [discriminate|].
      by apply elem_of_nil in Hw. }
  destruct Hnew as [-> Ho]. rewrite Ho. cbn [res post evs].
  assert (Hlater : ∀ (env' : Env) (st' : State),
            st_id_file st' = Some (new_node_id env st) →
            env_read_error env' = None →
            res (get_or_create_node_id env' st') = Ret (new_node_id env st)
            ∧ post (get_or_create_node_id env' st') = st').
  { intros env' st' Hfile Hread. rewrite get_or_create_node_id_eq.
    unfold existing_node_id.
    by rewrite Hfile, Hread, new_node_id_strip, new_node_id_truthy. }
  split; [done|]. split; [done|]. split; [exact Hlater|].
  intros Hread. by apply Hlater.
Qed.

(** C10. When the identifier file exists, is read, and holds white space
    only, [get_or_create_node_id] does what it does when the file is
    absent, after having read the file: it returns the same new identifier
    and writes it to the file. When the write succeeds the file holds the
    new identifier and the world is the same as it would be had the file
    been absent. *)
Theorem blank_file_is_absent (env : Env) (st : State) (text : pystr) :
  st_id_file st = Some text →
  env_read_error env = None →
  Forall (λ c, isspace c = true) text →
  let o := get_or_create_node_id env st in
  let absent := get_or_create_node_id env (set_id_file None st) in
  res o = Ret (new_node_id env st) ∧
  res o = res absent ∧
  evs absent
  = EvExists NODE_ID_FILE :: persist_events env (new_node_id env st) ∧
  evs o
  = EvExists NODE_ID_FILE :: EvReadText NODE_ID_FILE
      :: persist_events env (new_node_id env st) ∧
  EvWriteText NODE_ID_FILE (new_node_id env st) ∈ evs o ∧
  (env_write_error env = None →
   st_id_file (post o) = Some (new_node_id env st) ∧ post o = post absent).
Proof.
  intros Hfile Hread Hblank. cbv zeta.
  rewrite !get_or_create_node_id_eq.
  unfold existing_node_id, lookup_events.
  rewrite Hfile, Hread, (strip_blank _ Hblank).
  cbn [st_id_file set_id_file truthy res post evs app].
  change (new_node_id env (set_id_file None st)) with (new_node_id env st).
  split; [done|]. split; [done|]. split; [done|]. split; [done|].
  split; [unfold persist_events; set_solver|].
  by intros ->.
Qed.

(** A read error is treated as the absence of the file: a new identifier
    is generated. *)
Lemma read_error_is_absence env st msg :
  env_read_error env = Some msg →
  res (get_or_create_node_id env st) = Ret (new_node_id env st).
Proof.
  intros H. rewrite get_or_create_node_id_eq. unfold existing_node_id.
  rewrite H. by destruct (st_id_file st).
Qed.

(** ** Credentials *)

Lemma init_supabase_bad env st :
  bad_credentials env →
  ∃ l template args,
    init_supabase env st
    = {| res := Ret None; post := st;
         evs := l ++ [EvLog ERROR template args] |}
    ∧ Forall startup_event l.
Proof.
  intros Hbad. unfold init_supabase.
  rewrite (bind_pure _ _ _ _ (env_environ env "SUPABASE_URL") st)
    by reflexivity.
  rewrite (bind_pure _ _ _ _ (env_environ env "SUPABASE_KEY") st)
    by reflexivity.
  unfold bad_credentials in Hbad. cbv zeta in Hbad.
  destruct (not_set (env_environ env "SUPABASE_URL")
            || not_set (env_environ env "SUPABASE_KEY")) eqn:Emissing.
  { eexists [_], _, _. split; [reflexivity|by repeat constructor]. }
  apply orb_false_iff in Emissing as [E1 E2].
  destruct (bool_decide (env_environ env "SUPABASE_URL"
                         = Some (u "your_supabase_url_here"))
            || bool_decide (env_environ env "SUPABASE_KEY"
                            = Some (u "your_supabase_anon_key_here")))
    eqn:Eplaceholder.
  { eexists [], _, _. split; [reflexivity|constructor]. }
  apply orb_false_iff in Eplaceholder as [E3%bool_decide_eq_false
                                            E4%bool_decide_eq_false].
  destruct Hbad as [?|[?|[?|[?|[msg Hmsg]]]]]; try congruence.
  unfold try_except.
  rewrite (bind_Raise _ _ _ _ (Exception msg));
    rewrite create_client_eq, Hmsg; [|done].
  eexists [_], _, _. split; [reflexivity|by repeat constructor].
Qed.

Lemma get_or_create_node_id_returns env st :
  ∃ node_id, res (get_or_create_node_id env st) = Ret node_id.
Proof.
  rewrite get_or_create_node_id_eq.
  destruct (existing_node_id env st); by eexists.
Qed.

Lemma detect_gpu_result env st :
  (∃ detected, res (detect_gpu env st) = Ret detected)
  ∨ res (detect_gpu env st) = Raise KeyboardInterrupt.
Proof.
  rewrite detect_gpu_eq. cbn [res].
  destruct (env_getGPUs env (st_probes st)) as [[|g gs]|msg|]; simpl; eauto.
  destruct (py_int (gpu_memoryTotal g)); eauto.
Qed.

(** [main] with a GPU and bad credentials. *)
Lemma main_bad_credentials fuel env st gpu_info :
  bad_credentials env →
  res (detect_gpu env st) = Ret (Some gpu_info) →
  ∃ l template args st',
    main fuel env st
    = {| res := Raise (SystemExit 1); post := st';
         evs := l ++ [EvLog ERROR template args;
                      EvLog ERROR
                        "Failed to initialize Supabase client. Exiting." []] |}
    ∧ Forall startup_event l.
Proof.
  intros Hbad Hgpu. unfold main. rewrite !bind_log.
  rewrite (bind_Ret _ _ _ _ (Some gpu_info)) by exact Hgpu.
  rewrite !bind_log.
  pose proof (detect_gpu_startup env st) as Hdetect.
  revert Hdetect. generalize (detect_gpu env st). intros o1 Hdetect.
  destruct (get_or_create_node_id_returns env (post o1)) as [node_id Hid].
  rewrite (bind_Ret _ _ _ _ node_id) by exact Hid.
  pose proof (get_or_create_node_id_startup env (post o1)) as Hresolve.
  revert Hresolve. generalize (get_or_create_node_id env (post o1)).
  intros o2 Hresolve.
  rewrite bind_log.
  destruct (init_supabase_bad env (post o2) Hbad)
    as (l & template & args & Hinit & Hl).
  rewrite (bind_Ret _ _ _ _ None) by by rewrite Hinit.
  rewrite Hinit, bind_log. cbn [res post evs].
  exists ([EvLog INFO "Initializing NUSA Compute Provider Client..." [];
           EvLog INFO "Detecting GPU..." []]
          ++ evs o1
          ++ [EvLog INFO "GPU detected: {}" [VRepr gpu_info];
              EvLog INFO "Setting up node identity..." []]
          ++ evs o2 ++ [EvLog INFO "Connecting to Supabase..." []] ++ l).
  exists template, args, (post o2). split.
  - unfold after, sys_exit, raise. cbn [res post evs].
    by rewrite <- !app_assoc.
  - rewrite !Forall_app. repeat split; try done; by repeat constructor.
Qed.

(** C9. When the registry credentials are absent, empty or placeholders,
    or the client cannot be created, the process ends with a status other
    than 0, having sent no request to the registry and never waited: the
    heartbeat loop is not entered. When the GPU has been detected, the
    process ends by [sys.exit(1)] and its last two log lines are errors: the
    diagnostic of [init_supabase] and the line that announces the exit. *)
Theorem bad_credentials_abort (fuel : nat) (env : Env) (st : State) :
  bad_credentials env →
  let o := main fuel env st in
  (∃ code, exit_status (res o) = Some code ∧ code ≠ 0) ∧
  requests (evs o) = [] ∧
  sleeps (evs o) = [] ∧
  (∀ gpu_info,
     res (detect_gpu env st) = Ret (Some gpu_info) →
     res o = Raise (SystemExit 1) ∧
     ∃ l template args,
       evs o
       = l ++ [EvLog ERROR template args;
               EvLog ERROR
                 "Failed to initialize Supabase client. Exiting." []]).
Proof.
  intros Hbad. cbv zeta.
  destruct (detect_gpu_result env st) as [[[gpu_info|] Hgpu]|Hgpu].
  - destruct (main_bad_credentials fuel env st gpu_info Hbad Hgpu)
      as (l & template & args & st' & -> & Hl). cbn [res post evs].
    split; [by exists 1|].
    assert (Hquiet : Forall startup_event
                       (l ++ [EvLog ERROR template args;
                              EvLog ERROR
                                "Failed to initialize Supabase client. Exiting."
                                []])).
    { apply Forall_app. split; [done|by repeat constructor]. }
    apply startup_quiet in Hquiet as [-> ->].
    split; [done|]. split; [done|]. intros _ _. split; [done|]. by eexists _, _, _.
  - rewrite (main_no_gpu _ _ _ Hgpu). cbn [res post evs].
    split; [by exists 1|].
    pose proof (detected_logs (env_getGPUs env (st_probes st))) as Hlogs.
    assert (Hquiet : Forall startup_event
                       ([EvLog INFO
                           "Initializing NUSA Compute Provider Client..." [];
                         EvLog INFO "Detecting GPU..." []; EvGetGPUs]
                        ++ (detected (env_getGPUs env (st_probes st))).2
                        ++ no_gpu_diagnostic)).
    { rewrite !Forall_app. split; [by repeat constructor|].
      split; [|by repeat constructor].
      eapply Forall_impl; [exact Hlogs|]. by intros []. }
    apply startup_quiet in Hquiet as [-> ->].
    split; [done|]. split; [done|]. intros g Hg. congruence.
  - assert (Hmain : main fuel env st
                    = {| res := Raise KeyboardInterrupt;
                         post := post (detect_gpu env st);
                         evs := [EvLog INFO
                                   "Initializing NUSA Compute Provider Client..."
                                   [];
                                 EvLog INFO "Detecting GPU..." []]
                                ++ evs (detect_gpu env st) |}).
    { unfold main. rewrite !bind_log.
      by rewrite (bind_Raise _ _ _ _ KeyboardInterrupt) by exact Hgpu. }
    rewrite Hmain. cbn [res post evs].
    split; [by exists 130|].
    assert (Hquiet : Forall startup_event
                       ([EvLog INFO
                           "Initializing NUSA Compute Provider Client..." [];
                         EvLog INFO "Detecting GPU..." []]
                        ++ evs (detect_gpu env st))).
    { apply Forall_app. split; [by repeat constructor|].
      apply detect_gpu_startup. }
    apply startup_quiet in Hquiet as [-> ->].
    split; [done|]. split; [done|]. intros g Hg. congruence.
Qed.

(** ** The claims on the sample worlds *)

Lemma send_heartbeat_retry_bound_witness :
  (∀ n, failed (env_execute env_down n)) ∧
  no_stop_signal env_down ∧
  ∃ data,
    let o := send_heartbeat sample_client (u "node-1") sample_info
               (u "online") env_down st_fresh in
    let up := Upsert TABLE_NAME data "node_id" in
    res o = Ret false ∧
    requests (evs o) = [up; up; up] ∧
    calls (evs o)
    = [EvGetGPUs; EvExecute up; EvSleep 1; EvExecute up; EvSleep 2;
       EvExecute up].
Proof.
  assert (H1 : ∀ n, failed (env_execute env_down n)) by (intros n; by eexists).
  assert (H2 : no_stop_signal env_down) by (repeat split; intros; done).
  split; [exact H1|]. split; [exact H2|].
  exact (send_heartbeat_retry_bound sample_client (u "node-1") sample_info
           (u "online") env_down st_fresh H1 H2).
Defined.

Lemma send_heartbeat_recovers_witness :
  failed (env_execute env_flaky 0) ∧
  failed (env_execute env_flaky 1) ∧
  env_execute env_flaky 2 = Ok tt ∧
  no_stop_signal env_flaky ∧
  ∃ data,
    let o := send_heartbeat sample_client (u "node-1") sample_info
               (u "online") env_flaky st_fresh in
    let up := Upsert TABLE_NAME data "node_id" in
    res o = Ret true ∧
    requests (evs o) = [up; up; up] ∧
    calls (evs o)
    = [EvGetGPUs; EvExecute up; EvSleep 1; EvExecute up; EvSleep 2;
       EvExecute up] ∧
    st_nodes (post o) = apply_request up (st_nodes st_fresh).
Proof.
  assert (H1 : failed (env_execute env_flaky 0)) by by eexists.
  assert (H2 : failed (env_execute env_flaky 1)) by by eexists.
  assert (H3 : env_execute env_flaky 2 = Ok tt) by reflexivity.
  assert (H4 : no_stop_signal env_flaky).
  { split; [|split]; intros n; simpl;
      [done | by destruct (n <? 2)%nat | done]. }
  repeat (split; [assumption|]).
  exact (send_heartbeat_recovers sample_client (u "node-1") sample_info
           (u "online") env_flaky st_fresh H1 H2 H3 H4).
Defined.

Lemma node_id_persists_witness :
  let node_id := new_node_id env_online st_fresh in
  let o := get_or_create_node_id env_online st_fresh in
  EvWriteText NODE_ID_FILE node_id ∈ evs o ∧
  res o = Ret node_id ∧
  st_id_file (post o) = Some node_id ∧
  res (get_or_create_node_id env_online (post o)) = res o.
Proof.
  cbv zeta.
  assert (H1 : EvWriteText NODE_ID_FILE (new_node_id env_online st_fresh)
               ∈ evs (get_or_create_node_id env_online st_fresh)).
  { vm_compute. apply list_elem_of_further, list_elem_of_here. }
  assert (H2 : env_write_error env_online = None) by reflexivity.
  destruct (node_id_persists env_online st_fresh
              (new_node_id env_online st_fresh) H1 H2)
    as (Hres & Hfile & _ & Hagain).
  split; [exact H1|]. split; [exact Hres|]. split; [exact Hfile|].
  apply Hagain. reflexivity.
Defined.

Lemma no_gpu_exits_witness :
  res (detect_gpu env_no_gpu st_fresh) = Ret None ∧
  let o := main 5 env_no_gpu st_fresh in
  res o = Raise (SystemExit 1) ∧
  exit_status (res o) = Some 1 ∧
  Forall (λ e, is_log e = true ∨ e = EvGetGPUs) (evs o) ∧
  requests (evs o) = [] ∧
  st_id_file (post o) = st_id_file st_fresh ∧
  st_nodes (post o) = st_nodes st_fresh.
Proof.
  assert (H : res (detect_gpu env_no_gpu st_fresh) = Ret None)
    by reflexivity.
  split; [exact H|].
  exact (no_gpu_exits 5 env_no_gpu st_fresh H).
Defined.

Lemma stop_signal_while_sleeping_witness :
  let run := run_heartbeat_loop 3 sample_client (u "node-1") sample_info
               env_stopped st_fresh in
  res run = Raise (SystemExit 0) ∧
  exit_status (res run) = Some 0 ∧
  ∃ before shutdown t,
    evs run = before ++ EvSleep HEARTBEAT_INTERVAL :: shutdown ∧
    Forall is_upsert (requests before) ∧
    requests shutdown
    = [Update TABLE_NAME (offline_fields t) "node_id" (u "node-1")] ∧
    sleeps shutdown = [].
Proof.
  apply (stop_signal_while_sleeping 1 3 sample_client (u "node-1")
           sample_info env_stopped st_fresh true).
  - vm_compute. reflexivity.
  - vm_compute. reflexivity.
  - vm_compute. reflexivity.
  - vm_compute. discriminate.
  - lia.
Defined.

Lemma load_sample_degrades_witness :
  res (get_current_gpu_load env_no_gpu st_fresh) = Ret 0%float ∧
  ∃ data l,
    evs (send_heartbeat sample_client (u "node-1") sample_info (u "online")
           env_no_gpu st_fresh)
    = EvGetGPUs :: EvExecute (Upsert TABLE_NAME data "node_id") :: l ∧
    data !! "current_load" = Some (VFloat 0%float) ∧
    Forall (λ r, r = Upsert TABLE_NAME data "node_id") (requests l).
Proof.
  assert (H : env_getGPUs env_no_gpu (st_probes st_fresh) = Ok []
              ∨ failed (env_getGPUs env_no_gpu (st_probes st_fresh)))
    by (left; reflexivity).
  destruct (load_sample_degrades sample_client (u "node-1") sample_info
              (u "online") env_no_gpu st_fresh H)
    as (_ & Hload & _ & Hsent).
  split; [exact Hload | exact Hsent].
Defined.

Lemma update_status_offline_frame_witness :
  let run := run_heartbeat_loop 1 sample_client (u "node-1") sample_info
               env_stopped_down st_fresh in
  exit_status (res run) = Some 0 ∧
  EvLog ERROR "Failed to update offline status: {}"
    [VStr (u "connection refused")] ∈ evs run.
Proof.
  destruct (update_status_offline_frame sample_client (u "node-1")
              env_stopped_down
              (post (heartbeat_forever 1 sample_client (u "node-1")
                       sample_info env_stopped_down st_fresh)))
    as (_ & _ & _ & Hfailure).
  destruct (Hfailure (u "connection refused") eq_refl) as (_ & _ & _ & Hrun).
  apply Hrun.
  - vm_compute. reflexivity.
  - reflexivity.
Defined.

Lemma bad_credentials_abort_witness :
  bad_credentials env_no_credentials ∧
  let o := main 5 env_no_credentials st_fresh in
  res o = Raise (SystemExit 1) ∧
  requests (evs o) = [] ∧
  sleeps (evs o) = [].
Proof.
  assert (H : bad_credentials env_no_credentials) by (left; reflexivity).
  split; [exact H|].
  destruct (bad_credentials_abort 5 env_no_credentials st_fresh H)
    as (_ & Hreq & Hsleep & Hexit).
  split; [|split; [exact Hreq | exact Hsleep]].
  apply (Hexit sample_info). vm_compute. reflexivity.
Defined.

Lemma blank_file_is_absent_witness :
  let o := get_or_create_node_id env_online st_blank in
  let absent := get_or_create_node_id env_online (set_id_file None st_blank) in
  res o = Ret (new_node_id env_online st_blank) ∧
  res o = res absent ∧
  evs absent
  = EvExists NODE_ID_FILE
      :: persist_events env_online (new_node_id env_online st_blank) ∧
  evs o
  = EvExists NODE_ID_FILE :: EvReadText NODE_ID_FILE
      :: persist_events env_online (new_node_id env_online st_blank) ∧
  EvWriteText NODE_ID_FILE (new_node_id env_online st_blank) ∈ evs o ∧
  (env_write_error env_online = None →
   st_id_file (post o) = Some (new_node_id env_online st_blank)
   ∧ post o = post absent).
Proof.
  apply (blank_file_is_absent env_online st_blank [32; 10]%N).
  - reflexivity.
  - reflexivity.
  - repeat constructor.
Defined.

(** * Further properties of the program *)

(** ** The retry loop, case by case *)

(** One step of the case analysis of the retry loop: the answer of the
    registry to the attempt, then the outcome of the wait that follows a
    failure. *)
Ltac attempt_case :=
  lazymatch goal with
  | |- context [send_heartbeat_attempts ?c ?d (?a :: ?rest) ?env ?st] =>
      let E := fresh "Hexecute" in
      let S := fresh "Hsleep" in
      let m := fresh "msg" in
      destruct (env_execute env (st_requests st)) as [[]|m|] eqn:E;
      [ rewrite (attempt_delivered c d a rest env st E)
      | first
          [ rewrite (attempt_abandoned c d a rest env st m E)
              by (unfold MAX_RETRIES; lia)
          | rewrite (attempt_failed c d a
                       ltac:(lazymatch a with
                             | 0 => exact 1
                             | 1 => exact 2
                             end) rest env st m E)
              by (done || (unfold MAX_RETRIES; lia));
            destruct (env_sleep env (st_sleeps st)) eqn:S ]
      | rewrite (attempt_interrupted c d a rest env st E) ]
  end.

(** Closes one case of the bounds of [send_heartbeat], [k] requests having
    been sent. *)
Ltac bounded_close k :=
  exists k; split; [reflexivity|]; split; [lia|]; split; [by eexists|];
  split; [by intros [=]|];
  split; [intros [=]; (split; [lia|done]) | eauto].

Lemma send_heartbeat_interrupted_probe client node_id gpu_info status env st :
  env_getGPUs env (st_probes st) = Interrupted →
  send_heartbeat client node_id gpu_info status env st
  = {| res := Raise KeyboardInterrupt; post := next_probe st;
       evs := [EvGetGPUs] |}.
Proof.
  intros H. unfold send_heartbeat.
  rewrite (bind_Raise _ _ _ _ KeyboardInterrupt);
    rewrite get_current_gpu_load_eq, H; done.
Qed.

Lemma send_heartbeat_cases client node_id gpu_info status env st :
  (∃ x, sampled_load (env_getGPUs env (st_probes st)) = Ret x ∧
        send_heartbeat client node_id gpu_info status env st
        = after [EvGetGPUs]
            (send_heartbeat_attempts client
               (heartbeat_data node_id gpu_info x status
                  (now_at env (next_probe st) timezone_utc))
               [0; 1; 2] env (next_clock (next_probe st))))
  ∨ send_heartbeat client node_id gpu_info status env st
    = {| res := Raise KeyboardInterrupt; post := next_probe st;
         evs := [EvGetGPUs] |}.
Proof.
  destruct (env_getGPUs env (st_probes st)) as [gpus|msg|] eqn:H.
  - destruct (sampled_load_returns (Ok gpus)) as [x Hx]; [done|].
    left. exists x. split; [done|]. apply send_heartbeat_eq. by rewrite H.
  - left. exists 0%float. split; [done|]. apply send_heartbeat_eq. by rewrite H.
  - right. by apply send_heartbeat_interrupted_probe.
Qed.

(** X1. Whatever the registry, the probe and the signals do, one call of
    [send_heartbeat] sends at most [MAX_RETRIES] = 3 requests, all of them
    the upsert of one and the same record, and waits only between attempts:
    the waits are a prefix of 1, 2 seconds (the third delay of
    [RETRY_DELAYS] is never used). It returns [False] only after three
    attempts and both waits, [True] after one attempt more than it has
    waited, and it ends by returning or by [KeyboardInterrupt], never by
    another exception. *)
Theorem send_heartbeat_bounded (client : Client) (node_id : pystr)
    (gpu_info : GPUInfo) (status : pystr) (env : Env) (st : State) :
  let o := send_heartbeat client node_id gpu_info status env st in
  ∃ (data : row) (k : nat),
    requests (evs o) = replicate k (Upsert TABLE_NAME data "node_id") ∧
    (k ≤ 3)%nat ∧
    sleeps (evs o) `prefix_of` [1; 2] ∧
    (res o = Ret false → k = 3%nat ∧ sleeps (evs o) = [1; 2]) ∧
    (res o = Ret true → (1 ≤ k)%nat ∧ length (sleeps (evs o)) = (k - 1)%nat) ∧
    ((∃ b, res o = Ret b) ∨ res o = Raise KeyboardInterrupt).
Proof.
  cbv zeta.
  destruct (send_heartbeat_cases client node_id gpu_info status env st)
    as [(x & _ & ->) | ->].
  - set (data := heartbeat_data _ _ _ _ _). exists data.
    set (st' := next_clock _). clearbody st' data.
    repeat attempt_case; simpl.
    all: first [ bounded_close 1%nat | bounded_close 2%nat | bounded_close 3%nat ].
  - exists ∅. bounded_close 0%nat.
Qed.

(** What the retry loop leaves of the world: the registry has taken the
    record when the loop returns [True] and is as it was otherwise. *)
Lemma send_heartbeat_attempts_post (client : Client) (data : row) (env : Env)
    (st : State) :
  let o := send_heartbeat_attempts client data [0; 1; 2] env st in
  st_id_file (post o) = st_id_file st ∧
  st_nodes (post o)
  = match res o with
    | Ret true => apply_request (Upsert TABLE_NAME data "node_id") (st_nodes st)
    | _ => st_nodes st
    end.
Proof. cbv zeta. by repeat attempt_case. Qed.

Lemma send_heartbeat_post (client : Client) (node_id : pystr)
    (gpu_info : GPUInfo) (status : pystr) (env : Env) (st : State) :
  ∃ x,
    let o := send_heartbeat client node_id gpu_info status env st in
    let data := heartbeat_data node_id gpu_info x status
                  (now_at env st timezone_utc) in
    st_id_file (post o) = st_id_file st ∧
    (res o = Ret true → sampled_load (env_getGPUs env (st_probes st)) = Ret x) ∧
    st_nodes (post o)
    = match res o with
      | Ret true => <[node_id := data]> (st_nodes st)
      | _ => st_nodes st
      end.
Proof.
  destruct (send_heartbeat_cases client node_id gpu_info status env st)
    as [(x & Hx & ->) | ->]; [|by exists 0%float].
  exists x. cbv zeta. rewrite res_after, post_after.
  destruct (send_heartbeat_attempts_post client
              (heartbeat_data node_id gpu_info x status
                 (now_at env (next_probe st) timezone_utc))
              env (next_clock (next_probe st))) as [Hfile Hnodes].
  split; [exact Hfile|]. split; [done|]. exact Hnodes.
Qed.

(** X2. [send_heartbeat] returns [True] exactly when the registry has taken
    the record: the table then holds, under the identifier of the node, the
    record built from the load sampled by this call and the time read before
    the first attempt. In every other case (it returns [False] or is
    interrupted) the table is as it was. The identifier file is never
    touched. *)
Theorem send_heartbeat_registry (client : Client) (node_id : pystr)
    (gpu_info : GPUInfo) (status : pystr) (env : Env) (st : State) :
  let o := send_heartbeat client node_id gpu_info status env st in
  st_id_file (post o) = st_id_file st ∧
  match res o with
  | Ret true =>
      ∃ x, sampled_load (env_getGPUs env (st_probes st)) = Ret x ∧
           st_nodes (post o)
           = <[node_id := heartbeat_data node_id gpu_info x status
                            (now_at env st timezone_utc)]> (st_nodes st)
  | _ => st_nodes (post o) = st_nodes st
  end.
Proof.
  cbv zeta.
  destruct (send_heartbeat_post client node_id gpu_info status env st)
    as (x & Hfile & Hx & Hnodes).
  split; [exact Hfile|]. revert Hx Hnodes.
  generalize (send_heartbeat client node_id gpu_info status env st).
  intros o Hx Hnodes. destruct (res o) as [[|]| |]; try done.
  exists x. by split; [apply Hx|].
Qed.

Lemma offline_fields_status t :
  offline_fields t !! "status" = Some (VStr (u "offline")).
Proof. unfold offline_fields. by simplify_map_eq. Qed.

Lemma offline_fields_last_seen t :
  offline_fields t !! "last_seen" = Some (VStr (isoformat t)).
Proof. unfold offline_fields. by simplify_map_eq. Qed.

Lemma heartbeat_data_node_id (node_id : pystr) (gpu_info : GPUInfo)
    (x : float) (status : pystr) (t : datetime) :
  heartbeat_data node_id gpu_info x status t !! "node_id"
  = Some (VStr node_id).
Proof. unfold heartbeat_data. by simplify_map_eq. Qed.

Lemma heartbeat_data_gpu_name (node_id : pystr) (gpu_info : GPUInfo)
    (x : float) (status : pystr) (t : datetime) :
  heartbeat_data node_id gpu_info x status t !! "gpu_name"
  = Some (VStr (name gpu_info)).
Proof. unfold heartbeat_data. by simplify_map_eq. Qed.

Lemma heartbeat_data_vram_total (node_id : pystr) (gpu_info : GPUInfo)
    (x : float) (status : pystr) (t : datetime) :
  heartbeat_data node_id gpu_info x status t !! "vram_total"
  = Some (VInt (vram_total gpu_info)).
Proof. unfold heartbeat_data. by simplify_map_eq. Qed.

(** X3. A delivered heartbeat followed by an offline update that the
    registry accepts: the record of the node then reads [offline] with the
    time of the update, and still carries the identifier, the GPU name, the
    memory and the load of the heartbeat (the load that the heartbeat
    sampled, rounded): every column but [status] and [last_seen] is as the
    heartbeat stored it. The records of the other nodes are as before the
    heartbeat. *)
Theorem offline_after_heartbeat (client : Client) (node_id : pystr)
    (gpu_info : GPUInfo) (env : Env) (st : State) :
  let o := send_heartbeat client node_id gpu_info (u "online") env st in
  res o = Ret true →
  env_execute env (st_requests (post o)) = Ok tt →
  let t := st_nodes (post (update_status_offline client node_id env (post o))) in
  stored t node_id "status" = Some (VStr (u "offline")) ∧
  stored t node_id "last_seen"
  = Some (VStr (isoformat (now_at env (post o) timezone_utc))) ∧
  stored t node_id "node_id" = Some (VStr node_id) ∧
  stored t node_id "gpu_name" = Some (VStr (name gpu_info)) ∧
  stored t node_id "vram_total" = Some (VInt (vram_total gpu_info)) ∧
  (∃ x, sampled_load (env_getGPUs env (st_probes st)) = Ret x ∧
        stored t node_id "current_load" = Some (VFloat (py_round x 2))) ∧
  (∀ column : string,
     column ≠ "status" → column ≠ "last_seen" →
     stored t node_id column = stored (st_nodes (post o)) node_id column) ∧
  ∀ key : pystr, key ≠ node_id → t !! key = st_nodes st !! key.
Proof.
  cbv zeta. intros Hres Hexecute.
  destruct (send_heartbeat_post client node_id gpu_info (u "online") env st)
    as (x & _ & Hx & Hnodes).
  specialize (Hx Hres).
  rewrite Hres in Hnodes. rewrite update_status_offline_eq, Hexecute.
  cbn [post st_nodes set_nodes]. rewrite Hnodes. unfold offline_mark.
  generalize (now_at env
                (post (send_heartbeat client node_id gpu_info (u "online") env st))
                timezone_utc).
  intros t'.
  assert (Hmark : ∀ column : string,
            stored
              (apply_request
                 (Update TABLE_NAME (offline_fields t') "node_id" node_id)
                 (<[node_id := heartbeat_data node_id gpu_info x (u "online")
                                 (now_at env st timezone_utc)]> (st_nodes st)))
              node_id column
            = (offline_fields t'
               ∪ heartbeat_data node_id gpu_info x (u "online")
                   (now_at env st timezone_utc)) !! column).
  { intros column. unfold stored. rewrite apply_update_lookup.
    rewrite decide_True by done. by rewrite lookup_insert_eq. }
  rewrite (Hmark "status"), (Hmark "last_seen"), (Hmark "node_id"),
    (Hmark "gpu_name"), (Hmark "vram_total"), (Hmark "current_load").
  assert (Hsent : ∀ column : string,
            column ≠ "status" → column ≠ "last_seen" →
            (offline_fields t'
             ∪ heartbeat_data node_id gpu_info x (u "online")
                 (now_at env st timezone_utc)) !! column
            = heartbeat_data node_id gpu_info x (u "online")
                (now_at env st timezone_utc) !! column).
  { intros column H1 H2. apply lookup_union_r.
    by apply offline_fields_other. }
  split; [apply lookup_union_Some_l, offline_fields_status|].
  split; [apply lookup_union_Some_l, offline_fields_last_seen|].
  rewrite !Hsent by done.
  split; [apply heartbeat_data_node_id|].
  split; [apply heartbeat_data_gpu_name|].
  split; [apply heartbeat_data_vram_total|].
  split; [exists x; split; [exact Hx|apply heartbeat_data_current_load]|].
  split.
  { intros column H1 H2. rewrite (Hmark column), (Hsent column H1 H2).
    unfold stored. by rewrite lookup_insert_eq. }
  intros key Hkey. rewrite apply_update_lookup.
  rewrite decide_False by done. by rewrite lookup_insert_ne.
Qed.

(** X4. When the probe answers with a list of GPUs, the record that
    [send_heartbeat] sends carries the load of the first GPU of that answer,
    in percent and rounded to two decimals, while the name and the memory
    are those of the [gpu_info] passed in. The probe is called once per
    call, before the first attempt, and not again between retries. *)
Theorem heartbeat_load_is_fresh (client : Client) (node_id : pystr)
    (gpu_info : GPUInfo) (status : pystr) (env : Env) (st : State)
    (gpu : GPU) (others : list GPU) :
  env_getGPUs env (st_probes st) = Ok (gpu :: others) →
  let o := send_heartbeat client node_id gpu_info status env st in
  ∃ data l,
    evs o = EvGetGPUs :: EvExecute (Upsert TABLE_NAME data "node_id") :: l ∧
    data !! "current_load"
    = Some (VFloat (py_round (gpu_load gpu * 100)%float 2)) ∧
    data !! "gpu_name" = Some (VStr (name gpu_info)) ∧
    data !! "vram_total" = Some (VInt (vram_total gpu_info)) ∧
    Forall (λ e, e ≠ EvGetGPUs) l ∧
    Forall (λ r, r = Upsert TABLE_NAME data "node_id") (requests l) ∧
    st_probes (post o) = S (st_probes st).
Proof.
  intros Hprobe. cbv zeta.
  rewrite (send_heartbeat_eq _ _ _ _ _ _ (gpu_load gpu * 100)%float)
    by by rewrite Hprobe.
  exists (heartbeat_data node_id gpu_info (gpu_load gpu * 100)%float status
            (now_at env (next_probe st) timezone_utc)).
  assert (Hload : heartbeat_data node_id gpu_info (gpu_load gpu * 100)%float
                    status (now_at env (next_probe st) timezone_utc)
                  !! "current_load"
                  = Some (VFloat (py_round (gpu_load gpu * 100)%float 2)))
    by apply heartbeat_data_current_load.
  assert (Hname : heartbeat_data node_id gpu_info (gpu_load gpu * 100)%float
                    status (now_at env (next_probe st) timezone_utc)
                  !! "gpu_name" = Some (VStr (name gpu_info)))
    by apply heartbeat_data_gpu_name.
  assert (Hvram : heartbeat_data node_id gpu_info (gpu_load gpu * 100)%float
                    status (now_at env (next_probe st) timezone_utc)
                  !! "vram_total" = Some (VInt (vram_total gpu_info)))
    by apply heartbeat_data_vram_total.
  revert Hload Hname Hvram.
  generalize (heartbeat_data node_id gpu_info (gpu_load gpu * 100)%float
                status (now_at env (next_probe st) timezone_utc)).
  intros data Hload Hname Hvram.
  assert (Hprobes : st_probes (next_clock (next_probe st)) = S (st_probes st))
    by done.
  revert Hprobes. generalize (next_clock (next_probe st)). intros st' Hprobes.
  repeat attempt_case; simpl; eexists;
    (split; [reflexivity|]);
    (split; [exact Hload|]); (split; [exact Hname|]); (split; [exact Hvram|]);
    (split; [by repeat constructor|]); (split; [by repeat constructor|]);
    exact Hprobes.
Qed.

(** ** The whole tick *)

Lemma requests_app l1 l2 : requests (l1 ++ l2) = requests l1 ++ requests l2.
Proof. apply omap_app. Qed.

Lemma sleeps_app l1 l2 : sleeps (l1 ++ l2) = sleeps l1 ++ sleeps l2.
Proof. apply omap_app. Qed.

Lemma total_app l1 l2 : total (l1 ++ l2) = total l1 + total l2.
Proof. induction l1 as [|z l1 IH]; simpl; [done|]. rewrite IH. lia. Qed.

Lemma requests_startup_banner node_id gpu_info :
  requests (startup_banner node_id gpu_info) = [].
Proof. reflexivity. Qed.

Lemma sleeps_startup_banner node_id gpu_info :
  sleeps (startup_banner node_id gpu_info) = [].
Proof. reflexivity. Qed.

(** The tick once [send_heartbeat] has returned. *)
Lemma heartbeat_tick_returned client node_id gpu_info env st o success :
  send_heartbeat client node_id gpu_info (u "online") env st = o →
  res o = Ret success →
  heartbeat_tick client node_id gpu_info env st
  = {| res := if env_sleep env (st_sleeps (post o))
              then Raise KeyboardInterrupt else Ret tt;
       post := tick_post (post o) success;
       evs := evs o ++ [tick_logged env (post o) success;
                        EvSleep HEARTBEAT_INTERVAL] |}.
Proof.
  intros Ho Hres. unfold heartbeat_tick.
  rewrite (bind_Ret _ _ _ _ success) by by rewrite Ho.
  rewrite Ho. clear Ho. destruct success.
  - rewrite bind_assoc, bind_datetime_now, bind_log.
    rewrite time_sleep_eq by done. cbn [st_sleeps next_clock].
    by destruct (env_sleep env (st_sleeps (post o))).
  - rewrite bind_log. rewrite time_sleep_eq by done.
    by destruct (env_sleep env (st_sleeps (post o))).
Qed.

(** The tick when [send_heartbeat] is left by an exception. *)
Lemma heartbeat_tick_raised client node_id gpu_info env st e :
  res (send_heartbeat client node_id gpu_info (u "online") env st) = Raise e →
  heartbeat_tick client node_id gpu_info env st
  = {| res := Raise e;
       post := post (send_heartbeat client node_id gpu_info (u "online") env st);
       evs := evs (send_heartbeat client node_id gpu_info (u "online") env st) |}.
Proof.
  intros Hres. unfold heartbeat_tick.
  by rewrite (bind_Raise _ _ _ _ e) by exact Hres.
Qed.

Lemma send_heartbeat_result client node_id gpu_info status env st :
  (∃ b, res (send_heartbeat client node_id gpu_info status env st) = Ret b)
  ∨ res (send_heartbeat client node_id gpu_info status env st)
    = Raise KeyboardInterrupt.
Proof.
  destruct (send_heartbeat_cases client node_id gpu_info status env st)
    as [(x & _ & ->) | ->]; [|by right].
  rewrite res_after.
  generalize (heartbeat_data node_id gpu_info x status
                (now_at env (next_probe st) timezone_utc)).
  generalize (next_clock (next_probe st)). intros st' data.
  repeat attempt_case; simpl; eauto.
Qed.

Lemma heartbeat_tick_result client node_id gpu_info env st :
  res (heartbeat_tick client node_id gpu_info env st) = Ret tt
  ∨ res (heartbeat_tick client node_id gpu_info env st)
    = Raise KeyboardInterrupt.
Proof.
  destruct (send_heartbeat_result client node_id gpu_info (u "online") env st)
    as [[b Hb] | Hk].
  - rewrite (heartbeat_tick_returned _ _ _ _ _ _ b eq_refl Hb). cbn [res].
    destruct (env_sleep env _); auto.
  - rewrite (heartbeat_tick_raised _ _ _ _ _ _ Hk). by right.
Qed.

Lemma heartbeat_forever_result fuel client node_id gpu_info env st :
  res (heartbeat_forever fuel client node_id gpu_info env st) = Running
  ∨ res (heartbeat_forever fuel client node_id gpu_info env st)
    = Raise KeyboardInterrupt.
Proof.
  revert st. induction fuel as [|fuel IH]; intros st; [by left|].
  rewrite heartbeat_forever_S.
  destruct (heartbeat_tick_result client node_id gpu_info env st) as [H|H].
  - rewrite (bind_Ret _ _ _ _ tt) by exact H. rewrite res_after. apply IH.
  - rewrite (bind_Raise _ _ _ _ KeyboardInterrupt) by exact H. by right.
Qed.

(** ** The loop without a stop signal *)

Lemma send_heartbeat_unsignalled client node_id gpu_info status env st :
  no_stop_signal env →
  let o := send_heartbeat client node_id gpu_info status env st in
  ∃ b, res o = Ret b ∧
       (1 ≤ length (requests (evs o)) ≤ 3)%nat ∧
       0 ≤ total (sleeps (evs o)) ≤ 3 ∧
       st_probes (post o) = S (st_probes st).
Proof.
  intros (Hp & He & Hs). cbv zeta.
  destruct (sampled_load_returns _ (Hp (st_probes st))) as [x Hx].
  rewrite (send_heartbeat_eq _ _ _ _ _ _ x Hx).
  generalize (heartbeat_data node_id gpu_info x status
                (now_at env (next_probe st) timezone_utc)).
  assert (Hprobes : st_probes (next_clock (next_probe st)) = S (st_probes st))
    by done.
  revert Hprobes. generalize (next_clock (next_probe st)).
  intros st' Hprobes data.
  repeat attempt_case;
    try (by exfalso; eapply He; eassumption);
    try (by match goal with
            | H : env_sleep _ _ = true |- _ => rewrite Hs in H
            end);
    simpl; eexists; (split; [reflexivity|]); (split; [lia|]);
    (split; [lia|]); exact Hprobes.
Qed.

Lemma heartbeat_tick_unsignalled client node_id gpu_info env st :
  no_stop_signal env →
  let o := heartbeat_tick client node_id gpu_info env st in
  res o = Ret tt ∧
  (1 ≤ length (requests (evs o)) ≤ 3)%nat ∧
  HEARTBEAT_INTERVAL ≤ total (sleeps (evs o)) ≤ HEARTBEAT_INTERVAL + 3 ∧
  st_probes (post o) = S (st_probes st).
Proof.
  intros Hquiet. cbv zeta.
  destruct (send_heartbeat_unsignalled client node_id gpu_info (u "online")
              env st Hquiet) as (b & Hb & Hreq & Hwait & Hprobes).
  rewrite (heartbeat_tick_returned _ _ _ _ _ _ b eq_refl Hb).
  destruct Hquiet as (_ & _ & Hs). rewrite Hs. cbn [res post evs].
  revert Hreq Hwait Hprobes.
  generalize (send_heartbeat client node_id gpu_info (u "online") env st).
  intros o Hreq Hwait Hprobes.
  rewrite requests_app, sleeps_app, total_app, length_app.
  split; [done|].
  split; [by destruct b; simpl; lia|].
  split; [by destruct b; unfold HEARTBEAT_INTERVAL; simpl; lia|].
  by destruct b.
Qed.

Lemma heartbeat_forever_unsignalled fuel client node_id gpu_info env st :
  no_stop_signal env →
  let o := heartbeat_forever fuel client node_id gpu_info env st in
  res o = Running ∧
  (fuel ≤ length (requests (evs o)) ≤ 3 * fuel)%nat ∧
  HEARTBEAT_INTERVAL * Z.of_nat fuel ≤ total (sleeps (evs o))
    ≤ (HEARTBEAT_INTERVAL + 3) * Z.of_nat fuel ∧
  st_probes (post o) = (st_probes st + fuel)%nat.
Proof.
  intros Hquiet. cbv zeta. revert st.
  induction fuel as [|fuel IH]; intros st.
  { simpl. unfold HEARTBEAT_INTERVAL. repeat split; lia. }
  rewrite heartbeat_forever_S.
  destruct (heartbeat_tick_unsignalled client node_id gpu_info env st Hquiet)
    as (Hres & Hreq & Hwait & Hprobes).
  rewrite (bind_Ret _ _ _ _ tt) by exact Hres.
  rewrite res_after, post_after, evs_after.
  revert Hreq Hwait Hprobes.
  generalize (heartbeat_tick client node_id gpu_info env st).
  intros o Hreq Hwait Hprobes.
  destruct (IH (post o)) as (IHres & IHreq & IHwait & IHprobes).
  revert IHres IHreq IHwait IHprobes.
  generalize (heartbeat_forever fuel client node_id gpu_info env (post o)).
  intros o' IHres IHreq IHwait IHprobes.
  rewrite requests_app, sleeps_app, total_app, length_app.
  unfold HEARTBEAT_INTERVAL in *.
  split; [done|]. split; [lia|]. split; [lia|]. lia.
Qed.

Lemma run_heartbeat_loop_unstopped fuel client node_id gpu_info env st :
  res (heartbeat_forever fuel client node_id gpu_info env st)
  ≠ Raise KeyboardInterrupt →
  run_heartbeat_loop fuel client node_id gpu_info env st
  = after (startup_banner node_id gpu_info)
      (heartbeat_forever fuel client node_id gpu_info env st).
Proof.
  intros H. unfold run_heartbeat_loop. rewrite !bind_log.
  unfold try_except_KeyboardInterrupt. revert H.
  generalize (heartbeat_forever fuel client node_id gpu_info env st).
  intros o H. rewrite !after_after.
  by destruct (res o) as [?|[]|].
Qed.

Lemma run_heartbeat_loop_no_update fuel client node_id gpu_info env st :
  res (heartbeat_forever fuel client node_id gpu_info env st)
  ≠ Raise KeyboardInterrupt →
  Forall is_upsert
    (requests (evs (run_heartbeat_loop fuel client node_id gpu_info env st))).
Proof.
  intros H. rewrite run_heartbeat_loop_unstopped by exact H.
  rewrite evs_after, requests_app, requests_startup_banner.
  apply Forall_requests.
  apply (emits_heartbeat_forever no_update), heartbeat_tick_no_update.
Qed.

(** X5. Without a stop signal the loop never ends by itself: after any
    number of iterations [run_heartbeat_loop] is still running. Over [fuel]
    iterations it has sent between [fuel] and [3 * fuel] requests, all of
    them upserts, has waited between [60 * fuel] and [63 * fuel] seconds,
    and has probed the GPU once per iteration. *)
Theorem heartbeat_loop_keeps_running (fuel : nat) (client : Client)
    (node_id : pystr) (gpu_info : GPUInfo) (env : Env) (st : State) :
  no_stop_signal env →
  let run := run_heartbeat_loop fuel client node_id gpu_info env st in
  res run = Running ∧
  Forall is_upsert (requests (evs run)) ∧
  (fuel ≤ length (requests (evs run)) ≤ 3 * fuel)%nat ∧
  HEARTBEAT_INTERVAL * Z.of_nat fuel ≤ total (sleeps (evs run))
    ≤ (HEARTBEAT_INTERVAL + 3) * Z.of_nat fuel ∧
  st_probes (post run) = (st_probes st + fuel)%nat.
Proof.
  intros Hquiet. cbv zeta.
  destruct (heartbeat_forever_unsignalled fuel client node_id gpu_info env st
              Hquiet) as (Hres & Hreq & Hwait & Hprobes).
  assert (Hrun : res (heartbeat_forever fuel client node_id gpu_info env st)
                 ≠ Raise KeyboardInterrupt) by by rewrite Hres.
  split; [by rewrite run_heartbeat_loop_unstopped, res_after|].
  split; [by apply run_heartbeat_loop_no_update|].
  rewrite run_heartbeat_loop_unstopped by exact Hrun.
  rewrite post_after, evs_after, requests_app, sleeps_app.
  by rewrite requests_startup_banner, sleeps_startup_banner.
Qed.

(** ** The ways the loop ends *)

(** [run_heartbeat_loop] when a second stop signal arrives during the
    offline update. *)
Lemma run_heartbeat_loop_killed fuel client node_id gpu_info env st o :
  heartbeat_forever fuel client node_id gpu_info env st = o →
  res o = Raise KeyboardInterrupt →
  env_execute env (st_requests (post o)) = Interrupted →
  run_heartbeat_loop fuel client node_id gpu_info env st
  = {| res := Raise KeyboardInterrupt;
       post := next_request (next_clock (post o));
       evs := startup_banner node_id gpu_info ++ evs o
              ++ [EvLog INFO "\n" [];
                  EvLog INFO "Shutdown requested (Ctrl+C)..." [];
                  EvExecute (offline_mark env (post o) node_id)] |}.
Proof.
  intros Ho Hres Hex. unfold run_heartbeat_loop. rewrite !bind_log.
  unfold try_except_KeyboardInterrupt. rewrite Ho, Hres. clear Ho.
  rewrite !bind_log.
  pose proof (update_status_offline_eq client node_id env (post o)) as Hup.
  rewrite Hex in Hup.
  rewrite (bind_Raise _ _ _ _ KeyboardInterrupt) by by rewrite Hup.
  by rewrite Hup.
Qed.


Lemma requests_offline_logged r : requests [offline_logged r] = [].
Proof. by destruct r. Qed.

(** The three ways [run_heartbeat_loop] goes, by the way the loop is left
    and the answer to the offline update. *)
Lemma run_heartbeat_loop_cases fuel client node_id gpu_info env st o :
  heartbeat_forever fuel client node_id gpu_info env st = o →
  (res o = Running
   ∧ run_heartbeat_loop fuel client node_id gpu_info env st
     = after (startup_banner node_id gpu_info) o)
  ∨ (∃ st',
       run_heartbeat_loop fuel client node_id gpu_info env st
       = {| res := Raise (SystemExit 0); post := st';
            evs := startup_banner node_id gpu_info ++ evs o
                   ++ [EvLog INFO "\n" [];
                       EvLog INFO "Shutdown requested (Ctrl+C)..." [];
                       EvExecute (offline_mark env (post o) node_id);
                       offline_logged (env_execute env (st_requests (post o)));
                       EvLog INFO "NUSA Compute Provider Client stopped." []] |})
  ∨ run_heartbeat_loop fuel client node_id gpu_info env st
    = {| res := Raise KeyboardInterrupt;
         post := next_request (next_clock (post o));
         evs := startup_banner node_id gpu_info ++ evs o
                ++ [EvLog INFO "\n" [];
                    EvLog INFO "Shutdown requested (Ctrl+C)..." [];
                    EvExecute (offline_mark env (post o) node_id)] |}.
Proof.
  intros Ho.
  destruct (heartbeat_forever_result fuel client node_id gpu_info env st)
    as [Hres|Hres]; rewrite Ho in Hres.
  - left. split; [done|]. rewrite <- Ho. apply run_heartbeat_loop_unstopped.
    by rewrite Ho, Hres.
  - right.
    destruct (env_execute env (st_requests (post o))) as [[]|msg|] eqn:Hex.
    + left.
      destruct (run_heartbeat_loop_stopped fuel client node_id gpu_info env st
                  o Ho Hres) as (st' & Hrun & _); [by rewrite Hex|].
      rewrite Hex in Hrun. by exists st'.
    + left.
      destruct (run_heartbeat_loop_stopped fuel client node_id gpu_info env st
                  o Ho Hres) as (st' & Hrun & _); [by rewrite Hex|].
      rewrite Hex in Hrun. by exists st'.
    + right. by apply run_heartbeat_loop_killed.
Qed.


(** The loop when the stop signal arrives during the delivery that follows
    [n] completed ticks. *)
Lemma heartbeat_forever_delivery_interrupted n fuel client node_id gpu_info
    env st :
  res (ticks n client node_id gpu_info env st) = Ret tt →
  res (send_heartbeat client node_id gpu_info (u "online") env
         (post (ticks n client node_id gpu_info env st)))
  = Raise KeyboardInterrupt →
  (n < fuel)%nat →
  heartbeat_forever fuel client node_id gpu_info env st
  = {| res := Raise KeyboardInterrupt;
       post := post (send_heartbeat client node_id gpu_info (u "online") env
                       (post (ticks n client node_id gpu_info env st)));
       evs := evs (ticks n client node_id gpu_info env st)
              ++ evs (send_heartbeat client node_id gpu_info (u "online") env
                        (post (ticks n client node_id gpu_info env st))) |}.
Proof.
  intros Hticks Hres Hfuel.
  replace fuel with (n + S (fuel - S n))%nat by lia.
  rewrite heartbeat_forever_ticks by done.
  rewrite heartbeat_forever_S.
  pose proof (heartbeat_tick_raised client node_id gpu_info env _ _ Hres)
    as Htick.
  revert Htick.
  generalize (send_heartbeat client node_id gpu_info (u "online") env
                (post (ticks n client node_id gpu_info env st))).
  generalize (ticks n client node_id gpu_info env st).
  intros o1 o2 Htick.
  rewrite (bind_Raise _ _ _ _ KeyboardInterrupt) by by rewrite Htick.
  by rewrite Htick.
Qed.

(** X7. When the stop signal arrives inside [send_heartbeat] (during the
    probe, an upsert or a wait between two attempts) after [n] completed
    ticks, and no second signal cuts the offline update short, the run ends
    by [sys.exit(0)]: the events before the shutdown contain no update, and
    the shutdown is the two shutdown lines, the offline update of the node,
    its outcome and the line that announces the stop. *)
Theorem stop_signal_while_delivering (n fuel : nat) (client : Client)
    (node_id : pystr) (gpu_info : GPUInfo) (env : Env) (st : State) :
  let o := send_heartbeat client node_id gpu_info (u "online") env
             (post (ticks n client node_id gpu_info env st)) in
  res (ticks n client node_id gpu_info env st) = Ret tt →
  res o = Raise KeyboardInterrupt →
  env_execute env (st_requests (post o)) ≠ Interrupted →
  (n < fuel)%nat →
  let run := run_heartbeat_loop fuel client node_id gpu_info env st in
  res run = Raise (SystemExit 0) ∧
  exit_status (res run) = Some 0 ∧
  ∃ before,
    Forall no_update before ∧
    evs run
    = before
      ++ [EvLog INFO "\n" [];
          EvLog INFO "Shutdown requested (Ctrl+C)..." [];
          EvExecute (offline_mark env (post o) node_id);
          offline_logged (env_execute env (st_requests (post o)));
          EvLog INFO "NUSA Compute Provider Client stopped." []].
Proof.
  cbv zeta. intros Hticks Hres Hex Hfuel.
  pose proof (heartbeat_forever_delivery_interrupted n fuel client node_id
                gpu_info env st Hticks Hres Hfuel) as Hloop.
  pose proof (ticks_no_update n client node_id gpu_info env st) as Hn.
  pose proof (send_heartbeat_no_update client node_id gpu_info (u "online") env
                (post (ticks n client node_id gpu_info env st))) as Hs.
  revert Hex Hloop Hn Hs.
  generalize (send_heartbeat client node_id gpu_info (u "online") env
                (post (ticks n client node_id gpu_info env st))).
  generalize (ticks n client node_id gpu_info env st).
  intros o1 o2 Hex Hloop Hn Hs.
  destruct (run_heartbeat_loop_stopped fuel client node_id gpu_info env st _
              Hloop eq_refl Hex) as (st' & -> & _).
  cbn [res post evs exit_status]. split; [done|]. split; [done|].
  exists (startup_banner node_id gpu_info ++ evs o1 ++ evs o2).
  split; [|by rewrite <- !app_assoc].
  rewrite !Forall_app. split; [by repeat constructor|]. by split.
Qed.

(** X8. When the loop has been left by a stop signal and a second signal
    arrives during the offline update, [run_heartbeat_loop] ends by
    [KeyboardInterrupt] (exit status 130) instead of [sys.exit(0)]: the
    request is the last event (neither its outcome nor the stop is logged)
    and the registry is as the loop left it. *)
Theorem second_stop_signal_escapes (fuel : nat) (client : Client)
    (node_id : pystr) (gpu_info : GPUInfo) (env : Env) (st : State) :
  let loop := heartbeat_forever fuel client node_id gpu_info env st in
  res loop = Raise KeyboardInterrupt →
  env_execute env (st_requests (post loop)) = Interrupted →
  let run := run_heartbeat_loop fuel client node_id gpu_info env st in
  res run = Raise KeyboardInterrupt ∧
  exit_status (res run) = Some 130 ∧
  st_nodes (post run) = st_nodes (post loop) ∧
  evs run
  = startup_banner node_id gpu_info ++ evs loop
    ++ [EvLog INFO "\n" [];
        EvLog INFO "Shutdown requested (Ctrl+C)..." [];
        EvExecute (offline_mark env (post loop) node_id)].
Proof.
  cbv zeta. intros Hres Hex.
  by rewrite (run_heartbeat_loop_killed fuel client node_id gpu_info env st
                _ eq_refl Hres Hex).
Qed.

(** ** Credentials, case by case *)

Lemma not_set_false (s : option pystr) :
  not_set s = false → ∃ text, s = Some text ∧ truthy text = true.
Proof.
  destruct s as [text|]; [|done]. simpl. intros H%negb_false_iff. by exists text.
Qed.

(** [init_supabase] refuses the credentials before it calls
    [create_client], or calls it once on the two variables. *)
Lemma init_supabase_cases env st :
  (init_supabase env st
   = {| res := Ret None; post := st;
        evs := [EvLog ERROR
                  "Missing SUPABASE_URL or SUPABASE_KEY in environment variables."
                  [];
                EvLog ERROR "Please create a .env file based on .env.template"
                  []] |}
   ∧ (not_set (env_environ env "SUPABASE_URL") = true
      ∨ not_set (env_environ env "SUPABASE_KEY") = true))
  ∨ (init_supabase env st
     = {| res := Ret None; post := st;
          evs := [EvLog ERROR
                    "Please update .env with your actual Supabase credentials."
                    []] |}
     ∧ (env_environ env "SUPABASE_URL" = Some (u "your_supabase_url_here")
        ∨ env_environ env "SUPABASE_KEY"
          = Some (u "your_supabase_anon_key_here")))
  ∨ ∃ url key,
      env_environ env "SUPABASE_URL" = Some url ∧
      env_environ env "SUPABASE_KEY" = Some key ∧
      truthy url = true ∧ truthy key = true ∧
      url ≠ u "your_supabase_url_here" ∧
      key ≠ u "your_supabase_anon_key_here" ∧
      init_supabase env st
      = {| res := match env_create_client env url key with
                  | Some _ => Ret None
                  | None =>
                      Ret (Some {| client_url := url; client_key := key |})
                  end;
           post := st;
           evs := [EvCreateClient url key;
                   match env_create_client env url key with
                   | Some msg =>
                       EvLog ERROR "Failed to initialize Supabase client: {}"
                         [VStr msg]
                   | None =>
                       EvLog INFO "Supabase client initialized successfully." []
                   end] |}.
Proof.
  unfold init_supabase.
  rewrite (bind_pure _ _ _ _ (env_environ env "SUPABASE_URL") st)
    by reflexivity.
  rewrite (bind_pure _ _ _ _ (env_environ env "SUPABASE_KEY") st)
    by reflexivity.
  destruct (not_set (env_environ env "SUPABASE_URL")
            || not_set (env_environ env "SUPABASE_KEY")) eqn:Emissing.
  { left. split; [reflexivity|]. by apply orb_true_iff. }
  apply orb_false_iff in Emissing as [E1 E2].
  destruct (bool_decide (env_environ env "SUPABASE_URL"
                         = Some (u "your_supabase_url_here"))
            || bool_decide (env_environ env "SUPABASE_KEY"
                            = Some (u "your_supabase_anon_key_here")))
    eqn:Eplaceholder.
  { right; left. split; [reflexivity|].
    apply orb_true_iff in Eplaceholder as [E|E]; apply bool_decide_eq_true in E;
      auto. }
  apply orb_false_iff in Eplaceholder as [E3%bool_decide_eq_false
                                            E4%bool_decide_eq_false].
  right; right.
  destruct (not_set_false _ E1) as (url & Hurl & Turl).
  destruct (not_set_false _ E2) as (key & Hkey & Tkey).
  rewrite Hurl, Hkey in *. exists url, key.
  do 4 (split; [done|]). split; [congruence|]. split; [congruence|].
  unfold try_except. cbn [default from_option id].
  destruct (env_create_client env url key) as [msg|] eqn:Ecreate.
  - rewrite (bind_Raise _ _ _ _ (Exception msg));
      rewrite create_client_eq, Ecreate; done.
  - rewrite (bind_Ret _ _ _ _ {| client_url := url; client_key := key |});
      rewrite create_client_eq, Ecreate; done.
Qed.

(** X9. [init_supabase] changes nothing in the world, and returns [None]
    exactly when the credentials are bad (absent, empty, placeholders, or
    rejected by [create_client]); it returns a client exactly when they are
    not, and the client then holds the two variables of the environment.
    [create_client] is called only with both variables set, non-empty and
    different from the placeholders. *)
Theorem init_supabase_connects (env : Env) (st : State) :
  let o := init_supabase env st in
  post o = st ∧
  (res o = Ret None ↔ bad_credentials env) ∧
  (∀ client,
     res o = Ret (Some client) ↔
     ¬ bad_credentials env ∧
     env_environ env "SUPABASE_URL" = Some (client_url client) ∧
     env_environ env "SUPABASE_KEY" = Some (client_key client)) ∧
  (∀ url key,
     EvCreateClient url key ∈ evs o →
     env_environ env "SUPABASE_URL" = Some url ∧
     env_environ env "SUPABASE_KEY" = Some key ∧
     truthy url = true ∧ truthy key = true ∧
     url ≠ u "your_supabase_url_here" ∧
     key ≠ u "your_supabase_anon_key_here").
Proof.
  cbv zeta. unfold bad_credentials. cbv zeta.
  destruct (init_supabase_cases env st)
    as [[-> Hmissing] | [[-> Hplaceholder]
        | (url & key & Hurl & Hkey & Turl & Tkey & Nurl & Nkey & ->)]];
    cbn [res post evs].
  - split; [done|]. split; [split; [tauto|done]|].
    split.
    + intros client. split; [done|]. tauto.
    + intros url key H.
      repeat (apply elem_of_cons in H as [H|H]; [discriminate|]).
      by apply elem_of_nil in H.
  - split; [done|]. split; [split; [tauto|done]|].
    split.
    + intros client. split; [done|]. tauto.
    + intros url key H.
      repeat (apply elem_of_cons in H as [H|H]; [discriminate|]).
      by apply elem_of_nil in H.
  - rewrite Hurl, Hkey. cbn [default from_option id not_set].
    rewrite Turl, Tkey. cbn [negb].
    split; [done|].
    assert (Hbad : (false = true ∨ false = true
                    ∨ Some url = Some (u "your_supabase_url_here")
                    ∨ Some key = Some (u "your_supabase_anon_key_here")
                    ∨ ∃ msg, env_create_client env url key = Some msg)
                   ↔ ∃ msg, env_create_client env url key = Some msg).
    { split; [|tauto].
      intros [?|[?|[?|[?|?]]]]; try done; congruence. }
    rewrite Hbad. split; [|split].
    + destruct (env_create_client env url key) as [msg|].
      * split; [by eexists|done].
      * split; [done|]. by intros [? ?].
    + intros [url' key']. cbn [client_url client_key].
      destruct (env_create_client env url key) as [msg|].
      * split; [done|]. intros [H _]. destruct H. apply Hbad. by eexists.
      * split.
        -- intros [= <- <-]. split; [by intros [? ?]%Hbad|done].
        -- by intros (_ & [= <-] & [= <-]).
    + intros url' key' H.
      apply elem_of_cons in H as [[= -> ->]|H]; [done|].
      apply elem_of_cons in H as [H|H];
        [by destruct (env_create_client env url key)|].
      by apply elem_of_nil in H.
Qed.

(** ** The whole program *)

Lemma init_supabase_returns env st :
  ∃ connected,
    res (init_supabase env st) = Ret connected ∧
    post (init_supabase env st) = st.
Proof.
  destruct (init_supabase_cases env st)
    as [[-> _] | [[-> _] | (url & key & _ & _ & _ & _ & _ & _ & ->)]];
    cbn [res post]; eauto.
  destruct (env_create_client env url key); eauto.
Qed.

(** [main] once a GPU is detected: the start-up runs to the connection, and
    the loop is entered when there is a client. *)
Lemma main_startup fuel env st gpu_info node_id connected :
  res (detect_gpu env st) = Ret (Some gpu_info) →
  res (get_or_create_node_id env (next_probe st)) = Ret node_id →
  res (init_supabase env (post (get_or_create_node_id env (next_probe st))))
  = Ret connected →
  main fuel env st
  = after
      ([EvLog INFO "Initializing NUSA Compute Provider Client..." [];
        EvLog INFO "Detecting GPU..." []]
       ++ evs (detect_gpu env st)
       ++ [EvLog INFO "GPU detected: {}" [VRepr gpu_info];
           EvLog INFO "Setting up node identity..." []]
       ++ evs (get_or_create_node_id env (next_probe st))
       ++ [EvLog INFO "Connecting to Supabase..." []]
       ++ evs (init_supabase env
                 (post (get_or_create_node_id env (next_probe st)))))
      match connected with
      | Some client =>
          run_heartbeat_loop fuel client node_id gpu_info env
            (post (get_or_create_node_id env (next_probe st)))
      | None =>
          {| res := Raise (SystemExit 1);
             post := post (get_or_create_node_id env (next_probe st));
             evs := [EvLog ERROR
                       "Failed to initialize Supabase client. Exiting." []] |}
      end.
Proof.
  intros Hgpu Hid Hinit. unfold main. rewrite !bind_log.
  rewrite (bind_Ret _ _ _ _ (Some gpu_info)) by exact Hgpu.
  rewrite !bind_log.
  assert (Hpost : post (detect_gpu env st) = next_probe st)
    by by rewrite detect_gpu_eq.
  rewrite Hpost. clear Hgpu Hpost.
  generalize (detect_gpu env st). intros o1.
  rewrite (bind_Ret _ _ _ _ node_id) by exact Hid.
  rewrite bind_log.
  destruct (init_supabase_returns env
              (post (get_or_create_node_id env (next_probe st))))
    as (connected' & Hres & Hpost).
  rewrite Hres in Hinit. injection Hinit as ->.
  rewrite (bind_Ret _ _ _ _ connected) by exact Hres.
  rewrite Hpost. clear Hres Hpost Hid.
  generalize (init_supabase env
                (post (get_or_create_node_id env (next_probe st)))).
  generalize (get_or_create_node_id env (next_probe st)).
  intros o2 o3. rewrite !after_after, <- !app_assoc.
  destruct connected as [client|]; [done|].
  by rewrite bind_log.
Qed.


(** [main] when the stop signal arrives during the detection of the GPU. *)
Lemma main_interrupted_probe fuel env st :
  res (detect_gpu env st) = Raise KeyboardInterrupt →
  main fuel env st
  = {| res := Raise KeyboardInterrupt; post := post (detect_gpu env st);
       evs := [EvLog INFO "Initializing NUSA Compute Provider Client..." [];
               EvLog INFO "Detecting GPU..." []]
              ++ evs (detect_gpu env st) |}.
Proof.
  intros Hgpu. unfold main. rewrite !bind_log.
  by rewrite (bind_Raise _ _ _ _ KeyboardInterrupt) by exact Hgpu.
Qed.

Lemma main_startup_events env st st' st'' gpu_info :
  Forall startup_event
    ([EvLog INFO "Initializing NUSA Compute Provider Client..." [];
      EvLog INFO "Detecting GPU..." []]
     ++ evs (detect_gpu env st)
     ++ [EvLog INFO "GPU detected: {}" [VRepr gpu_info];
         EvLog INFO "Setting up node identity..." []]
     ++ evs (get_or_create_node_id env st')
     ++ [EvLog INFO "Connecting to Supabase..." []]
     ++ evs (init_supabase env st'')).
Proof.
  rewrite !Forall_app.
  split; [by repeat constructor|].
  split; [apply detect_gpu_startup|].
  split; [by repeat constructor|].
  split; [apply get_or_create_node_id_startup|].
  split; [by repeat constructor|].
  apply init_supabase_startup.
Qed.


Lemma new_node_id_randoms env st st' :
  st_randoms st = st_randoms st' → new_node_id env st = new_node_id env st'.
Proof. unfold new_node_id. by intros ->. Qed.

Lemma existing_node_id_file env st st' :
  st_id_file st = st_id_file st' →
  existing_node_id env st = existing_node_id env st'.
Proof. unfold existing_node_id. by intros ->. Qed.

Lemma lookup_events_file env st st' :
  st_id_file st = st_id_file st' → lookup_events env st = lookup_events env st'.
Proof. unfold lookup_events. by intros ->. Qed.

(** X11. The node identifier is resolved before the credentials are
    checked: when a GPU is detected, no identifier exists yet, the file can
    be written and the credentials are bad, [main] ends by [sys.exit(1)]
    having written the new identifier, and the file holds it. *)
Theorem identity_survives_abort (fuel : nat) (env : Env) (st : State)
    (gpu_info : GPUInfo) :
  res (detect_gpu env st) = Ret (Some gpu_info) →
  existing_node_id env st = None →
  env_write_error env = None →
  bad_credentials env →
  let o := main fuel env st in
  res o = Raise (SystemExit 1) ∧
  st_id_file (post o) = Some (new_node_id env st) ∧
  EvWriteText NODE_ID_FILE (new_node_id env st) ∈ evs o.
Proof.
  intros Hgpu Hnone Hwrite Hbad. cbv zeta.
  assert (Hid : get_or_create_node_id env (next_probe st)
                = {| res := Ret (new_node_id env st);
                     post := set_id_file (Some (new_node_id env st))
                               (next_random (next_probe st));
                     evs := lookup_events env st
                            ++ persist_events env (new_node_id env st) |}).
  { rewrite get_or_create_node_id_eq.
    rewrite (existing_node_id_file env (next_probe st) st eq_refl).
    rewrite (new_node_id_randoms env (next_probe st) st eq_refl).
    rewrite (lookup_events_file env (next_probe st) st eq_refl).
    by rewrite Hnone, Hwrite. }
  destruct (init_supabase_bad env
              (post (get_or_create_node_id env (next_probe st))) Hbad)
    as (l & template & args & Hinit & _).
  rewrite (main_startup fuel env st gpu_info (new_node_id env st) None Hgpu);
    [|by rewrite Hid|by rewrite Hinit].
  rewrite res_after, post_after, evs_after, Hid. cbn [res post evs].
  split; [done|]. split; [done|].
  rewrite !elem_of_app. left. right. right. right. left. right.
  unfold persist_events. apply list_elem_of_here.
Qed.

(** ** The memory reported by the probe *)

(** X12. [detect_gpu] looks at the first GPU of the answer only. When the
    memory size of that GPU is NaN or an infinity, the conversion to [int]
    fails: the error is logged and the result is [None], as if there were
    no GPU. For every other memory size the result describes that GPU: its
    name, its driver, its load in percent, and as memory the integer that
    [int] makes of the size reported (the size truncated towards zero); and
    nothing is logged. *)
Theorem detect_gpu_memory_edge (env : Env) (st : State) (gpu : GPU)
    (others : list GPU) :
  env_getGPUs env (st_probes st) = Ok (gpu :: others) →
  let o := detect_gpu env st in
  match Prim2SF (gpu_memoryTotal gpu) with
  | S754_nan | S754_infinity _ =>
      py_int (gpu_memoryTotal gpu) = None ∧
      res o = Ret None ∧
      ∃ msg,
        evs o = [EvGetGPUs; EvLog ERROR "GPU detection failed: {}" [VStr msg]]
  | _ =>
      ∃ vram,
        py_int (gpu_memoryTotal gpu) = Some vram ∧
        res o = Ret (Some {| name := gpu_name gpu; vram_total := vram;
                             driver_version := gpu_driver gpu;
                             load := (gpu_load gpu * 100)%float |}) ∧
        evs o = [EvGetGPUs]
  end.
Proof.
  intros Hprobe. cbv zeta. rewrite detect_gpu_eq, Hprobe.
  unfold detected, py_int.
  destruct (Prim2SF (gpu_memoryTotal gpu)) as [s|s| |s m e]; cbn [res evs fst snd].
  - exists 0. by split.
  - split; [done|]. split; [done|]. by eexists.
  - split; [done|]. split; [done|]. by eexists.
  - eexists. split; [reflexivity|]. by split.
Qed.

(** ** Trimming *)

Lemma lstrip_snoc s c :
  isspace c = false → lstrip (s ++ [c]) = lstrip s ++ [c].
Proof.
  intros Hc. induction s as [|a s IH]; simpl; [by rewrite Hc|].
  by destruct (isspace a).
Qed.

Lemma lstrip_head s :
  lstrip s = [] ∨ ∃ c s', lstrip s = c :: s' ∧ isspace c = false.
Proof.
  induction s as [|a s IH]; simpl; [by left|].
  destruct (isspace a) eqn:Ha; [done|]. right. by exists a, s.
Qed.

Lemma lstrip_lstrip s : lstrip (lstrip s) = lstrip s.
Proof.
  destruct (lstrip_head s) as [->|(c & s' & -> & Hc)]; [done|].
  simpl. by rewrite Hc.
Qed.

Lemma rstrip_cons c s :
  isspace c = false → rstrip (c :: s) = c :: rstrip s.
Proof.
  intros Hc. unfold rstrip. simpl.
  by rewrite lstrip_snoc, rev_app_distr.
Qed.

Lemma rstrip_rstrip s : rstrip (rstrip s) = rstrip s.
Proof. unfold rstrip. by rewrite rev_involutive, lstrip_lstrip. Qed.

Lemma strip_strip s : strip (strip s) = strip s.
Proof.
  unfold strip.
  destruct (lstrip_head s) as [->|(c & s' & -> & Hc)]; [done|].
  rewrite (rstrip_cons c s' Hc). simpl. rewrite Hc.
  by rewrite <- (rstrip_cons c s' Hc), rstrip_rstrip.
Qed.

(** ** The identifier returned *)

(** X13. [get_or_create_node_id] always returns, and the identifier it
    returns is never empty and has no white space at either end. What is
    written to the file, if anything, is that identifier. When nothing is
    written the file is as it was, and when the write succeeds the file
    holds exactly the identifier returned (nothing is said of the file
    after a write that fails). The registry is not touched. *)
Theorem node_id_is_trimmed (env : Env) (st : State) :
  let o := get_or_create_node_id env st in
  ∃ node_id,
    res o = Ret node_id ∧
    truthy node_id = true ∧
    strip node_id = node_id ∧
    (∀ data, EvWriteText NODE_ID_FILE data ∈ evs o → data = node_id) ∧
    ((∀ data, EvWriteText NODE_ID_FILE data ∉ evs o) →
     st_id_file (post o) = st_id_file st) ∧
    (env_write_error env = None →
     EvWriteText NODE_ID_FILE node_id ∈ evs o →
     st_id_file (post o) = Some node_id) ∧
    st_nodes (post o) = st_nodes st.
Proof.
  cbv zeta. rewrite get_or_create_node_id_eq.
  destruct (existing_node_id env st) as [node_id|] eqn:Hexisting.
  - exists node_id. cbn [res post evs]. split; [done|].
    unfold existing_node_id in Hexisting.
    destruct (st_id_file st) as [text|]; [|done].
    destruct (env_read_error env); [done|].
    destruct (truthy (strip text)) eqn:Htext; [|done].
    injection Hexisting as <-.
    split; [done|]. split; [apply strip_strip|].
    split; [intros data H; by apply lookup_events_no_write in H|].
    split; [done|]. split; [|done].
    intros _ H. by apply lookup_events_no_write in H.
  - exists (new_node_id env st). cbn [res post evs]. split; [done|].
    split; [apply new_node_id_truthy|]. split; [apply new_node_id_strip|].
    split; [|split; [|split]].
    + intros data H. apply elem_of_app in H as [H|H];
        [by apply lookup_events_no_write in H|].
      unfold persist_events in H.
      apply elem_of_cons in H as [[= ->]|H]; [done|].
      destruct (env_write_error env);
        (apply elem_of_cons in H as [H|H]; [discriminate|]);
        by apply elem_of_nil in H.
    + intros Hnone. exfalso. apply (Hnone (new_node_id env st)).
      apply elem_of_app. right. unfold persist_events.
      apply list_elem_of_here.
    + by intros -> _.
    + by destruct (env_write_error env).
Qed.

Lemma existing_node_id_empty env st :
  st_id_file st = Some [] → existing_node_id env st = None.
Proof.
  intros H. unfold existing_node_id. rewrite H.
  by destruct (env_read_error env).
Qed.

(** X14. When no identifier can be loaded and the write of the file fails,
    [get_or_create_node_id] still returns the new identifier, after having
    tried to write it and logged a warning. Nothing is remembered: whether
    the failed write has left the file as it was or has left it empty, the
    next call generates an identifier again, from the next random draw. *)
Theorem unwritable_id_file (env : Env) (st : State) (msg : pystr) :
  env_write_error env = Some msg →
  existing_node_id env st = None →
  let o := get_or_create_node_id env st in
  res o = Ret (new_node_id env st) ∧
  EvWriteText NODE_ID_FILE (new_node_id env st) ∈ evs o ∧
  EvLog WARNING "Could not persist node ID: {}" [VStr msg] ∈ evs o ∧
  st_randoms (post o) = S (st_randoms st) ∧
  ∀ st',
    st_id_file st' = st_id_file st ∨ st_id_file st' = Some [] →
    st_randoms st' = st_randoms (post o) →
    res (get_or_create_node_id env st')
    = Ret (new_node_id env (next_random st)).
Proof.
  intros Hwrite Hnone. cbv zeta.
  rewrite (get_or_create_node_id_eq env st), Hnone, Hwrite.
  cbn [res post evs]. split; [done|]. split; [|split; [|split; [done|]]].
  - apply elem_of_app. right. unfold persist_events.
    apply list_elem_of_here.
  - apply elem_of_app. right. unfold persist_events. rewrite Hwrite.
    apply list_elem_of_further, list_elem_of_here.
  - intros st' Hfile Hrandoms.
    assert (Hnone' : existing_node_id env st' = None).
    { destruct Hfile as [Hfile|Hfile].
      - by rewrite (existing_node_id_file env st' st Hfile).
      - by apply existing_node_id_empty. }
    rewrite get_or_create_node_id_eq, Hnone'. cbn [res].
    by rewrite (new_node_id_randoms env st' (next_random st) Hrandoms).
Qed.

(** ** Time stamps *)

Lemma isoformat_utc t :
  tzinfo t = timezone_utc → ∃ s, isoformat t = s ++ u "+00:00".
Proof.
  intros Ht. unfold isoformat. rewrite Ht. unfold timezone_utc.
  change (u (if 0 <? 0 then "-" else "+")
            ++ format_d 2 (Z.to_N (Z.abs 0 / 60)) ++ u ":"
            ++ format_d 2 (Z.to_N (Z.abs 0 mod 60)))
    with (u "+00:00").
  rewrite !app_assoc. by eexists.
Qed.

Lemma heartbeat_data_utc (node_id : pystr) (gpu_info : GPUInfo) (x : float)
    (status : pystr) (t : datetime) :
  tzinfo t = timezone_utc →
  utc_stamped
    (EvExecute
       (Upsert TABLE_NAME (heartbeat_data node_id gpu_info x status t)
          "node_id")).
Proof.
  intros Ht. destruct (isoformat_utc t Ht) as [s Hs]. exists s.
  cbn [fields_of]. unfold heartbeat_data. rewrite Hs. by simplify_map_eq.
Qed.

Lemma offline_fields_utc (node_id : pystr) (t : datetime) :
  tzinfo t = timezone_utc →
  utc_stamped
    (EvExecute (Update TABLE_NAME (offline_fields t) "node_id" node_id)).
Proof.
  intros Ht. destruct (isoformat_utc t Ht) as [s Hs]. exists s.
  cbn [fields_of]. unfold offline_fields. rewrite Hs. by simplify_map_eq.
Qed.

Lemma heartbeat_tick_utc client node_id gpu_info :
  emits utc_stamped (heartbeat_tick client node_id gpu_info).
Proof.
  unfold heartbeat_tick, send_heartbeat.
  apply emits_bind; [|intros success; emits_all].
  apply emits_bind; [by apply emits_get_current_gpu_load|]. intros x.
  apply emits_bind_datetime_now. intros t Ht.
  apply emits_send_heartbeat_attempts; try done.
  by apply heartbeat_data_utc.
Qed.

Lemma update_status_offline_utc client node_id :
  emits utc_stamped (update_status_offline client node_id).
Proof.
  unfold update_status_offline. apply emits_try_except; [|intros e; emits_all].
  apply emits_bind_datetime_now. intros t Ht.
  apply emits_bind; [|intros _; emits_all].
  apply emits_execute. by apply offline_fields_utc.
Qed.

Lemma run_heartbeat_loop_utc fuel client node_id gpu_info :
  emits utc_stamped (run_heartbeat_loop fuel client node_id gpu_info).
Proof.
  unfold run_heartbeat_loop. repeat (apply emits_bind; [emits_all|intros _]).
  apply emits_try_except_KeyboardInterrupt.
  - apply emits_heartbeat_forever, heartbeat_tick_utc.
  - do 2 (apply emits_bind; [emits_all|intros _]).
    apply emits_bind; [apply update_status_offline_utc|intros _].
    emits_all.
Qed.

(** X15. Every request the program sends, upsert or offline update, carries
    a [last_seen] that is a text ending with the offset [+00:00] of UTC. *)
Theorem last_seen_is_utc (fuel : nat) (env : Env) (st : State) :
  Forall utc_stamped (evs (main fuel env st)).
Proof.
  assert (Hstart : ∀ e, startup_event e → utc_stamped e) by by intros [].
  revert env st. change (emits utc_stamped (main fuel)). unfold main.
  do 2 (apply emits_bind; [emits_all|intros _]).
  apply emits_bind;
    [eapply emits_impl; [exact Hstart | apply detect_gpu_startup]|].
  intros [gpu_info|]; [|emits_all].
  do 2 (apply emits_bind; [emits_all|intros _]).
  apply emits_bind;
    [eapply emits_impl; [exact Hstart | apply get_or_create_node_id_startup]|].
  intros node_id.
  apply emits_bind; [emits_all|intros _].
  apply emits_bind;
    [eapply emits_impl; [exact Hstart | apply init_supabase_startup]|].
  intros [client|]; [apply run_heartbeat_loop_utc | emits_all].
Qed.

(** ** Hexadecimal text of a fixed width *)

(** The sixteen values below 16, one goal each. *)
Ltac hex_cases v H :=
  destruct v as [|v]; [|do 4 (try destruct v as [v|v|])];
  try (exfalso; lia).

Lemma of_lu_hex_digit v d :
  (v < 16)%N →
  HexadecimalPos.Unsigned.of_lu (hex_digit v d)
  = (v + 16 * HexadecimalPos.Unsigned.of_lu d)%N.
Proof. intros H. hex_cases v H; reflexivity. Qed.

Lemma hex_text_hex_digit v d :
  (v < 16)%N → hex_text (hex_digit v d) = hex_char v :: hex_text d.
Proof. intros H. hex_cases v H; reflexivity. Qed.

Lemma hexdigit_hex_char v : (v < 16)%N → hexdigit (hex_char v) = true.
Proof. intros H. hex_cases v H; reflexivity. Qed.

Lemma hex_char_inj v w :
  (v < 16)%N → (w < 16)%N → hex_char v = hex_char w → v = w.
Proof.
  unfold hex_char. intros Hv Hw.
  destruct (N.ltb_spec v 10), (N.ltb_spec w 10); lia.
Qed.

Lemma of_lu_hex_little_uint k n :
  (n < 16 ^ N.of_nat k)%N →
  HexadecimalPos.Unsigned.of_lu (hex_little_uint k n) = n.
Proof.
  revert n. induction k as [|k IH]; intros n Hn.
  - simpl in *. lia.
  - rewrite Nat2N.inj_succ, N.pow_succ_r' in Hn.
    cbn [hex_little_uint]. rewrite of_lu_hex_digit by (apply N.mod_lt; lia).
    rewrite IH by (apply N.Div0.div_lt_upper_bound; lia).
    pose proof (N.div_mod n 16). lia.
Qed.

Lemma hex_text_hex_little_uint k n :
  hex_text (hex_little_uint k n) = hex_little k n.
Proof.
  revert n. induction k as [|k IH]; intros n; [done|].
  cbn [hex_little_uint hex_little].
  rewrite hex_text_hex_digit by (apply N.mod_lt; lia). by rewrite IH.
Qed.

Lemma nb_digits_hex_digit v d :
  Hexadecimal.nb_digits (hex_digit v d) = S (Hexadecimal.nb_digits d).
Proof.
  destruct v as [|v]; [done|].
  do 4 (try destruct v as [v|v|]); reflexivity.
Qed.

Lemma nb_digits_hex_little_uint k n :
  Hexadecimal.nb_digits (hex_little_uint k n) = k.
Proof.
  revert n. induction k as [|k IH]; intros n; [done|].
  cbn [hex_little_uint]. by rewrite nb_digits_hex_digit, IH.
Qed.

Lemma hex_text_length d : length (hex_text d) = Hexadecimal.nb_digits d.
Proof. induction d; simpl; by f_equal. Qed.

Lemma hex_text_revapp d d' :
  hex_text (Hexadecimal.revapp d d') = rev (hex_text d) ++ hex_text d'.
Proof.
  revert d'. unfold hex_text.
  induction d; intros d'; simpl; [done|..];
    rewrite IHd; simpl; by rewrite <- app_assoc.
Qed.

Lemma hex_text_rev d : hex_text (Hexadecimal.rev d) = rev (hex_text d).
Proof.
  unfold Hexadecimal.rev. rewrite hex_text_revapp. apply app_nil_r.
Qed.

(** The text of a number without its leading zeros, padded again. *)
Lemma hex_text_unorm d :
  d ≠ Hexadecimal.Nil →
  ∃ z,
    hex_text d
    = replicate z 48%N
      ++ u (HexadecimalString.NilZero.string_of_uint (Hexadecimal.unorm d)).
Proof.
  induction d as [|d IH| | | | | | | | | | | | | | | ]; intros Hd;
    [done| |by exists 0%nat..].
  destruct d as [| | | | | | | | | | | | | | | | ];
    [by exists 0%nat|
     destruct IH as [z Hz]; [done|]; exists (S z);
     rewrite HexadecimalFacts.unorm_D0; change (hex_text (Hexadecimal.D0 ?x))
       with (48%N :: hex_text x); by rewrite Hz ..].
Qed.

(** [format_x] on a number that fits the width: the digits, the highest
    first. *)
Lemma format_x_fixed k n :
  (1 ≤ k)%nat → (n < 16 ^ N.of_nat k)%N →
  format_x k n = rev (hex_little k n).
Proof.
  intros Hk Hn.
  rewrite <- hex_text_hex_little_uint, <- hex_text_rev.
  assert (Hvalue : Pos.of_hex_uint (Hexadecimal.rev (hex_little_uint k n)) = n)
    by by rewrite HexadecimalPos.Unsigned.of_lu_rev, of_lu_hex_little_uint.
  assert (Hdigits : Hexadecimal.nb_digits
                      (Hexadecimal.rev (hex_little_uint k n)) = k)
    by by rewrite HexadecimalFacts.nb_digits_rev, nb_digits_hex_little_uint.
  revert Hvalue Hdigits.
  generalize (Hexadecimal.rev (hex_little_uint k n)). intros d Hvalue Hdigits.
  unfold format_x. rewrite <- Hvalue at 1 2.
  rewrite HexadecimalPos.Unsigned.to_of.
  destruct (hex_text_unorm d) as [z Hz].
  { apply HexadecimalFacts.nb_digits_n0. lia. }
  pose proof (hex_text_length d) as Hlength.
  rewrite Hz, length_app, length_replicate, Hdigits in Hlength.
  rewrite Hz. f_equal. f_equal. lia.
Qed.

Lemma hex_little_length k n : length (hex_little k n) = k.
Proof. revert n. induction k as [|k IH]; intros n; simpl; by f_equal. Qed.

Lemma hex_little_hexdigit k n : Forall (λ c, hexdigit c = true) (hex_little k n).
Proof.
  revert n. induction k as [|k IH]; intros n; simpl; constructor; [|done].
  apply hexdigit_hex_char, N.mod_lt. lia.
Qed.

Lemma hex_little_inj k n m :
  (n < 16 ^ N.of_nat k)%N → (m < 16 ^ N.of_nat k)%N →
  hex_little k n = hex_little k m → n = m.
Proof.
  revert n m. induction k as [|k IH]; intros n m Hn Hm H.
  - simpl in *. lia.
  - rewrite Nat2N.inj_succ, N.pow_succ_r' in Hn, Hm.
    injection H as Hdigit Hrest.
    apply hex_char_inj in Hdigit; [|apply N.mod_lt; lia..].
    apply IH in Hrest; [|apply N.Div0.div_lt_upper_bound; lia..].
    pose proof (N.div_mod n 16). pose proof (N.div_mod m 16). lia.
Qed.

(** ** The hardware address as text *)

Lemma get_mac_address_eq env st :
  get_mac_address env st
  = {| res := Ret (join (u ":")
                     ((λ i, slice i (i + 2)
                              (format_x 12 (env_getnode env mod 2 ^ 48)%N))
                        <$> range_0_12_2));
       post := st; evs := [] |}.
Proof. reflexivity. Qed.

Lemma format_x_getnode env :
  format_x 12 (env_getnode env mod 2 ^ 48)%N
  = rev (hex_little 12 (env_getnode env mod 2 ^ 48)%N).
Proof.
  apply format_x_fixed; [lia|].
  change (16 ^ N.of_nat 12)%N with (2 ^ 48)%N.
  apply N.mod_lt. lia.
Qed.

Lemma join_pairs_shaped hex :
  length hex = 12%nat →
  Forall (λ c, hexdigit c = true) hex →
  mac_shaped
    (join (u ":") ((λ i, slice i (i + 2) hex) <$> range_0_12_2)).
Proof.
  intros Hlength Hdigits.
  do 12 (destruct hex as [|? hex]; [discriminate Hlength|]).
  destruct hex; [|discriminate Hlength]. clear Hlength.
  repeat match goal with
         | H : Forall _ (_ :: _) |- _ => apply Forall_cons in H as [? H]
         end.
  split; [reflexivity|]. intros i c.
  do 17 (destruct i as [|i]; [by intros [= <-]|]).
  done.
Qed.

Lemma join_pairs_inj hex hex' :
  length hex = 12%nat → length hex' = 12%nat →
  join (u ":") ((λ i, slice i (i + 2) hex) <$> range_0_12_2)
  = join (u ":") ((λ i, slice i (i + 2) hex') <$> range_0_12_2) →
  hex = hex'.
Proof.
  intros Hlength Hlength'.
  do 12 (destruct hex as [|? hex]; [discriminate Hlength|]).
  destruct hex; [|discriminate Hlength]. clear Hlength.
  do 12 (destruct hex' as [|? hex']; [discriminate Hlength'|]).
  destruct hex'; [|discriminate Hlength']. clear Hlength'.
  cbv. intros H. by simplify_eq.
Qed.

(** X16. [get_mac_address] returns, without any effect, a text of 17
    characters: six pairs of lower-case hexadecimal digits separated by
    colons. *)
Theorem get_mac_address_format (env : Env) (st : State) :
  ∃ mac,
    get_mac_address env st = {| res := Ret mac; post := st; evs := [] |} ∧
    mac_shaped mac.
Proof.
  eexists. split; [apply get_mac_address_eq|].
  rewrite format_x_getnode. apply join_pairs_shaped.
  - by rewrite length_rev, hex_little_length.
  - apply Forall_rev, hex_little_hexdigit.
Qed.

(** X17. The text of [get_mac_address] determines the 48-bit hardware
    address: two calls return the same text exactly when the addresses are
    the same modulo [2 ^ 48]. *)
Theorem get_mac_address_injective (env env' : Env) (st st' : State) :
  res (get_mac_address env st) = res (get_mac_address env' st') ↔
  (env_getnode env mod 2 ^ 48 = env_getnode env' mod 2 ^ 48)%N.
Proof.
  rewrite !get_mac_address_eq. cbn [res]. split; [|by intros ->].
  intros [= H]. rewrite !format_x_getnode in H.
  apply join_pairs_inj in H; [|by rewrite length_rev, hex_little_length..].
  apply (f_equal (@rev N)) in H. rewrite !rev_involutive in H.
  apply hex_little_inj in H; [done|..];
    change (16 ^ N.of_nat 12)%N with (2 ^ 48)%N; apply N.mod_lt; lia.
Qed.

(** ** The bits of a UUID *)

Lemma UUID_version_testbit i version n :
  N.testbit (UUID_version i version) n
  = (N.testbit i n && negb (N.testbit (N.shiftl 0xc000 48) n)
     || N.testbit (N.shiftl 0x8000 48) n)
    && negb (N.testbit (N.shiftl 0xf000 64) n)
    || N.testbit (N.shiftl version 76) n.
Proof.
  unfold UUID_version. cbv zeta.
  by rewrite N.lor_spec, N.ldiff_spec, N.lor_spec, N.ldiff_spec.
Qed.

Lemma lor_lt_pow2 a b n :
  (a < 2 ^ n)%N → (b < 2 ^ n)%N → (N.lor a b < 2 ^ n)%N.
Proof.
  intros Ha Hb.
  destruct (N.eq_dec a 0%N) as [->|Hna]; [by rewrite N.lor_0_l|].
  destruct (N.eq_dec b 0%N) as [->|Hnb]; [by rewrite N.lor_0_r|].
  assert (N.lor a b ≠ 0%N) by (intros [? ?]%N.lor_eq_0_iff; done).
  apply N.log2_lt_pow2; [lia|]. rewrite N.log2_lor.
  apply N.log2_lt_pow2 in Ha, Hb; lia.
Qed.

Lemma UUID_version_lt i version :
  (i < 2 ^ 128)%N → (version < 16)%N →
  (UUID_version i version < 2 ^ 128)%N.
Proof.
  intros Hi Hv. unfold UUID_version. cbv zeta.
  apply lor_lt_pow2.
  - eapply N.le_lt_trans; [apply N.ldiff_le_l|].
    apply lor_lt_pow2; [|done].
    eapply N.le_lt_trans; [apply N.ldiff_le_l|done].
  - rewrite N.shiftl_mul_pow2.
    change (2 ^ 128)%N with (16 * 2 ^ 76 * 2 ^ 48)%N.
    assert (0 < 2 ^ 76)%N by done. assert (0 < 2 ^ 48)%N by done.
    generalize dependent (2 ^ 76)%N. generalize dependent (2 ^ 48)%N.
    intros. nia.
Qed.

(** The digit of the version. *)
Lemma UUID_version_nibble i version :
  (version < 16)%N →
  ((UUID_version i version / 16 ^ N.of_nat 19) mod 16)%N = version.
Proof.
  intros Hv.
  change (16 ^ N.of_nat 19)%N with (2 ^ 76)%N. change 16%N with (2 ^ 4)%N.
  apply N.bits_inj. intros m.
  destruct (N.lt_ge_cases m 4) as [Hm|Hm].
  - rewrite N.mod_pow2_bits_low by done.
    rewrite N.div_pow2_bits, UUID_version_testbit, N.shiftl_spec_alt.
    assert (Hmask : N.testbit (N.shiftl 0xf000 64) (m + 76) = true).
    { destruct m as [|m]; [done|].
      do 2 (try destruct m as [m|m|]); try done; lia. }
    rewrite Hmask. by rewrite andb_false_r.
  - rewrite N.mod_pow2_bits_high by done. symmetry.
    destruct (N.eq_dec version 0%N) as [->|Hn]; [apply N.bits_0|].
    apply N.bits_above_log2.
    assert (N.log2 version < 4)%N; [|lia].
    apply N.log2_lt_pow2; [lia|done].
Qed.

(** The digit of the variant. *)
Lemma UUID_variant_nibble i version :
  ((UUID_version i version / 16 ^ N.of_nat 15) mod 16)%N
  ∈ [8; 9; 10; 11]%N.
Proof.
  assert (Hlt : ((UUID_version i version / 16 ^ N.of_nat 15) mod 16 < 16)%N)
    by (apply N.mod_lt; lia).
  assert (H3 : N.testbit
                 ((UUID_version i version / 16 ^ N.of_nat 15) mod 16) 3
               = true).
  { change (16 ^ N.of_nat 15)%N with (2 ^ 60)%N. change 16%N with (2 ^ 4)%N.
    rewrite N.mod_pow2_bits_low by done.
    rewrite N.div_pow2_bits, UUID_version_testbit.
    by destruct (N.testbit i (3 + 60)). }
  assert (H2 : N.testbit
                 ((UUID_version i version / 16 ^ N.of_nat 15) mod 16) 2
               = false).
  { change (16 ^ N.of_nat 15)%N with (2 ^ 60)%N. change 16%N with (2 ^ 4)%N.
    rewrite N.mod_pow2_bits_low by done.
    rewrite N.div_pow2_bits, UUID_version_testbit.
    assert (Hv : N.testbit (N.shiftl version 76) (2 + 60) = false)
      by by apply N.shiftl_spec_low.
    rewrite Hv. by destruct (N.testbit i (2 + 60)). }
  revert Hlt H3 H2.
  generalize ((UUID_version i version / 16 ^ N.of_nat 15) mod 16)%N.
  intros c Hlt H3 H2.
  hex_cases c Hlt; try discriminate; set_solver.
Qed.

(** ** The text of a UUID *)

Lemma hex_little_lookup k n j :
  (j < k)%nat →
  hex_little k n !! j = Some (hex_char ((n / 16 ^ N.of_nat j) mod 16)%N).
Proof.
  revert n j. induction k as [|k IH]; intros n j Hj; [lia|].
  destruct j as [|j].
  - simpl. by rewrite N.div_1_r.
  - cbn [hex_little lookup list_lookup]. rewrite IH by lia.
    rewrite Nat2N.inj_succ, N.pow_succ_r', N.Div0.div_div. done.
Qed.

Lemma UUID_str_shaped x version :
  (x < 2 ^ 128)%N →
  ((x / 16 ^ N.of_nat 19) mod 16)%N = version →
  ((x / 16 ^ N.of_nat 15) mod 16)%N ∈ [8; 9; 10; 11]%N →
  uuid_shaped version (UUID_str x).
Proof.
  intros Hx Hversion Hvariant. unfold UUID_str. cbv zeta.
  rewrite format_x_fixed by (done || lia).
  pose proof (hex_little_length 32 x) as Hlength.
  pose proof (hex_little_hexdigit 32 x) as Hdigits.
  pose proof (hex_little_lookup 32 x 19 ltac:(lia)) as H19.
  pose proof (hex_little_lookup 32 x 15 ltac:(lia)) as H15.
  rewrite Hversion in H19.
  assert (Hc : ∃ c, hex_little 32 x !! 15%nat = Some c
                    ∧ c ∈ [56; 57; 97; 98]%N).
  { eexists. split; [exact H15|]. revert Hvariant.
    generalize ((x / 16 ^ N.of_nat 15) mod 16)%N. intros c Hc.
    repeat (apply elem_of_cons in Hc as [->|Hc];
            [by repeat first [apply list_elem_of_here
                             |apply list_elem_of_further]|]).
    by apply elem_of_nil in Hc. }
  clear H15 Hvariant Hversion Hx. revert Hlength Hdigits H19 Hc.
  generalize (hex_little 32 x). intros l Hlength Hdigits H19 (c & H15 & Hc).
  do 32 (destruct l as [|? l]; [discriminate Hlength|]).
  destruct l; [|discriminate Hlength]. clear Hlength.
  repeat match goal with
         | H : Forall _ (_ :: _) |- _ => apply Forall_cons in H as [? H]
         end.
  injection H19 as ->. injection H15 as ->.
  split; [reflexivity|]. split; [|split; [reflexivity|by exists c]].
  intros i c'.
  do 36 (destruct i as [|i]; [by intros [= <-]|]).
  done.
Qed.

(** X18. The identifier that [get_or_create_node_id] generates is the text
    of a version 5 UUID of the RFC 4122 variant: 36 characters, hexadecimal
    digits with hyphens at the positions 8, 13, 18 and 23, the digit 5 at
    position 14 and one of 8, 9, a, b at position 19. *)
Theorem generated_node_id_shape (env : Env) (st : State) :
  existing_node_id env st = None →
  ∃ node_id,
    res (get_or_create_node_id env st) = Ret node_id ∧
    uuid_shaped 5 node_id.
Proof.
  intros Hnone. rewrite get_or_create_node_id_eq, Hnone. cbn [res].
  eexists. split; [reflexivity|]. unfold new_node_id. cbv zeta.
  apply UUID_str_shaped.
  - apply UUID_version_lt; [|done].
    rewrite N.shiftr_div_pow2.
    apply N.Div0.div_lt_upper_bound.
    change (2 ^ 32 * 2 ^ 128)%N with (2 ^ 160)%N. apply N.mod_lt. done.
  - by apply UUID_version_nibble.
  - apply UUID_variant_nibble.
Qed.

(** ** Logging set-up *)

(** X19. [setup_logging] is idempotent: a second call (a reload of the
    module) leaves the logger as the first call made it. The level is
    [INFO], there is at least one handler, and handlers that were already
    attached are kept as they are with none added. *)
Theorem setup_logging_idempotent (found : Logger) :
  let logger := setup_logging found in
  setup_logging logger = logger ∧
  logger_level logger = Some INFO ∧
  logger_handlers logger ≠ [] ∧
  (logger_handlers found ≠ [] →
   logger_handlers logger = logger_handlers found) ∧
  (length (logger_handlers logger)
   ≤ Nat.max 1 (length (logger_handlers found)))%nat.
Proof.
  destruct found as [name lvl [|handler handlers]]; cbv zeta; simpl;
    (split; [done|]); (split; [done|]); (split; [done|]);
    (split; [done|lia]).
Qed.

(** ** What a computation leaves untouched *)

Section Preserves.
Context {B : Type} (f : State → B) (allowed : request → Prop).
Hypothesis f_probe : ∀ st, f (next_probe st) = f st.
Hypothesis f_request : ∀ st, f (next_request st) = f st.
Hypothesis f_sleep : ∀ st, f (next_sleep st) = f st.
Hypothesis f_clock : ∀ st, f (next_clock st) = f st.
Hypothesis f_allowed :
  ∀ r st, allowed r → f (set_nodes (apply_request r (st_nodes st)) st) = f st.

Lemma preserves_ret {A} (a : A) : preserves f (mret a).
Proof. by intros env st. Qed.

Lemma preserves_raise {A} e : preserves f (@raise A e).
Proof. by intros env st. Qed.

Lemma preserves_running {A} : preserves f (@running A).
Proof. by intros env st. Qed.

Lemma preserves_emit e : preserves f (emit e).
Proof. by intros env st. Qed.

Lemma preserves_bind {A C} (m : M A) (k : A → M C) :
  preserves f m → (∀ a, preserves f (k a)) → preserves f (m ≫= k).
Proof.
  intros Hm Hk env st. unfold mbind, M_bind, bind.
  specialize (Hm env st).
  destruct (res (m env st)) as [a| |]; [|done..].
  rewrite post_after, Hk. exact Hm.
Qed.

Lemma preserves_try_except {A} (body : M A) handler :
  preserves f body → (∀ e, preserves f (handler e)) →
  preserves f (try_except body handler).
Proof.
  intros Hbody Hhandler env st. unfold try_except.
  specialize (Hbody env st).
  destruct (res (body env st)) as [a|[msg| |]|]; try done.
  rewrite post_after, Hhandler. exact Hbody.
Qed.

Lemma preserves_try_except_KeyboardInterrupt {A} (body handler : M A) :
  preserves f body → preserves f handler →
  preserves f (try_except_KeyboardInterrupt body handler).
Proof.
  intros Hbody Hhandler env st. unfold try_except_KeyboardInterrupt.
  specialize (Hbody env st).
  destruct (res (body env st)) as [a|[msg| |]|]; try done.
  rewrite post_after, Hhandler. exact Hbody.
Qed.

Lemma preserves_log lvl template args : preserves f (log lvl template args).
Proof. by intros env st. Qed.

Lemma preserves_datetime_now tz : preserves f (datetime_now tz).
Proof. intros env st. rewrite datetime_now_eq. apply f_clock. Qed.

Lemma preserves_time_sleep secs : preserves f (time_sleep secs).
Proof.
  intros env st. unfold time_sleep.
  destruct (secs <? 0); [done|].
  unfold mbind, M_bind, bind; simpl.
  destruct (env_sleep env (st_sleeps st)); apply f_sleep.
Qed.

Lemma preserves_getitem {A} (xs : list A) i : preserves f (getitem xs i).
Proof.
  intros env st. unfold getitem.
  destruct (xs !! _); [|done]. by destruct (i <? _).
Qed.

Lemma preserves_get_current_gpu_load : preserves f get_current_gpu_load.
Proof. intros env st. rewrite get_current_gpu_load_eq. apply f_probe. Qed.

Lemma preserves_detect_gpu : preserves f detect_gpu.
Proof. intros env st. rewrite detect_gpu_eq. apply f_probe. Qed.

Lemma preserves_init_supabase : preserves f init_supabase.
Proof.
  intros env st. destruct (init_supabase_returns env st) as (? & _ & ->).
  done.
Qed.

Lemma preserves_execute client r : allowed r → preserves f (execute client r).
Proof.
  intros Hr env st.
  destruct (env_execute env (st_requests st)) as [[]|msg|] eqn:E.
  - rewrite execute_ok by done. cbn [post].
    rewrite <- (f_request st). by apply (f_allowed r (next_request st)).
  - rewrite (execute_fails _ _ _ _ msg) by done. apply f_request.
  - rewrite execute_interrupted by done. apply f_request.
Qed.

Lemma preserves_send_heartbeat_attempts client data attempts :
  allowed (Upsert TABLE_NAME data "node_id") →
  preserves f (send_heartbeat_attempts client data attempts).
Proof.
  intros Hup. induction attempts as [|attempt rest IH]; [apply preserves_ret|].
  cbn [send_heartbeat_attempts]. apply preserves_try_except.
  - apply preserves_bind; [by apply preserves_execute|].
    intros _. apply preserves_ret.
  - intros e. destruct (attempt <? MAX_RETRIES - 1).
    + apply preserves_bind; [apply preserves_getitem|]. intros delay.
      do 2 (apply preserves_bind; [apply preserves_log|intros _]).
      apply preserves_bind; [apply preserves_time_sleep|]. intros _. exact IH.
    + apply preserves_bind; [apply preserves_log|]. intros _.
      apply preserves_ret.
Qed.

Section Node.
Context (client : Client) (node_id : pystr) (gpu_info : GPUInfo).
Hypothesis allowed_upsert :
  ∀ x status t,
    allowed (Upsert TABLE_NAME (heartbeat_data node_id gpu_info x status t)
               "node_id").
Hypothesis allowed_update :
  ∀ t, allowed (Update TABLE_NAME (offline_fields t) "node_id" node_id).

Lemma preserves_send_heartbeat status :
  preserves f (send_heartbeat client node_id gpu_info status).
Proof.
  unfold send_heartbeat.
  apply preserves_bind; [apply preserves_get_current_gpu_load|]. intros x.
  apply preserves_bind; [apply preserves_datetime_now|]. intros t.
  by apply preserves_send_heartbeat_attempts.
Qed.

Lemma preserves_update_status_offline :
  preserves f (update_status_offline client node_id).
Proof.
  unfold update_status_offline. apply preserves_try_except.
  - apply preserves_bind; [apply preserves_datetime_now|]. intros t.
    apply preserves_bind; [by apply preserves_execute|]. intros _.
    apply preserves_log.
  - intros e. apply preserves_log.
Qed.

Lemma preserves_heartbeat_tick :
  preserves f (heartbeat_tick client node_id gpu_info).
Proof.
  unfold heartbeat_tick.
  apply preserves_bind; [apply preserves_send_heartbeat|]. intros success.
  apply preserves_bind; [|intros _; apply preserves_time_sleep].
  destruct success; [|apply preserves_log].
  apply preserves_bind; [apply preserves_datetime_now|]. intros t.
  apply preserves_log.
Qed.

Lemma preserves_heartbeat_forever fuel :
  preserves f (heartbeat_forever fuel client node_id gpu_info).
Proof.
  induction fuel as [|fuel IH]; [apply preserves_running|].
  rewrite heartbeat_forever_S.
  apply preserves_bind; [apply preserves_heartbeat_tick|]. by intros _.
Qed.

Lemma preserves_run_heartbeat_loop fuel :
  preserves f (run_heartbeat_loop fuel client node_id gpu_info).
Proof.
  unfold run_heartbeat_loop.
  do 10 (apply preserves_bind; [apply preserves_log|intros _]).
  apply preserves_try_except_KeyboardInterrupt.
  - apply preserves_heartbeat_forever.
  - do 2 (apply preserves_bind; [apply preserves_log|intros _]).
    apply preserves_bind; [apply preserves_update_status_offline|intros _].
    apply preserves_bind; [apply preserves_log|intros _].
    apply preserves_raise.
Qed.
End Node.
End Preserves.

(** ** The records of the other nodes *)

Lemma apply_request_other (node_id key : pystr) (r : request) (t : registry) :
  touches_only node_id r → key ≠ node_id →
  apply_request r t !! key = t !! key.
Proof.
  intros Hr Hkey. destruct r as [table data on_conflict|table fields column k].
  - simpl in *. rewrite Hr. by rewrite lookup_insert_ne.
  - simpl in Hr. subst k. rewrite apply_update_lookup.
    by rewrite decide_False.
Qed.

Lemma run_heartbeat_loop_other (fuel : nat) (client : Client)
    (node_id : pystr) (gpu_info : GPUInfo) (key : pystr) :
  key ≠ node_id →
  preserves (λ st, st_nodes st !! key)
    (run_heartbeat_loop fuel client node_id gpu_info).
Proof.
  intros Hkey.
  apply (preserves_run_heartbeat_loop (λ st, st_nodes st !! key)
           (touches_only node_id));
    [done|done|done|done| |intros x status t; apply heartbeat_data_node_id
    |done].
  intros r st Hr. cbn [st_nodes set_nodes].
  by apply (apply_request_other node_id).
Qed.

Lemma run_heartbeat_loop_file (fuel : nat) (client : Client)
    (node_id : pystr) (gpu_info : GPUInfo) :
  preserves st_id_file (run_heartbeat_loop fuel client node_id gpu_info).
Proof.
  by apply (preserves_run_heartbeat_loop st_id_file (λ _, True)).
Qed.

Lemma get_or_create_node_id_nodes env st :
  st_nodes (post (get_or_create_node_id env st)) = st_nodes st.
Proof.
  rewrite get_or_create_node_id_eq.
  destruct (existing_node_id env st); [done|].
  by destruct (env_write_error env).
Qed.

(** X20. A run of the program changes no record of the registry but the one
    stored under the node identifier, the one [get_or_create_node_id]
    resolves once the GPU has been probed: every other key holds after the
    run what it held before, however the run ends. *)
Theorem other_records_untouched (fuel : nat) (env : Env) (st : State)
    (node_id key : pystr) :
  res (get_or_create_node_id env (next_probe st)) = Ret node_id →
  key ≠ node_id →
  st_nodes (post (main fuel env st)) !! key = st_nodes st !! key.
Proof.
  intros Hid Hkey.
  destruct (detect_gpu_result env st) as [[[gpu_info|] Hgpu]|Hgpu].
  - destruct (init_supabase_returns env
                (post (get_or_create_node_id env (next_probe st))))
      as (connected & Hinit & _).
    rewrite (main_startup fuel env st gpu_info node_id connected Hgpu Hid Hinit).
    rewrite post_after.
    pose proof (get_or_create_node_id_nodes env (next_probe st)) as Hnodes.
    revert Hnodes. generalize (post (get_or_create_node_id env (next_probe st))).
    intros st' Hnodes. change (st_nodes (next_probe st)) with (st_nodes st) in Hnodes.
    rewrite <- Hnodes. destruct connected as [client|]; [|done].
    by apply (run_heartbeat_loop_other fuel client node_id gpu_info key).
  - by rewrite (main_no_gpu _ _ _ Hgpu).
  - rewrite (main_interrupted_probe _ _ _ Hgpu). cbn [post].
    by rewrite detect_gpu_eq.
Qed.

(** ** The identifier on file and the identifier sent *)

Lemma get_or_create_node_id_file env st :
  env_read_error env = None →
  env_write_error env = None →
  ∃ node_id text,
    res (get_or_create_node_id env st) = Ret node_id ∧
    st_id_file (post (get_or_create_node_id env st)) = Some text ∧
    strip text = node_id.
Proof.
  intros Hread Hwrite. rewrite get_or_create_node_id_eq.
  destruct (existing_node_id env st) as [node_id|] eqn:Hexisting.
  - unfold existing_node_id in Hexisting.
    destruct (st_id_file st) as [text|] eqn:Hfile; [|done].
    rewrite Hread in Hexisting.
    destruct (truthy (strip text)); [|done].
    injection Hexisting as <-. by exists (strip text), text.
  - rewrite Hwrite. exists (new_node_id env st), (new_node_id env st).
    split; [done|]. split; [done|]. apply new_node_id_strip.
Qed.

(** X21. When a GPU is detected and the identifier file can be read and
    written, then however [main] ends the file holds a text whose trimmed
    form is the node identifier, and every upsert of the run is the upsert
    of a heartbeat record of that identifier. *)
Theorem identity_on_file_is_sent (fuel : nat) (env : Env) (st : State)
    (gpu_info : GPUInfo) :
  res (detect_gpu env st) = Ret (Some gpu_info) →
  env_read_error env = None →
  env_write_error env = None →
  ∃ node_id text,
    st_id_file (post (main fuel env st)) = Some text ∧
    strip text = node_id ∧
    Forall (sends_heartbeat node_id gpu_info) (evs (main fuel env st)).
Proof.
  intros Hgpu Hread Hwrite.
  destruct (get_or_create_node_id_file env (next_probe st) Hread Hwrite)
    as (node_id & text & Hid & Hfile & Hstrip).
  exists node_id, text.
  destruct (init_supabase_returns env
              (post (get_or_create_node_id env (next_probe st))))
    as (connected & Hinit & _).
  rewrite (main_startup fuel env st gpu_info node_id connected Hgpu Hid Hinit).
  rewrite post_after, evs_after.
  pose proof (main_startup_events env st (next_probe st)
                (post (get_or_create_node_id env (next_probe st))) gpu_info)
    as Hstart.
  revert Hstart. clear Hid Hinit.
  lazymatch goal with
  | |- Forall _ ?l → _ => generalize l
  end.
  revert Hfile.
  generalize (post (get_or_create_node_id env (next_probe st))).
  intros st' Hfile l Hstart.
  split; [|split; [exact Hstrip|]].
  - destruct connected as [client|]; [|exact Hfile].
    by rewrite (run_heartbeat_loop_file fuel client node_id gpu_info env st').
  - apply Forall_app. split.
    + eapply Forall_impl; [exact Hstart|]. by intros [].
    + destruct connected as [client|];
        [apply run_heartbeat_loop_sends|by repeat constructor].
Qed.

(** ** The load of every record sent *)

Lemma loads_current_app env probe l1 l2 :
  loads_current env probe (l1 ++ l2)
  ↔ loads_current env probe l1 ∧ loads_current env (probe_after probe l1) l2.
Proof.
  revert probe. induction l1 as [|e l1 IH]; intros probe; [simpl; tauto|].
  destruct e as [lvl template args| | | | | |r|secs];
    try (cbn [app loads_current probe_after]; by rewrite IH).
  destruct r as [table data on_conflict|table fields column key];
    cbn [app loads_current probe_after]; rewrite IH; tauto.
Qed.

Lemma probe_after_app probe l1 l2 :
  probe_after probe (l1 ++ l2) = probe_after (probe_after probe l1) l2.
Proof.
  revert probe. induction l1 as [|e l1 IH]; intros probe; [done|].
  destruct e; cbn [app probe_after]; by rewrite IH.
Qed.

Lemma loads_current_quiet env probe l :
  Forall no_delivery l →
  loads_current env probe l ∧ probe_after probe l = probe.
Proof.
  induction 1 as [|e l He _ [IH1 IH2]]; [done|].
  destruct e as [lvl template args| | | | | |r|secs]; try done.
  by destruct r.
Qed.

Lemma startup_no_delivery l : Forall startup_event l → Forall no_delivery l.
Proof. intros H. eapply Forall_impl; [exact H|]. by intros []. Qed.

Lemma loads_current_send_heartbeat client node_id gpu_info status env st :
  let o := send_heartbeat client node_id gpu_info status env st in
  loads_current env (st_probes st) (evs o) ∧
  probe_after (st_probes st) (evs o) = st_probes st ∧
  st_probes (post o) = S (st_probes st).
Proof.
  cbv zeta.
  destruct (send_heartbeat_cases client node_id gpu_info status env st)
    as [(x & Hx & ->) | ->]; [|done].
  rewrite evs_after, post_after.
  pose proof (heartbeat_data_current_load node_id gpu_info x status
                (now_at env (next_probe st) timezone_utc)) as Hload.
  revert Hload.
  generalize (heartbeat_data node_id gpu_info x status
                (now_at env (next_probe st) timezone_utc)).
  assert (Hprobes : st_probes (next_clock (next_probe st)) = S (st_probes st))
    by done.
  revert Hprobes. generalize (next_clock (next_probe st)).
  intros st' Hprobes data Hload.
  assert (Hsent : ∃ x0, sampled_load (env_getGPUs env (st_probes st)) = Ret x0
                        ∧ data !! "current_load"
                          = Some (VFloat (py_round x0 2)))
    by by exists x.
  clear Hx Hload.
  repeat attempt_case;
    cbn [after res post evs app loads_current probe_after
         st_probes next_sleep next_request set_nodes];
    unfold HEARTBEAT_INTERVAL; cbn [Z.eqb Pos.eqb];
    repeat split; done.
Qed.

Lemma st_probes_tick_post st success :
  st_probes (tick_post st success) = st_probes st.
Proof. by destruct success. Qed.

Lemma loads_current_tick_end env probe st success :
  loads_current env probe
    [tick_logged env st success; EvSleep HEARTBEAT_INTERVAL]
  ∧ probe_after probe [tick_logged env st success; EvSleep HEARTBEAT_INTERVAL]
    = S probe.
Proof. by destruct success. Qed.

(** The events of a tick and the number of probes it has made, by the way
    [send_heartbeat] ends. *)
Lemma heartbeat_tick_events client node_id gpu_info env st o :
  send_heartbeat client node_id gpu_info (u "online") env st = o →
  (∃ success,
     evs (heartbeat_tick client node_id gpu_info env st)
     = evs o ++ [tick_logged env (post o) success; EvSleep HEARTBEAT_INTERVAL]
     ∧ st_probes (post (heartbeat_tick client node_id gpu_info env st))
       = st_probes (post o))
  ∨ (evs (heartbeat_tick client node_id gpu_info env st) = evs o
     ∧ res (heartbeat_tick client node_id gpu_info env st)
       = Raise KeyboardInterrupt).
Proof.
  intros Ho.
  destruct (send_heartbeat_result client node_id gpu_info (u "online") env st)
    as [[b Hb] | Hk].
  - left. exists b. rewrite Ho in Hb.
    rewrite (heartbeat_tick_returned _ _ _ _ _ _ b Ho Hb). cbn [evs post].
    split; [reflexivity|]. apply st_probes_tick_post.
  - right. rewrite (heartbeat_tick_raised _ _ _ _ _ _ Hk), Ho. cbn [res evs].
    split; reflexivity.
Qed.

Lemma loads_current_heartbeat_tick client node_id gpu_info env st :
  let o := heartbeat_tick client node_id gpu_info env st in
  loads_current env (st_probes st) (evs o) ∧
  (res o = Ret tt → probe_after (st_probes st) (evs o) = st_probes (post o)).
Proof.
  cbv zeta.
  destruct (loads_current_send_heartbeat client node_id gpu_info (u "online")
              env st) as (Hloads & Hprobe & Hpost).
  pose proof (heartbeat_tick_events client node_id gpu_info env st _ eq_refl)
    as Htick.
  revert Hloads Hprobe Hpost Htick.
  generalize (send_heartbeat client node_id gpu_info (u "online") env st).
  generalize (heartbeat_tick client node_id gpu_info env st).
  intros tick o Hloads Hprobe Hpost [(b & -> & ->) | [-> ->]].
  - destruct (loads_current_tick_end env (st_probes st) (post o) b)
      as [Hend Hnext].
    rewrite loads_current_app, probe_after_app, Hprobe, Hpost, Hnext.
    by split.
  - split; [exact Hloads|]. intros [=].
Qed.

Lemma loads_current_bind {A B} (m : M A) (k : A → M B) env st probe :
  loads_current env probe (evs (m env st)) →
  (∀ a, res (m env st) = Ret a →
        loads_current env (probe_after probe (evs (m env st)))
          (evs (k a env (post (m env st))))) →
  loads_current env probe (evs ((m ≫= k) env st)).
Proof.
  intros Hm Hk. unfold mbind, M_bind, bind.
  destruct (res (m env st)) as [a| |]; [|done..].
  rewrite evs_after, loads_current_app. split; [exact Hm|]. by apply Hk.
Qed.

Lemma loads_current_heartbeat_forever fuel client node_id gpu_info env st :
  loads_current env (st_probes st)
    (evs (heartbeat_forever fuel client node_id gpu_info env st)).
Proof.
  revert st. induction fuel as [|fuel IH]; intros st; [exact I|].
  rewrite heartbeat_forever_S.
  destruct (loads_current_heartbeat_tick client node_id gpu_info env st)
    as [Hloads Hprobe].
  apply loads_current_bind; [exact Hloads|].
  intros [] H. rewrite (Hprobe H). apply IH.
Qed.

Lemma loads_current_run_heartbeat_loop fuel client node_id gpu_info env st :
  loads_current env (st_probes st)
    (evs (run_heartbeat_loop fuel client node_id gpu_info env st)).
Proof.
  pose proof (loads_current_heartbeat_forever fuel client node_id gpu_info
                env st) as Hloads.
  destruct (loads_current_quiet env (st_probes st)
              (startup_banner node_id gpu_info)) as [Hbanner Hprobe];
    [by repeat constructor|].
  destruct (run_heartbeat_loop_cases fuel client node_id gpu_info env st _
              eq_refl) as [[_ ->] | [[st' ->] | ->]];
    revert Hloads;
    generalize (heartbeat_forever fuel client node_id gpu_info env st);
    intros o Hloads; cbn [evs after].
  - rewrite loads_current_app, Hprobe. by split.
  - rewrite !loads_current_app, Hprobe.
    split; [exact Hbanner|]. split; [exact Hloads|].
    unfold offline_mark.
    by destruct (env_execute env (st_requests (post o))) as [[]|?|].
  - rewrite !loads_current_app, Hprobe.
    split; [exact Hbanner|]. split; [exact Hloads|]. by unfold offline_mark.
Qed.

Lemma get_or_create_node_id_probes env st :
  st_probes (post (get_or_create_node_id env st)) = st_probes st.
Proof.
  rewrite get_or_create_node_id_eq.
  destruct (existing_node_id env st); [done|].
  by destruct (env_write_error env).
Qed.

(** C6. In a run of the program, every upsert goes to [TABLE_NAME] keyed by
    [node_id] and carries exactly the six columns: the identifier resolved
    at start-up, the name and the memory of the GPU detected at start-up,
    the current load rounded to two decimals, the status [online], and the
    ISO 8601 form of a time in UTC. The load is the current one: the upserts
    of each tick carry the load sampled from the answer that the probe
    gives in that tick (the first tick reads the answer that follows the
    detection at start-up, and every tick the one after), not a load kept
    from start-up or from an earlier tick. *)
Theorem heartbeat_records_sent (fuel : nat) (env : Env) (st : State)
    (gpu_info : GPUInfo) (node_id : pystr) :
  res (detect_gpu env st) = Ret (Some gpu_info) →
  res (get_or_create_node_id env (post (detect_gpu env st))) = Ret node_id →
  Forall (sends_heartbeat node_id gpu_info) (evs (main fuel env st)) ∧
  loads_current env (S (st_probes st)) (evs (main fuel env st)).
Proof.
  intros Hgpu Hid. split.
  - unfold main.
    assert (Hstart : ∀ e, startup_event e → sends_heartbeat node_id gpu_info e)
      by by intros [].
    do 2 (apply Forall_bind_log; [done|]).
    apply Forall_bind.
    { eapply Forall_impl; [apply detect_gpu_startup | done]. }
    intros ? [= <-]%(eq_trans (eq_sym Hgpu)).
    do 2 (apply Forall_bind_log; [done|]).
    apply Forall_bind.
    { eapply Forall_impl; [apply get_or_create_node_id_startup | done]. }
    intros ? [= <-]%(eq_trans (eq_sym Hid)).
    apply Forall_bind_log; [done|].
    apply (emits_bind (sends_heartbeat node_id gpu_info)).
    + eapply emits_impl; [exact Hstart | apply init_supabase_startup].
    + intros [client|]; [apply run_heartbeat_loop_sends | emits_all].
  - assert (Hpost : post (detect_gpu env st) = next_probe st)
      by by rewrite detect_gpu_eq.
    rewrite Hpost in Hid.
    destruct (init_supabase_returns env
                (post (get_or_create_node_id env (next_probe st))))
      as (connected & Hinit & _).
    rewrite (main_startup fuel env st gpu_info node_id connected Hgpu Hid Hinit).
    rewrite evs_after, loads_current_app.
    destruct (loads_current_quiet env (S (st_probes st)) _
                (startup_no_delivery _
                   (main_startup_events env st (next_probe st)
                      (post (get_or_create_node_id env (next_probe st)))
                      gpu_info))) as [Hstartup ->].
    split; [exact Hstartup|].
    destruct connected as [client|]; [|done].
    pose proof (get_or_create_node_id_probes env (next_probe st)) as Hprobes.
    revert Hprobes.
    generalize (post (get_or_create_node_id env (next_probe st))).
    intros st' Hprobes. cbn [st_probes next_probe] in Hprobes.
    rewrite <- Hprobes. apply loads_current_run_heartbeat_loop.
Qed.

(** ** The further properties on the sample worlds *)

Lemma heartbeat_records_sent_witness :
  Forall (sends_heartbeat (new_node_id env_online st_fresh) sample_info)
    (evs (main 2 env_online st_fresh)) ∧
  loads_current env_online 1 (evs (main 2 env_online st_fresh)).
Proof.
  apply heartbeat_records_sent.
  - vm_compute. reflexivity.
  - vm_compute. reflexivity.
Defined.

Lemma offline_after_heartbeat_witness :
  let o := send_heartbeat sample_client (u "node-1") sample_info (u "online")
             env_online st_fresh in
  res o = Ret true ∧
  env_execute env_online (st_requests (post o)) = Ok tt ∧
  let t := st_nodes (post (update_status_offline sample_client (u "node-1")
                             env_online (post o))) in
  stored t (u "node-1") "status" = Some (VStr (u "offline")) ∧
  stored t (u "node-1") "gpu_name" = Some (VStr (name sample_info)).
Proof.
  cbv zeta.
  assert (H1 : res (send_heartbeat sample_client (u "node-1") sample_info
                      (u "online") env_online st_fresh) = Ret true)
    by (vm_compute; reflexivity).
  assert (H2 : env_execute env_online
                 (st_requests
                    (post (send_heartbeat sample_client (u "node-1")
                             sample_info (u "online") env_online st_fresh)))
               = Ok tt) by reflexivity.
  destruct (offline_after_heartbeat sample_client (u "node-1") sample_info
              env_online st_fresh H1 H2) as (Hstatus & _ & _ & Hname & _).
  split; [exact H1|]. split; [exact H2|]. split; [exact Hstatus|exact Hname].
Defined.

Lemma heartbeat_load_is_fresh_witness :
  env_getGPUs env_online (st_probes st_fresh) = Ok [sample_gpu] ∧
  ∃ data l,
    evs (send_heartbeat sample_client (u "node-1") sample_info (u "online")
           env_online st_fresh)
    = EvGetGPUs :: EvExecute (Upsert TABLE_NAME data "node_id") :: l ∧
    data !! "current_load"
    = Some (VFloat (py_round (gpu_load sample_gpu * 100)%float 2)).
Proof.
  assert (H : env_getGPUs env_online (st_probes st_fresh) = Ok [sample_gpu])
    by reflexivity.
  split; [exact H|].
  destruct (heartbeat_load_is_fresh sample_client (u "node-1") sample_info
              (u "online") env_online st_fresh sample_gpu [] H)
    as (data & l & Hevs & Hload & _).
  exists data, l. split; [exact Hevs|exact Hload].
Defined.

Lemma heartbeat_loop_keeps_running_witness :
  no_stop_signal env_online ∧
  let run := run_heartbeat_loop 2 sample_client (u "node-1") sample_info
               env_online st_fresh in
  res run = Running ∧
  (2 ≤ length (requests (evs run)) ≤ 3 * 2)%nat ∧
  HEARTBEAT_INTERVAL * 2 ≤ total (sleeps (evs run))
    ≤ (HEARTBEAT_INTERVAL + 3) * 2.
Proof.
  assert (H : no_stop_signal env_online) by (repeat split; intros; done).
  split; [exact H|].
  destruct (heartbeat_loop_keeps_running 2 sample_client (u "node-1")
              sample_info env_online st_fresh H)
    as (Hres & _ & Hrequests & Hwaits & _).
  split; [exact Hres|]. split; [exact Hrequests|exact Hwaits].
Defined.

Lemma stop_signal_while_delivering_witness :
  let run := run_heartbeat_loop 1 sample_client (u "node-1") sample_info
               env_stopped_retrying st_fresh in
  res run = Raise (SystemExit 0) ∧ exit_status (res run) = Some 0.
Proof.
  destruct (stop_signal_while_delivering 0 1 sample_client (u "node-1")
              sample_info env_stopped_retrying st_fresh)
    as (Hres & Hstatus & _).
  - reflexivity.
  - vm_compute. reflexivity.
  - vm_compute. discriminate.
  - lia.
  - split; [exact Hres|exact Hstatus].
Defined.

Lemma second_stop_signal_escapes_witness :
  let run := run_heartbeat_loop 1 sample_client (u "node-1") sample_info
               env_stopped_twice st_fresh in
  res run = Raise KeyboardInterrupt ∧ exit_status (res run) = Some 130.
Proof.
  destruct (second_stop_signal_escapes 1 sample_client (u "node-1")
              sample_info env_stopped_twice st_fresh)
    as (Hres & Hstatus & _).
  - vm_compute. reflexivity.
  - vm_compute. reflexivity.
  - split; [exact Hres|exact Hstatus].
Defined.

Lemma detect_gpu_memory_edge_witness :
  env_getGPUs env_nan_memory (st_probes st_fresh)
  = Ok [sample_gpu_nan; sample_gpu] ∧
  (py_int (gpu_memoryTotal sample_gpu_nan) = None ∧
   res (detect_gpu env_nan_memory st_fresh) = Ret None ∧
   ∃ msg,
     evs (detect_gpu env_nan_memory st_fresh)
     = [EvGetGPUs; EvLog ERROR "GPU detection failed: {}" [VStr msg]]) ∧
  ∃ vram,
    py_int (gpu_memoryTotal sample_gpu) = Some vram ∧
    res (detect_gpu env_online st_fresh)
    = Ret (Some {| name := gpu_name sample_gpu; vram_total := vram;
                   driver_version := gpu_driver sample_gpu;
                   load := (gpu_load sample_gpu * 100)%float |}) ∧
    evs (detect_gpu env_online st_fresh) = [EvGetGPUs].
Proof.
  assert (H : env_getGPUs env_nan_memory (st_probes st_fresh)
              = Ok [sample_gpu_nan; sample_gpu]) by reflexivity.
  split; [exact H|]. split.
  - exact (detect_gpu_memory_edge env_nan_memory st_fresh sample_gpu_nan
             [sample_gpu] H).
  - exact (detect_gpu_memory_edge env_online st_fresh sample_gpu [] eq_refl).
Defined.

Lemma identity_survives_abort_witness :
  bad_credentials env_no_credentials ∧
  let o := main 5 env_no_credentials st_fresh in
  res o = Raise (SystemExit 1) ∧
  st_id_file (post o) = Some (new_node_id env_no_credentials st_fresh).
Proof.
  assert (H : bad_credentials env_no_credentials) by (left; reflexivity).
  split; [exact H|].
  destruct (identity_survives_abort 5 env_no_credentials st_fresh sample_info)
    as (Hres & Hfile & _).
  - vm_compute. reflexivity.
  - reflexivity.
  - reflexivity.
  - exact H.
  - split; [exact Hres|exact Hfile].
Defined.

Lemma unwritable_id_file_witness :
  let o := get_or_create_node_id env_read_only st_fresh in
  res o = Ret (new_node_id env_read_only st_fresh) ∧
  EvWriteText NODE_ID_FILE (new_node_id env_read_only st_fresh) ∈ evs o ∧
  res (get_or_create_node_id env_read_only
         (set_id_file (Some []) (post o)))
  = Ret (new_node_id env_read_only (next_random st_fresh)).
Proof.
  destruct (unwritable_id_file env_read_only st_fresh
              (u "Read-only file system"))
    as (Hres & Hwrite & _ & _ & Hagain).
  - reflexivity.
  - reflexivity.
  - split; [exact Hres|]. split; [exact Hwrite|].
    apply Hagain; [by right|reflexivity].
Defined.

Lemma generated_node_id_shape_witness :
  ∃ node_id,
    res (get_or_create_node_id env_online st_fresh) = Ret node_id ∧
    uuid_shaped 5 node_id.
Proof.
  apply generated_node_id_shape. reflexivity.
Defined.

Lemma other_records_untouched_witness :
  u "node-2" ≠ new_node_id env_online st_shared ∧
  st_nodes (post (main 2 env_online st_shared)) !! u "node-2"
  = st_nodes st_shared !! u "node-2".
Proof.
  assert (H : u "node-2" ≠ new_node_id env_online st_shared)
    by (vm_compute; discriminate).
  split; [exact H|].
  apply (other_records_untouched 2 env_online st_shared
           (new_node_id env_online st_shared) (u "node-2")).
  - vm_compute. reflexivity.
  - exact H.
Defined.

Lemma identity_on_file_is_sent_witness :
  ∃ node_id text,
    st_id_file (post (main 2 env_online st_fresh)) = Some text ∧
    strip text = node_id ∧
    Forall (sends_heartbeat node_id sample_info)
      (evs (main 2 env_online st_fresh)).
Proof.
  apply identity_on_file_is_sent.
  - vm_compute. reflexivity.
  - reflexivity.
  - reflexivity.
Defined.
